(** * protonfixes [util.py]: the run-once guard and the winetricks wrapper

    A shallow embedding of the stateful helpers of [util.py]:
    [once], [_forceinstalled], [_checkinstalled], [checkinstalled],
    [is_custom_verb], [check_internet], [_killhanging], [protontricks],
    [set_environment], [del_environment] and [winedll_override], with
    some of the game fixes that call them.

    Scope of the model.  An exception that the source itself catches or
    raises is modelled: the [OSError] of a log that cannot be opened, a
    failed network probe, an exception of a function wrapped by [once].
    So is the [UnicodeDecodeError] that the sweep of [_killhanging] lets
    escape when a command line is not UTF-8.
    Another failure that the source lets escape uncaught (a missing
    [STEAM_COMPAT_DATA_PATH], a marker or forced log that cannot be opened
    for appending, a binary that cannot be executed, a log that is not
    ASCII text, a key that is not a well-formed regular expression) lies
    outside the model: those requests are taken to be honoured.  So does
    an exception that is no [Exception], such as [SystemExit], which ends
    the process.  The prefix is taken to be a directory in which the
    directory of the markers can be made, as Proton sets it up before the
    fixes run, and an exception object is taken to be true where line 122
    tests it, as every exception of the standard library is.  Paths are
    kept as the text the source builds them from.  Calls to [log] are not
    modelled. *)

From Stdlib Require Import ZArith Ascii.
From Stdlib Require Import DecimalString.
From stdpp Require Import gmap strings list fin_maps.

Local Open Scope Z_scope.

(** ** Python [str] methods used by the module *)
Module Text.

Definition LF : ascii := "010"%char.
Definition CR : ascii := "013"%char.

Definition ascii_eqb (a b : ascii) : bool := bool_decide (a = b).
Definition str_eqb (a b : string) : bool := bool_decide (a = b).

(** [c.isspace()] for an ASCII character: TAB, LF, VT, FF, CR, the four
    separators FS, GS, RS, US, and the space. *)
Definition isspace (c : ascii) : bool :=
  let n := N_of_ascii c in
  ((9 <=? n) && (n <=? 13) || (28 <=? n) && (n <=? 32))%N.

Fixpoint lstrip (s : string) : string :=
  match s with
  | String c s' => if isspace c then lstrip s' else s
  | EmptyString => EmptyString
  end.

Fixpoint rstrip (s : string) : string :=
  match s with
  | String c s' =>
      let r := rstrip s' in
      if isspace c && str_eqb r "" then "" else String c r
  | EmptyString => EmptyString
  end.

(** [s.strip()] *)
Definition strip (s : string) : string := rstrip (lstrip s).

(** [s.startswith(p)] *)
Fixpoint startswith (p s : string) : bool :=
  match p, s with
  | EmptyString, _ => true
  | String a p', String b s' => ascii_eqb a b && startswith p' s'
  | String _ _, EmptyString => false
  end.

(** [sub in s] *)
Fixpoint contains (sub s : string) : bool :=
  startswith sub s ||
  match s with
  | String _ s' => contains sub s'
  | EmptyString => false
  end.

(** [s.split(sep)] for a separator of one character; the result is
    never empty. *)
Fixpoint split (sep : ascii) (s : string) : list string :=
  match s with
  | EmptyString => [""]
  | String c s' =>
      if ascii_eqb c sep then "" :: split sep s'
      else match split sep s' with
           | w :: ws => String c w :: ws
           | [] => [String c ""]
           end
  end.

(** [s.replace(old, new)] for a non-empty [old]: occurrences are found
    from the left and do not overlap.  [skip] counts the characters of an
    occurrence already replaced that are still to be dropped. *)
Fixpoint replace_from (old new : string) (skip : nat) (s : string) : string :=
  match s with
  | EmptyString => EmptyString
  | String c s' =>
      match skip with
      | S k => replace_from old new k s'
      | O =>
          if startswith old s
          then new +:+ replace_from old new (Nat.pred (String.length old)) s'
          else String c (replace_from old new O s')
      end
  end.

Definition replace (old new s : string) : string := replace_from old new O s.

(** Text-mode reading translates [\r\n] and a lone [\r] to [\n]. *)
Fixpoint universal_newlines (s : string) : string :=
  match s with
  | EmptyString => EmptyString
  | String c s' =>
      if ascii_eqb c CR then
        match s' with
        | String c' s'' =>
            if ascii_eqb c' LF then String LF (universal_newlines s'')
            else String LF (universal_newlines s')
        | EmptyString => String LF EmptyString
        end
      else String c (universal_newlines s')
  end.

(** Cut a text after each [\n]; every line keeps its terminator. *)
Fixpoint keepends (s : string) : list string :=
  match s with
  | EmptyString => []
  | String c s' =>
      if ascii_eqb c LF then String c "" :: keepends s'
      else match keepends s' with
           | l :: ls => String c l :: ls
           | [] => [String c ""]
           end
  end.

(** [f.readlines()] on a file opened with [mode='r'] whose text is [s]. *)
Definition readlines (s : string) : list string :=
  keepends (universal_newlines s).

End Text.

(** ** The fragment of Python's [re] that the module relies on *)
Module Re.

(** Characters with a special meaning in a pattern outside a class. *)
Definition special (c : ascii) : bool :=
  bool_decide (c ∈ [".";"^";"$";"*";"+";"?";"{";"}";"[";"]";"\";"|";"(";")"]%char).

Definition dot : ascii := "."%char.

(** A pattern made of literal characters and [.] only. *)
Fixpoint simple (p : string) : bool :=
  match p with
  | EmptyString => true
  | String c p' => (negb (special c) || Text.ascii_eqb c dot) && simple p'
  end.

(** A pattern without any special character. *)
Fixpoint literal (p : string) : bool :=
  match p with
  | EmptyString => true
  | String c p' => negb (special c) && literal p'
  end.

(** Does the simple pattern [p] match at the start of [s]?  A [.] stands
    for any character but a newline. *)
Fixpoint match_here (p s : string) : bool :=
  match p, s with
  | EmptyString, _ => true
  | String a p', String b s' =>
      (if Text.ascii_eqb a dot then negb (Text.ascii_eqb b Text.LF)
       else Text.ascii_eqb a b) && match_here p' s'
  | String _ _, EmptyString => false
  end.

(** Truth value of [re.findall('^' + p, s)]: whether [p] matches at the
    start of [s].  Python's engine is followed on simple patterns; on any
    other pattern the answer is left to [meta], which stands for the rest
    of the engine. *)
Definition findall_anchored (meta : string → string → bool) (p s : string) : bool :=
  if simple p then match_here p s else meta p s.

End Re.

(** ** [bytes.decode()]: well-formed UTF-8 *)
Module Utf8.

Definition between (lo hi : N) (c : ascii) : bool :=
  let n := N_of_ascii c in ((lo <=? n) && (n <=? hi))%N.

(** A continuation byte, [80]..[BF] *)
Definition continuation (c : ascii) : bool := between 128 191 c.

(** The second byte after a lead byte [E0]..[EF]: no overlong form after
    [E0], no surrogate after [ED]. *)
Definition second_of_three (lead c : ascii) : bool :=
  if between 224 224 lead then between 160 191 c
  else if between 237 237 lead then between 128 159 c
  else continuation c.

(** The second byte after a lead byte [F0]..[F4]: no overlong form after
    [F0], nothing above U+10FFFF after [F4]. *)
Definition second_of_four (lead c : ascii) : bool :=
  if between 240 240 lead then between 144 191 c
  else if between 244 244 lead then between 128 143 c
  else continuation c.

(** Whether the bytes [s] decode under the strict [utf-8] codec, the
    default of [bytes.decode()]. *)
Fixpoint valid (s : string) : bool :=
  match s with
  | EmptyString => true
  | String b0 s1 =>
      if between 0 127 b0 then valid s1
      else if between 194 223 b0 then
        match s1 with
        | String b1 s2 => continuation b1 && valid s2
        | _ => false
        end
      else if between 224 239 b0 then
        match s1 with
        | String b1 (String b2 s3) =>
            second_of_three b0 b1 && continuation b2 && valid s3
        | _ => false
        end
      else if between 240 244 b0 then
        match s1 with
        | String b1 (String b2 (String b3 s4)) =>
            second_of_four b0 b1 && continuation b2 && continuation b3 && valid s4
        | _ => false
        end
      else false
  end.

End Utf8.

(** ** Values, exceptions and the state of the machine *)

Inductive pyval : Type :=
| PyNone
| PyBool (b : bool)
| PyInt (z : Z)
| PyStr (s : string).

(** An instance of a subclass of [Exception]. *)
Inductive pyexc : Type := PyExc (cls msg : string).

Inductive outcome (A : Type) : Type :=
| Returned (v : A)
| Raised (e : pyexc).
Arguments Returned {A} v.
Arguments Raised {A} e.

(** What lives outside the interpreter: regular files with their text,
    directories, the process table and whether [1.1.1.1:53] can be
    reached.  [procs] is what a sweep of [/proc] reads: for every numeric
    entry whose [cmdline] can be opened, in the order of [os.listdir], the
    pid and the bytes of the command line.  An entry whose [cmdline]
    cannot be opened is passed over by the sweep (line 143) and is left
    out.  What a signal does to a process is not modelled: the table is
    what it is read to be. *)
Record host : Type := Host {
  files : gmap string string;
  dirs : gset string;
  procs : list (nat * string);
  net_up : bool
}.

(** What lives inside the interpreter. *)
Record interp : Type := Interp {
  environ : gmap string string;       (* os.environ *)
  session_env : gmap string string;   (* protonmain.g_session.env *)
  argv : list string;                 (* sys.argv *)
  wine_bin : string;                  (* protonmain.g_proton.wine_bin *)
  wineserver_bin : string;            (* protonmain.g_proton.wineserver_bin *)
  module_dir : string;                (* directory that holds util.py *)
  home : string                       (* what [~] expands to *)
}.

Record state : Type := State { os : host; py : interp }.

(** Requests that leave the interpreter, in the order they are made. *)
Inductive event : Type :=
| EvOpenRead (path : string)
| EvAppend (path text : string)
| EvMkdir (path : string)
| EvConnect
| EvSpawn (cmd : list string) (env : gmap string string)
| EvKill (pid : nat)
| EvCall (func_id : string) (args : list pyval) (kwargs : list (string * pyval)).

Record world : Type := World { st : state; trace : list event }.

Definition with_files (f : gmap string string) (h : host) : host :=
  Host f (dirs h) (procs h) (net_up h).
Definition with_dirs (d : gset string) (h : host) : host :=
  Host (files h) d (procs h) (net_up h).
Definition with_environ (e : gmap string string) (i : interp) : interp :=
  Interp e (session_env i) (argv i) (wine_bin i) (wineserver_bin i) (module_dir i) (home i).
Definition with_session_env (e : gmap string string) (i : interp) : interp :=
  Interp (environ i) e (argv i) (wine_bin i) (wineserver_bin i) (module_dir i) (home i).
Definition with_argv (a : list string) (i : interp) : interp :=
  Interp (environ i) (session_env i) a (wine_bin i) (wineserver_bin i) (module_dir i) (home i).
Definition with_os (h : host) (s : state) : state := State h (py s).
Definition with_py (i : interp) (s : state) : state := State (os s) i.

(** ** A state monad over [world] *)
Definition M (A : Type) : Type := world → A * world.

Definition ret {A} (a : A) : M A := fun w => (a, w).
Definition bind {A B} (m : M A) (k : A → M B) : M B :=
  fun w => let (a, w') := m w in k a w'.

Notation "'let*' x ':=' m 'in' k" := (bind m (fun x => k))
  (at level 10, x pattern, m at level 100, k at level 200).

Definition get : M state := fun w => (st w, w).
Definition modify (f : state → state) : M unit :=
  fun w => (tt, World (f (st w)) (trace w)).
Definition emit (e : event) : M unit :=
  fun w => (tt, World (st w) (trace w ++ [e])).

(** The code outside [util.py] that the module runs into: the part of the
    regular-expression engine beyond simple patterns, and the external
    programs.  [run_process cmd env h] runs [cmd] under [env] to its end on
    host [h] and gives the exit status and the host it leaves. *)
Class Runtime : Type := {
  re_meta : string → string → bool;
  run_process : list string → gmap string string → host → Z * host
}.

(** ** Requests to the operating system *)

(** [Path.exists()] *)
Definition path_exists (p : string) : M bool :=
  let* s := get in
  ret (bool_decide (p ∈ dom (files (os s))) || bool_decide (p ∈ dirs (os s))).

(** [Path.is_file()] *)
Definition is_file (p : string) : M bool :=
  let* s := get in ret (bool_decide (p ∈ dom (files (os s)))).

(** The directories above [s], nearest last; [acc] is the text read so
    far. *)
Fixpoint ancestors_from (acc s : string) : list string :=
  match s with
  | EmptyString => []
  | String c s' =>
      if Text.ascii_eqb c "/"%char
      then (if Text.str_eqb acc "" then [] else [acc]) ++
           ancestors_from (acc +:+ String c "") s'
      else ancestors_from (acc +:+ String c "") s'
  end.

(** [Path.mkdir(parents=True)] *)
Definition mkdir_parents (p : string) : M unit :=
  let* _ := emit (EvMkdir p) in
  modify (fun s =>
    with_os (with_dirs (dirs (os s) ∪ list_to_set (ancestors_from "" p) ∪ {[p]}) (os s)) s).

(** [Path.open(mode='r')] followed by reading the whole text; [None] is
    the [OSError] of a file that cannot be opened. *)
Definition open_read (p : string) : M (option string) :=
  let* _ := emit (EvOpenRead p) in
  let* s := get in ret (files (os s) !! p).

(** [Path.open(mode='a')] followed by writing [text]: the file is created
    when missing. *)
Definition open_append (p text : string) : M unit :=
  let* _ := emit (EvAppend p text) in
  modify (fun s =>
    with_os (with_files (<[p := default "" (files (os s) !! p) +:+ text]> (files (os s))) (os s)) s).

Section Util.
Context `{!Runtime}.

(** [subprocess.call] and [Popen] with [wait]: the program runs to its
    end and its exit status comes back. *)
Definition subprocess_call (cmd : list string) (env : gmap string string) : M Z :=
  let* _ := emit (EvSpawn cmd env) in
  let* s := get in
  let (rc, h) := run_process cmd env (os s) in
  let* _ := modify (with_os h) in
  ret rc.

(** ** [util.py] *)

(** [f"{os.environ['STEAM_COMPAT_DATA_PATH']}/pfx/"] in state [s] *)
Definition prefix_in (s : state) : string :=
  default "" (environ (py s) !! "STEAM_COMPAT_DATA_PATH") +:+ "/pfx/".

Definition protonprefix : M string :=
  let* s := get in ret (prefix_in s).

(** A Python function: its [__module__], its [__name__] and what a call
    does to the state. *)
Record pyfunc : Type := PyFunc {
  fn_module : string;
  fn_name : string;
  fn_body : list pyval → list (string * pyval) → state → outcome pyval * state
}.

(** [f'{func.__module__}.{func.__name__}'] *)
Definition func_id (f : pyfunc) : string := fn_module f +:+ "." +:+ fn_name f.

(** The call of [func] with its arguments (line 113). *)
Definition call (f : pyfunc) (args : list pyval) (kwargs : list (string * pyval))
  : M (outcome pyval) :=
  let* _ := emit (EvCall (func_id f) args kwargs) in
  fun w => let (r, s') := fn_body f args kwargs (st w) in (r, World s' (trace w)).

Definition run_directory (prefix : string) : string := prefix +:+ "drive_c/protonfixes/run".
Definition marker (prefix : string) (f : pyfunc) : string :=
  run_directory prefix +:+ "/" +:+ func_id f.

(** Lines 106-107: the directory of the markers is made when missing. *)
Definition ensure_directory (directory : string) : M unit :=
  let* direxists := path_exists directory in
  if negb direxists then mkdir_parents directory else ret tt.

(** State [s] after [file.open(mode='a')] and [close()] with nothing
    written: the file is there, with the text it had or empty. *)
Definition touched (file : string) (s : state) : state :=
  with_os (with_files (<[file := default "" (files (os s) !! file)]> (files (os s))) (os s)) s.

(** The [wrapper] that [once] returns for [func] (lines 101-125). *)
Definition wrapper (retry : bool) (func : pyfunc)
    (args : list pyval) (kwargs : list (string * pyval)) : M (outcome pyval) :=
  let* prefix := protonprefix in
  let directory := run_directory prefix in
  let file := marker prefix func in
  let* _ := ensure_directory directory in
  let* fileexists := path_exists file in
  if fileexists then ret (Returned PyNone)
  else
    let* r := call func args kwargs in
    match r with
    | Raised exc =>
        if retry then ret (Raised exc)
        else
          let* _ := open_append file "" in
          ret (Raised exc)
    | Returned _ =>
        let* _ := open_append file "" in
        ret (Returned PyNone)
    end.

(** [once(func, retry)]: without a function it returns the decorator
    [functools.partial(once, retry=retry)], with one the wrapper. *)
Definition once (func : option pyfunc) (retry : bool)
  : (pyfunc → list pyval → list (string * pyval) → M (outcome pyval)) +
    (list pyval → list (string * pyval) → M (outcome pyval)) :=
  match func with
  | None => inl (fun f => wrapper retry f)
  | Some f => inr (wrapper retry f)
  end.

(** [Path.mkdir(exist_ok=True)] as a step of a function body: the
    directory must be new or a directory already, and its parent must be
    a directory.  The exceptions are the [OSError]s that [mkdir] raises:
    [FileExistsError] for a file in the way, [NotADirectoryError] for a
    parent that is a file, [FileNotFoundError] for a missing parent. *)
Definition mkdir_exist_ok (p : string) (s : state) : outcome unit * state :=
  if bool_decide (p ∈ dirs (os s)) then (Returned tt, s)
  else if bool_decide (p ∈ dom (files (os s)))
  then (Raised (PyExc "FileExistsError" p), s)
  else
    match last (ancestors_from "" p) with
    | Some parent =>
        if bool_decide (parent ∈ dirs (os s))
        then (Returned tt, with_os (with_dirs (dirs (os s) ∪ {[p]}) (os s)) s)
        else if bool_decide (parent ∈ dom (files (os s)))
        then (Raised (PyExc "NotADirectoryError" p), s)
        else (Raised (PyExc "FileNotFoundError" p), s)
    | None => (Returned tt, with_os (with_dirs (dirs (os s) ∪ {[p]}) (os s)) s)
    end.

Definition uplay_settings : string :=
  "overlay:" +:+ String Text.LF
  ("  enabled: false" +:+ String Text.LF
  ("  forceunhookgame: false" +:+ String Text.LF
  ("  fps_enabled: false" +:+ String Text.LF
  ("  warning_enabled: false" +:+ String Text.LF
  ("user:" +:+ String Text.LF
   "  closebehavior: CloseBehavior_Close"))))).

(** The body of [disable_uplay_overlay] (lines 553-586).  An [OSError]
    of [mkdir] escapes the function; the one of [open], raised when
    [settings.yml] is a directory, is caught and turns the result into
    [False]. *)
Definition disable_uplay_overlay_body
    (_ : list pyval) (_ : list (string * pyval)) (s : state) : outcome pyval * state :=
  let config_dir :=
    prefix_in s +:+
    "drive_c/users/steamuser/Local Settings/Application Data/Ubisoft Game Launcher" in
  let config_file := config_dir +:+ "/settings.yml" in
  match mkdir_exist_ok config_dir s with
  | (Raised e, s') => (Raised e, s')
  | (Returned _, s') =>
      if bool_decide (config_file ∈ dirs (os s')) then (Returned (PyBool false), s')
      else
        (Returned (PyBool true),
         with_os (with_files
                    (<[config_file := default "" (files (os s') !! config_file) +:+
                                      uplay_settings]> (files (os s')))
                    (os s')) s')
  end.

Definition disable_uplay_overlay : pyfunc :=
  PyFunc "protonfixes.util" "disable_uplay_overlay" disable_uplay_overlay_body.

Definition badexes : list string := ["mscorsvw.exe"].

(** Lines 140-142, the loop over [exes] for one process.
    [cmdline.decode()] raises [UnicodeDecodeError] for bytes that are not
    UTF-8; that is a [ValueError], which [except OSError] does not catch.
    The names searched for are ASCII, so a name is in the decoded text
    exactly when its bytes are in the bytes read.  [os.kill] is a request
    to the kernel: it is recorded, and an [OSError] that it raises is
    caught by line 143. *)
Definition decode_error : pyexc := PyExc "UnicodeDecodeError" "utf-8".

Fixpoint kill_if_bad (pid : nat) (cmdline : string) (exes : list string)
  : M (outcome unit) :=
  match exes with
  | [] => ret (Returned tt)
  | exe :: exes' =>
      if negb (Utf8.valid cmdline)
      then ret (Raised decode_error)
      else
        let* _ := (if Text.contains exe cmdline then emit (EvKill pid) else ret tt) in
        kill_if_bad pid cmdline exes'
  end.

(** Lines 136-144, the loop over the processes read. *)
Fixpoint kill_each (ps : list (nat * string)) : M (outcome unit) :=
  match ps with
  | [] => ret (Returned tt)
  | p :: ps' =>
      let* swept := kill_if_bad (fst p) (snd p) badexes in
      match swept with
      | Raised exc => ret (Raised exc)
      | Returned _ => kill_each ps'
      end
  end.

(** [_killhanging] (lines 130-144) *)
Definition _killhanging : M (outcome unit) :=
  let* s := get in
  kill_each (procs (os s)).

Definition _forceinstalled (verb : string) : M unit :=
  let* prefix := protonprefix in
  let forced_log := prefix +:+ "winetricks.log.forced" in
  open_append forced_log (verb +:+ String Text.LF "").

(** The loop of lines 168-170 over the lines read. *)
Definition scan_setting (wt_verb wt_verb_param : string) (lines : list string) : bool :=
  fold_left
    (fun wt_is_set xline =>
       if Re.findall_anchored re_meta wt_verb (Text.strip xline)
       then Text.str_eqb (Text.strip xline) (wt_verb +:+ wt_verb_param)
       else wt_is_set)
    lines false.

(** [_checkinstalled] (lines 154-181).  [verb] is a [str], as every
    caller passes it, so the test of line 156 does not hold. *)
Definition _checkinstalled (verb : string) (logfile : string) : M bool :=
  let* prefix := protonprefix in
  let winetricks_log := prefix +:+ logfile in
  let parts := Text.split "="%char verb in
  if (1 <? length parts)%nat then
    let wt_verb := nth 0 parts "" +:+ "=" in
    let wt_verb_param := nth 1 parts "" in
    let* tricklog := open_read winetricks_log in
    match tricklog with
    | Some text => ret (scan_setting wt_verb wt_verb_param (Text.readlines text))
    | None => ret false
    end
  else
    let* tricklog := open_read winetricks_log in
    match tricklog with
    | Some text =>
        ret (existsb (Text.str_eqb verb) (rev (map Text.strip (Text.readlines text))))
    | None => ret false
    end.

Definition checkinstalled (verb : string) : M bool :=
  if Text.str_eqb verb "gui" then ret false
  else
    let* forced := _checkinstalled verb "winetricks.log.forced" in
    if forced then ret true
    else _checkinstalled verb "winetricks.log".

(** [is_custom_verb]: the path of the verb file, or [None] for [False]. *)
Definition is_custom_verb (verb : string) : M (option string) :=
  if Text.str_eqb verb "gui" then ret None
  else
    let verb_name := verb +:+ ".verb" in
    let verb_dir := "verbs" in
    let* s := get in
    let verbpath := home (py s) +:+ "/.config/protonfixes/localfixes/" +:+ verb_dir in
    let verbfile := verbpath +:+ "/" +:+ verb_name in
    let* local := is_file verbfile in
    if local then ret (Some verbfile)
    else
      let verbpath := module_dir (py s) +:+ "/" +:+ verb_dir in
      let verbfile := verbpath +:+ "/" +:+ verb_name in
      let* bundled := is_file verbfile in
      if bundled then ret (Some verbfile) else ret None.

Definition check_internet : M bool :=
  let* _ := emit EvConnect in
  let* s := get in ret (net_up (os s)).

(** The environment handed to winetricks (lines 244-250). *)
Definition winetricks_env (prefix : string) (s : state) : gmap string string :=
  <["LD_PRELOAD" := ""]>
  (<["WINETRICKS_LATEST_VERSION_CHECK" := "disabled"]>
  (<["WINESERVER" := wineserver_bin (py s)]>
  (<["WINELOADER" := wine_bin (py s)]>
  (<["WINE" := wine_bin (py s)]>
  (<["WINEPREFIX" := prefix]> (session_env (py s))))))).

Definition winetricks_bin (s : state) : string :=
  Text.replace "util.py" "winetricks" (module_dir (py s) +:+ "/util.py").

(** The command of lines 254-261. *)
Definition winetricks_cmd (verb : string) (custom_verb : option string) (s : state)
  : list string :=
  let cmd := [winetricks_bin s; "--unattended"] ++ Text.split " "%char verb in
  let cmd := if Text.str_eqb verb "gui" then [winetricks_bin s; "--unattended"] else cmd in
  match custom_verb with
  | Some path => [winetricks_bin s; "--unattended"; path]
  | None => cmd
  end.

(** Lines 270-273: every argument of [sys.argv] without
    [waitforexitandrun] has its [run] replaced. *)
Definition wait_for_exit (args : list string) : list string :=
  map (fun arg =>
         if negb (Text.contains "waitforexitandrun" arg)
         then Text.replace "run" "waitforexitandrun" arg
         else arg) args.

(** Lines 243-279, reached when the verb is not installed and the
    network answers: the wine server is waited for, winetricks runs to
    its end and the hanging helpers are killed.  [winetricks_bin] is a
    [str], so the test of line 263 never holds and the block of line 266
    always runs.  The result is [process.returncode], unless the sweep of
    line 279 raises. *)
Definition launch_winetricks (verb : string) : M (outcome Z) :=
  let* prefix := protonprefix in
  let* s := get in
  let env := winetricks_env prefix s in
  let* custom_verb := is_custom_verb verb in
  let winetricks_cmd := winetricks_cmd verb custom_verb s in
  let* _ := modify (fun s => with_py (with_argv (wait_for_exit (argv (py s))) (py s)) s) in
  let* _ := subprocess_call [default "" (env !! "WINESERVER"); "-w"] env in
  let* retc := subprocess_call winetricks_cmd env in
  let* swept := _killhanging in
  match swept with
  | Raised exc => ret (Raised exc)
  | Returned _ => ret (Returned retc)
  end.

(** Lines 243-293. *)
Definition run_winetricks (verb : string) : M (outcome bool) :=
  let* launched := launch_winetricks verb in
  match launched with
  | Raised exc => ret (Raised exc)
  | Returned retc =>
      if negb (retc =? 0) then ret (Returned false)
      else
        let* installed := checkinstalled verb in
        let* _ := (if negb installed then _forceinstalled verb else ret tt) in
        ret (Returned true)
  end.

(** [protontricks] (lines 233-295) *)
Definition protontricks (verb : string) : M (outcome bool) :=
  let* installed := checkinstalled verb in
  if negb installed then
    let* online := check_internet in
    if online then run_winetricks verb
    else ret (Returned false)
  else ret (Returned false).

Definition set_environment (envvar value : string) : M unit :=
  modify (fun s =>
    with_py (with_session_env (<[envvar := value]> (session_env (py s)))
              (with_environ (<[envvar := value]> (environ (py s))) (py s))) s).

Definition del_environment (envvar : string) : M unit :=
  let* s := get in
  let* _ := (if bool_decide (envvar ∈ dom (environ (py s)))
             then modify (fun s => with_py (with_environ (delete envvar (environ (py s))) (py s)) s)
             else ret tt) in
  let* s := get in
  if bool_decide (envvar ∈ dom (session_env (py s)))
  then modify (fun s => with_py (with_session_env (delete envvar (session_env (py s))) (py s)) s)
  else ret tt.

End Util.

(** ** What a trace shows *)

(** The commands launched, in order. *)
Definition spawned (tr : list event) : list (list string) :=
  omap (fun e => match e with EvSpawn cmd _ => Some cmd | _ => None end) tr.

(** The texts appended to files, in order. *)
Definition appended (tr : list event) : list (string * string) :=
  omap (fun e => match e with EvAppend p t => Some (p, t) | _ => None end) tr.

(** The files opened for reading, in order. *)
Definition opened (tr : list event) : list string :=
  omap (fun e => match e with EvOpenRead p => Some p | _ => None end) tr.

(** The processes sent a SIGKILL, in order. *)
Definition killed (tr : list event) : list nat :=
  omap (fun e => match e with EvKill pid => Some pid | _ => None end) tr.

(** How many times the function named [id] was called. *)
Definition calls_of (id : string) (tr : list event) : nat :=
  length (List.filter
            (fun e => match e with EvCall id' _ _ => Text.str_eqb id' id | _ => false end) tr).

(** ** Concrete machines for the examples *)

Definition demo_prefix : string := "/compat/223750/pfx/".

Definition demo_interp : interp :=
  Interp {["STEAM_COMPAT_DATA_PATH" := "/compat/223750"]}
         {["SteamGameId" := "223750"]}
         ["/steam/proton/proton"; "run"; "/games/dcs/bin/DCS.exe"]
         "/steam/proton/files/bin/wine"
         "/steam/proton/files/bin/wineserver"
         "/steam/proton/protonfixes"
         "/home/deck".

(** A host whose prefix holds the given files. *)
Definition demo_host (fs : list (string * string)) (net : bool) : host :=
  Host (list_to_map fs) {["/compat/223750/pfx"]}
       [(4711%nat, "C:\windows\system32\services.exe"); (4712%nat, "mscorsvw.exe -StartupEvent")]
       net.

Definition demo_world (fs : list (string * string)) (net : bool) : world :=
  World (State (demo_host fs net) demo_interp) [].

Definition line (s : string) : string := s +:+ String Text.LF "".

(** A winetricks that records every verb it is given in
    [winetricks.log] and exits with status 0; any other program exits
    with status 0 and changes nothing. *)
Definition recording_process (cmd : list string) (env : gmap string string) (h : host)
  : Z * host :=
  match cmd with
  | bin :: "--unattended" :: verbs =>
      let log := default "" (env !! "WINEPREFIX") +:+ "winetricks.log" in
      (0, with_files (<[log := default "" (files h !! log) +:+
                                 foldr (fun v acc => line v +:+ acc) "" verbs]> (files h)) h)
  | _ => (0, h)
  end.

Definition rt_recording : Runtime :=
  {| re_meta := fun _ _ => false; run_process := recording_process |}.

(** A winetricks that exits with status 0 and records nothing. *)
Definition rt_silent : Runtime :=
  {| re_meta := fun _ _ => false; run_process := fun _ _ h => (0, h) |}.

(** A winetricks that fails with status 1. *)
Definition rt_failing : Runtime :=
  {| re_meta := fun _ _ => false;
     run_process := fun cmd _ h =>
       match cmd with _ :: "--unattended" :: _ => (1, h) | _ => (0, h) end |}.

(** [w] with the file [p] replaced by [content], or removed. *)
Definition write_file (p : string) (content : option string) (w : world) : world :=
  World (with_os (with_files (partial_alter (fun _ => content) p (files (os (st w))))
                    (os (st w))) (st w))
        (trace w).

(** The verb is in the regular log already. *)
Definition w_installed : world :=
  demo_world [(demo_prefix +:+ "winetricks.log", line "d3dx11_43")] true.

(** The forced log holds [gui], as a run of [protontricks('gui')] that
    succeeded leaves it. *)
Definition w_gui_forced : world :=
  demo_world [(demo_prefix +:+ "winetricks.log.forced", line "gui")] true.

(** Nothing installed, network down. *)
Definition w_offline : world := demo_world [] false.

(** Nothing installed, network up. *)
Definition w_fresh : world := demo_world [] true.

(** A prefix in which the directory above Ubisoft's settings exists. *)
Definition w_uplay : world :=
  World (State (Host ∅
                  {["/compat/223750/pfx";
                    "/compat/223750/pfx/drive_c/users/steamuser/Local Settings/Application Data"]}
                  [] true)
               demo_interp) [].

(** Two settings handed to [protontricks] in one string, as line 254
    allows by splitting the verb at its spaces. *)
Definition two_settings : string := "sound=alsa fontsmooth=rgb".

(** The regular log holds [a.b=c] and, after it, [axb=c]. *)
Definition w_dotted : world :=
  demo_world [(demo_prefix +:+ "winetricks.log", line "a.b=c" +:+ line "axb=c")] true.

(** ** More of [util.py] and the game fixes

    The functions below return an [outcome] where the source lets an
    exception escape that the statements are about. *)

Module Str.

(** [sep.join(l)] *)
Fixpoint join (sep : string) (l : list string) : string :=
  match l with
  | [] => ""
  | [x] => x
  | x :: l' => x +:+ sep +:+ join sep l'
  end.

(** [str(z)] for an [int] *)
Definition of_int (z : Z) : string := NilZero.string_of_int (Z.to_int z).

(** [map(str, range(n))] for a positive [n] *)
Definition range_strs (n : Z) : list string :=
  map (fun i => of_int (Z.of_nat i)) (seq 0 (Z.to_nat n)).

(** Truth value of a [str] or [None]: [None] and the empty text are
    false. *)
Definition truthy (o : option string) : bool :=
  match o with
  | Some s => negb (Text.str_eqb s "")
  | None => false
  end.

End Str.

Section MoreUtil.
Context `{!Runtime}.

(** [append_argument] (lines 385-389) *)
Definition append_argument (argument : string) : M unit :=
  modify (fun s => with_py (with_argv (argv (py s) ++ [argument]) (py s)) s).

(** [get_game_install_path] (lines 408-415); [os.environ['PWD']] raises
    [KeyError] when the variable is missing. *)
Definition get_game_install_path : M (outcome string) :=
  let* s := get in
  match environ (py s) !! "PWD" with
  | None => ret (Raised (PyExc "KeyError" "PWD"))
  | Some install_path =>
      if bool_decide ("STEAM_COMPAT_INSTALL_PATH" ∈ dom (environ (py s)))
      then ret (Returned (default "" (environ (py s) !! "STEAM_COMPAT_INSTALL_PATH")))
      else ret (Returned install_path)
  end.

(** [disable_protonmediaconverter] (lines 543-549) *)
Definition disable_protonmediaconverter : M unit :=
  let* _ := set_environment "PROTON_AUDIO_CONVERT" "0" in
  let* _ := set_environment "PROTON_AUDIO_CONVERT_BIN" "0" in
  let* _ := set_environment "PROTON_VIDEO_CONVERT" "0" in
  set_environment "PROTON_DEMUX" "0".

Definition smt_active_file : string := "/sys/devices/system/cpu/smt/active".

(** [is_smt_enabled] (lines 879-892): both [PermissionError] and any
    other [OSError] of [open] give [False]. *)
Definition is_smt_enabled : M bool :=
  let* smt_file := open_read smt_active_file in
  match smt_file with
  | Some text => ret (Text.str_eqb (Text.strip (Text.universal_newlines text)) "1")
  | None => ret false
  end.

(** [get_cpu_count] (lines 895-904); [os_cpu_count] is what
    [os.cpu_count()] answers, [None] when the count is unknown. *)
Definition get_cpu_count (os_cpu_count : option Z) : Z :=
  match os_cpu_count with
  | None => 0
  | Some cpu_cores => if (cpu_cores =? 0) || (cpu_cores <=? 0) then 0 else cpu_cores
  end.

(** The text [f'{core_count}:{",".join(map(str, range(core_count)))}'] *)
Definition cpu_topology (core_count : Z) : string :=
  Str.of_int core_count +:+ ":" +:+ Str.join "," (Str.range_strs core_count).

(** [set_cpu_topology] (lines 907-928) *)
Definition set_cpu_topology (core_count : Z) (ignore_user_setting : bool) : M bool :=
  let* s := get in
  let user_topo := environ (py s) !! "WINE_CPU_TOPOLOGY" in
  if Str.truthy user_topo && negb ignore_user_setting then ret false
  else if (core_count =? 0) || (core_count <=? 0) then ret false
  else
    let* _ := set_environment "WINE_CPU_TOPOLOGY" (cpu_topology core_count) in
    ret true.

(** [set_cpu_topology_nosmt] (lines 931-947); the floor division raises
    [ZeroDivisionError] for [threads_per_core = 0]. *)
Definition set_cpu_topology_nosmt (os_cpu_count : option Z)
    (core_limit : Z) (ignore_user_setting : bool) (threads_per_core : Z)
  : M (outcome bool) :=
  let* smt := is_smt_enabled in
  if negb smt then ret (Returned false)
  else if threads_per_core =? 0
  then ret (Raised (PyExc "ZeroDivisionError" "integer division or modulo by zero"))
  else
    let cpu_cores := get_cpu_count os_cpu_count / threads_per_core in
    let cpu_cores := Z.max cpu_cores (Z.min cpu_cores core_limit) in
    let* done := set_cpu_topology cpu_cores ignore_user_setting in
    ret (Returned done).

(** [set_cpu_topology_limit] (lines 950-964) *)
Definition set_cpu_topology_limit (os_cpu_count : option Z)
    (core_limit : Z) (ignore_user_setting : bool) : M bool :=
  let cpu_cores := get_cpu_count os_cpu_count in
  if core_limit >=? cpu_cores then ret false
  else set_cpu_topology core_limit ignore_user_setting.

(** [open(p, 'w').close()] for a path [p] in the directory [parent]: the
    file is created, or emptied.  [open] raises [IsADirectoryError] when
    [p] is a directory, [NotADirectoryError] when [parent] is a file and
    [FileNotFoundError] when there is no [parent]. *)
Definition open_write_close (parent p : string) : M (outcome unit) :=
  let* s := get in
  if bool_decide (p ∈ dirs (os s))
  then ret (Raised (PyExc "IsADirectoryError" p))
  else if bool_decide (parent ∈ dirs (os s)) then
    let* _ := modify (fun s => with_os (with_files (<[p := ""]> (files (os s))) (os s)) s) in
    ret (Returned tt)
  else if bool_decide (parent ∈ dom (files (os s)))
  then ret (Raised (PyExc "NotADirectoryError" p))
  else ret (Raised (PyExc "FileNotFoundError" p)).

(** [gamefixes-steam/1245620.py], [main] *)
Definition main_1245620 : M (outcome unit) :=
  let* path := get_game_install_path in
  match path with
  | Raised exc => ret (Raised exc)
  | Returned install_path =>
      let* found := path_exists (install_path +:+ "/Game/DLC.bdt") in
      if negb found then
        let* path := get_game_install_path in
        match path with
        | Raised exc => ret (Raised exc)
        | Returned install_path =>
            open_write_close (install_path +:+ "/Game") (install_path +:+ "/Game/DLC.bdt")
        end
      else ret (Returned tt)
  end.

(** [gamefixes-steam/359550.py], [main]: [disable_uplay_overlay] is the
    function as [@once] decorates it. *)
Definition main_359550 : M (outcome unit) :=
  let* overlay := wrapper false disable_uplay_overlay [] [] in
  match overlay with
  | Raised exc => ret (Raised exc)
  | Returned _ =>
      let* _ := set_environment "vk_x11_override_min_image_count" "2" in
      ret (Returned tt)
  end.

(** [gamefixes-steam/2458530.py], [main] *)
Definition main_2458530 : M (outcome unit) :=
  let* quartz := protontricks "quartz" in
  match quartz with
  | Raised exc => ret (Raised exc)
  | Returned _ =>
      let* wmp11 := protontricks "wmp11" in
      match wmp11 with
      | Raised exc => ret (Raised exc)
      | Returned _ =>
          let* qasf := protontricks "qasf" in
          match qasf with
          | Raised exc => ret (Raised exc)
          | Returned _ => ret (Returned tt)
          end
      end
  end.

End MoreUtil.

(** The helpers of Proton's main script that [util.py] reaches through
    [protonmain]; they are no part of these sources.
    [append_to_env_str env variable text separator] is the mapping that
    the call leaves in [env]. *)
Class Proton : Type := {
  append_to_env_str :
    gmap string string → string → string → string → gmap string string
}.

Section Overrides.
Context `{!Proton}.

(** [winedll_override] (lines 418-424): the mapping handed over is the
    session's copy; [os.environ] is not. *)
Definition winedll_override (dll dtype : string) : M unit :=
  let setting := dll +:+ "=" +:+ dtype in
  modify (fun s =>
    with_py (with_session_env
               (append_to_env_str (session_env (py s)) "WINEDLLOVERRIDES" setting ";")
               (py s)) s).

End Overrides.

(** [append_to_env_str] as Proton has it: the text is stored under the
    variable, after the old value and the separator when there is one. *)
Definition proton_append : Proton :=
  {| append_to_env_str := fun env variable text separator =>
       match env !! variable with
       | Some old => <[variable := old +:+ separator +:+ text]> env
       | None => <[variable := text]> env
       end |}.

(** A text that is empty or ends with a newline, as every text does
    that was only ever written line by line. *)
Fixpoint newline_ended (s : string) : bool :=
  match s with
  | EmptyString => true
  | String c s' =>
      match s' with
      | EmptyString => Text.ascii_eqb c Text.LF
      | String _ _ => newline_ended s'
      end
  end.

(** A verb that stands on one line and has no blank at either end. *)
Definition one_line (verb : string) : Prop :=
  Text.strip verb = verb ∧
  Text.contains (String Text.LF "") verb = false ∧
  Text.contains (String Text.CR "") verb = false.

(** A verb the installed check is made for: a bare verb, or one
    setting [key=value] whose key has no character that is special in a
    regular expression. *)
Definition plain_verb (verb : string) : Prop :=
  Text.contains "=" verb = false ∨
  ∃ key value,
    verb = key +:+ "=" +:+ value ∧ Re.literal key = true ∧
    Text.contains "=" key = false ∧ Text.contains "=" value = false.

(** The lines of a log as the installed check reads them. *)
Definition log_lines (text : string) : list string :=
  map Text.strip (Text.readlines text).

(** A verb that is present in the text of a log, by the matching rule
    of the data model: a bare verb is one of the lines; a setting
    [key=value] is the latest of the lines that start with [key=]. *)
Definition present_in (verb text : string) : Prop :=
  (Text.contains "=" verb = false ∧ verb ∈ log_lines text) ∨
  ∃ key value,
    verb = key +:+ "=" +:+ value ∧ Re.literal key = true ∧
    Text.contains "=" key = false ∧ Text.contains "=" value = false ∧
    last (List.filter (Text.startswith (key +:+ "=")) (log_lines text)) = Some verb.

(** Every command line of a process table decodes as UTF-8. *)
Definition decodable (ps : list (nat * string)) : bool :=
  forallb (fun p => Utf8.valid (snd p)) ps.

(** The processes that the sweep of [_killhanging] gets to: those read
    before the first command line that does not decode. *)
Fixpoint swept (ps : list (nat * string)) : list (nat * string) :=
  match ps with
  | [] => []
  | p :: ps' => if Utf8.valid (snd p) then p :: swept ps' else []
  end.

(** A process whose command line holds [mscorsvw.exe] *)
Definition hanging (p : nat * string) : bool := Text.contains "mscorsvw.exe" (snd p).

(** Where [is_custom_verb] looks for the file of a verb: below the
    user's configuration first, beside [util.py] second. *)
Definition local_verb_file (verb : string) (s : state) : string :=
  home (py s) +:+ "/.config/protonfixes/localfixes/verbs/" +:+ verb +:+ ".verb".

Definition bundled_verb_file (verb : string) (s : state) : string :=
  module_dir (py s) +:+ "/verbs/" +:+ verb +:+ ".verb".

(** The variables that [disable_protonmediaconverter] sets. *)
Definition media_converter_variables : list string :=
  ["PROTON_AUDIO_CONVERT"; "PROTON_AUDIO_CONVERT_BIN"; "PROTON_VIDEO_CONVERT"; "PROTON_DEMUX"].

(** The text of the forced log, empty when there is none. *)
Definition forced_log_text (s : state) : string :=
  default "" (files (os s) !! (prefix_in s +:+ "winetricks.log.forced")).

(** The first [n] decimal texts of a topology, read back from it. *)
Definition topology_ids (topology : string) : list string :=
  match Text.split ":"%char topology with
  | [_; ids] => Text.split ","%char ids
  | _ => []
  end.

(** A machine with two hanging helpers among its processes. *)
Definition w_busy : world :=
  World (State (Host ∅ ∅
                  [(1%nat, "/sbin/init"); (20%nat, "mscorsvw.exe"); (21%nat, "wineserver");
                   (22%nat, "C:\windows\mscorsvw.exe -StartupEvent 1"); (23%nat, "explorer.exe")]
                  true)
               demo_interp) [].

(** A machine that tells its SMT state and has a game directory. *)
Definition w_smt : world :=
  World (State (Host {[smt_active_file := line "1"]} {["/games/eldenring/Game"]} [] true)
               (with_environ {["PWD" := "/games/eldenring"; "STEAM_COMPAT_DATA_PATH" := "/compat/1245620"]}
                  demo_interp)) [].

(** The regular log holds two lines for the key [sound]. *)
Definition w_two_sounds : world :=
  demo_world [(demo_prefix +:+ "winetricks.log", line "sound=pulse" +:+ line "sound=alsa")] true.

(** The bundled file of a custom verb is there. *)
Definition w_bundled_verb : world :=
  demo_world [("/steam/proton/protonfixes/verbs/gothic.verb", line "w_metadata gothic")] true.

(** The forced log holds two lines for the key [sound]. *)
Definition w_forced_sounds : world :=
  demo_world [(demo_prefix +:+ "winetricks.log.forced",
               line "sound=pulse" +:+ line "sound=alsa")] true.

(** A machine on which a game runs from a path that is Latin-1, not
    UTF-8: byte [E9] in [caf\xe9], and a hanging helper after it. *)
Definition w_latin1 : world :=
  World (State (Host ∅ {["/compat/223750/pfx"]}
                  [(4711%nat, "C:\windows\system32\services.exe");
                   (4713%nat, "Z:\games\caf" +:+ String "233"%char "\game.exe");
                   (4712%nat, "mscorsvw.exe -StartupEvent")]
                  true)
               demo_interp) [].

(** A function with the module and the name of [disable_uplay_overlay]
    that does nothing. *)
Definition overlay_stub : pyfunc :=
  PyFunc "protonfixes.util" "disable_uplay_overlay" (fun _ _ s => (Returned PyNone, s)).

(** * Properties *)

Ltac run_monad :=
  unfold bind, ret, get, modify, emit in *; simpl in *.

Section Properties.
Context `{!Runtime}.

(** ** Trace observers *)

Lemma spawned_app (a b : list event) : spawned (a ++ b) = spawned a ++ spawned b.
Proof. apply omap_app. Qed.

Lemma appended_app (a b : list event) : appended (a ++ b) = appended a ++ appended b.
Proof. apply omap_app. Qed.

Lemma spawned_reads (ps : list string) : spawned (map EvOpenRead ps) = [].
Proof. induction ps; simpl; auto. Qed.

Lemma appended_reads (ps : list string) : appended (map EvOpenRead ps) = [].
Proof. induction ps; simpl; auto. Qed.

Lemma calls_of_app (id : string) (a b : list event) :
  calls_of id (a ++ b) = (calls_of id a + calls_of id b)%nat.
Proof. unfold calls_of. rewrite List.filter_app, length_app. reflexivity. Qed.

Lemma calls_of_call (id : string) (args : list pyval) (kwargs : list (string * pyval)) :
  calls_of id [EvCall id args kwargs] = 1%nat.
Proof.
  unfold calls_of, Text.str_eqb. cbn [List.filter].
  rewrite bool_decide_eq_true_2 by reflexivity. reflexivity.
Qed.

Lemma calls_of_append (id p text : string) : calls_of id [EvAppend p text] = 0%nat.
Proof. reflexivity. Qed.

(** ** The installed check leaves the machine alone *)

Lemma _checkinstalled_world (verb logfile : string) (w : world) :
  snd (_checkinstalled verb logfile w) =
  World (st w) (trace w ++ [EvOpenRead (fst (protonprefix w) +:+ logfile)]).
Proof.
  unfold _checkinstalled, protonprefix, open_read. run_monad.
  destruct (1 <? length (Text.split "=" verb))%nat; simpl;
    destruct (files (os (st w)) !! _); reflexivity.
Qed.

(** The verdict only depends on the prefix and on the text of the log. *)
Lemma _checkinstalled_ext (verb logfile : string) (w w' : world) :
  fst (protonprefix w) = fst (protonprefix w') →
  files (os (st w)) !! (fst (protonprefix w) +:+ logfile) =
    files (os (st w')) !! (fst (protonprefix w) +:+ logfile) →
  fst (_checkinstalled verb logfile w) = fst (_checkinstalled verb logfile w').
Proof.
  unfold _checkinstalled, protonprefix, open_read. run_monad.
  intros Hp Hf. rewrite <- Hp.
  destruct (1 <? length (Text.split "=" verb))%nat; simpl; rewrite <- Hf;
    destruct (files (os (st w)) !! _); reflexivity.
Qed.

Lemma checkinstalled_world (verb : string) (w : world) :
  ∃ reads, snd (checkinstalled verb w) = World (st w) (trace w ++ map EvOpenRead reads).
Proof.
  unfold checkinstalled. destruct (Text.str_eqb verb "gui").
  - exists []. simpl. rewrite app_nil_r. destruct w; reflexivity.
  - unfold bind.
    destruct (_checkinstalled verb "winetricks.log.forced" w) as [b w1] eqn:E1.
    pose proof (_checkinstalled_world verb "winetricks.log.forced" w) as H1.
    rewrite E1 in H1. simpl in H1. subst w1.
    destruct b.
    + eexists [_]. reflexivity.
    + rewrite (surjective_pairing (_checkinstalled verb "winetricks.log" _)).
      simpl. rewrite _checkinstalled_world. simpl.
      eexists [_; _]. rewrite <- app_assoc. reflexivity.
Qed.

Lemma checkinstalled_st (verb : string) (w : world) :
  st (snd (checkinstalled verb w)) = st w.
Proof. destruct (checkinstalled_world verb w) as [r ->]. reflexivity. Qed.

(** The verdict of [checkinstalled] spelled out. *)
Lemma checkinstalled_true_iff (verb : string) (w : world) :
  fst (checkinstalled verb w) = true ↔
  verb ≠ "gui" ∧
  (fst (_checkinstalled verb "winetricks.log.forced" w) = true ∨
   fst (_checkinstalled verb "winetricks.log" w) = true).
Proof.
  unfold checkinstalled, Text.str_eqb. case_bool_decide as Hg; simpl.
  - split; [discriminate | intros [? _]; contradiction].
  - unfold bind.
    destruct (_checkinstalled verb "winetricks.log.forced" w) as [b w1] eqn:E1.
    pose proof (_checkinstalled_world verb "winetricks.log.forced" w) as H1.
    rewrite E1 in H1. simpl in H1. simpl.
    destruct b; simpl.
    + split; auto.
    + rewrite (_checkinstalled_ext verb "winetricks.log" w1 w); subst w1; auto.
      split; [auto | intros [_ [?|?]]; [discriminate | assumption]].
Qed.

(** ** [protontricks] when nothing is to be run *)

(** C1, as amended: for every verb that [checkinstalled] reports
    installed, [protontricks] returns at once without probing the network
    and without launching any program, its only requests being the reads
    of the installed check; the value returned is [False], the one it also
    gives on failure, [True] being kept for a run of winetricks that
    succeeded. *)
Theorem protontricks_installed_skips (verb : string) (w : world) :
  fst (checkinstalled verb w) = true →
  fst (protontricks verb w) = Returned false ∧
  st (snd (protontricks verb w)) = st w ∧
  spawned (trace (snd (protontricks verb w))) = spawned (trace w) ∧
  ∃ reads, trace (snd (protontricks verb w)) = trace w ++ map EvOpenRead reads.
Proof.
  intros Hi. unfold protontricks, bind.
  destruct (checkinstalled_world verb w) as [reads Hw].
  destruct (checkinstalled verb w) as [b w1]. simpl in *. subst b w1. simpl.
  repeat split; [| exists reads; reflexivity].
  rewrite spawned_app, spawned_reads, app_nil_r. reflexivity.
Qed.

(** C6: for every verb that is not installed, when the network probe
    fails [protontricks] returns [False], leaves the machine as it was and
    launches no program: after the reads of the installed check the probe
    is its last request. *)
Theorem protontricks_offline (verb : string) (w : world) :
  fst (checkinstalled verb w) = false →
  net_up (os (st w)) = false →
  fst (protontricks verb w) = Returned false ∧
  st (snd (protontricks verb w)) = st w ∧
  spawned (trace (snd (protontricks verb w))) = spawned (trace w) ∧
  ∃ reads,
    trace (snd (protontricks verb w)) = trace w ++ map EvOpenRead reads ++ [EvConnect].
Proof.
  intros Hi Hn. unfold protontricks, bind.
  destruct (checkinstalled_world verb w) as [reads Hw].
  destruct (checkinstalled verb w) as [b w1]. simpl in *. subst b w1. simpl.
  unfold check_internet. run_monad. rewrite Hn. simpl.
  repeat split; [| exists reads; rewrite <- app_assoc; reflexivity].
  rewrite !spawned_app, spawned_reads. simpl. rewrite !app_nil_r. reflexivity.
Qed.

(** ** The forced log *)

Lemma lookup_write_file_ne (p q : string) (c : option string) (w : world) :
  p ≠ q → files (os (st (write_file p c w))) !! q = files (os (st w)) !! q.
Proof. intros Hne. simpl. apply lookup_partial_alter_ne. exact Hne. Qed.

(** ** The environment helpers *)

(** C8, as amended: [set_environment] writes the pair into [os.environ]
    and into the session's copy, [del_environment] removes the key from
    both; after either call the two mappings agree on that key, every
    other key is as before, and mappings that were equal stay equal. *)
Theorem environment_helpers_in_sync (envvar value : string) (w : world) :
  let w1 := snd (set_environment envvar value w) in
  let w2 := snd (del_environment envvar w) in
  (environ (py (st w1)) = <[envvar := value]> (environ (py (st w))) ∧
   session_env (py (st w1)) = <[envvar := value]> (session_env (py (st w)))) ∧
  (environ (py (st w2)) = delete envvar (environ (py (st w))) ∧
   session_env (py (st w2)) = delete envvar (session_env (py (st w)))) ∧
  (environ (py (st w1)) !! envvar = Some value ∧
   session_env (py (st w1)) !! envvar = Some value) ∧
  (environ (py (st w2)) !! envvar = None ∧
   session_env (py (st w2)) !! envvar = None) ∧
  (environ (py (st w)) = session_env (py (st w)) →
   environ (py (st w1)) = session_env (py (st w1)) ∧
   environ (py (st w2)) = session_env (py (st w2))).
Proof.
  intros w1 w2.
  assert (H1 : environ (py (st w1)) = <[envvar := value]> (environ (py (st w))) ∧
               session_env (py (st w1)) = <[envvar := value]> (session_env (py (st w)))).
  { split; reflexivity. }
  assert (H2 : environ (py (st w2)) = delete envvar (environ (py (st w))) ∧
               session_env (py (st w2)) = delete envvar (session_env (py (st w)))).
  { subst w2. unfold del_environment. run_monad.
    destruct (bool_decide (envvar ∈ dom (environ (py (st w))))) eqn:E1; simpl;
      destruct (bool_decide (envvar ∈ dom (session_env (py (st w))))) eqn:E2; simpl;
      repeat match goal with
      | E : bool_decide _ = false |- _ =>
          apply bool_decide_eq_false in E; apply not_elem_of_dom in E
      end;
      split; try reflexivity; symmetry; apply delete_id; assumption. }
  destruct H1 as [H1a H1b], H2 as [H2a H2b].
  split; [split; assumption |]. split; [split; assumption |].
  rewrite H1a, H1b, H2a, H2b.
  split; [split; apply lookup_insert_eq |].
  split; [split; apply lookup_delete_eq |].
  intros ->. split; reflexivity.
Qed.

(** ** The run-once guard *)

Lemma length_app (a b : string) :
  String.length (a +:+ b) = (String.length a + String.length b)%nat.
Proof. induction a as [|c a IH]; simpl; [reflexivity | rewrite <- IH; reflexivity]. Qed.

Lemma ancestors_shorter (s acc a : string) :
  a ∈ ancestors_from acc s →
  (String.length a < String.length acc + String.length s)%nat.
Proof.
  revert acc. induction s as [|c s IH]; intros acc Ha; simpl in Ha.
  - inversion Ha.
  - assert (Hrec : a ∈ ancestors_from (acc +:+ String c "") s →
                   (String.length a < String.length acc + String.length (String c s))%nat).
    { intros Hin. apply IH in Hin. rewrite length_app in Hin. simpl in *. lia. }
    destruct (Text.ascii_eqb c "/"); [| auto].
    apply elem_of_app in Ha as [Ha | Ha]; [| auto].
    unfold Text.str_eqb in Ha. case_bool_decide; [inversion Ha |].
    apply list_elem_of_singleton in Ha. subst a. simpl. lia.
Qed.

Lemma marker_not_a_directory_made (prefix : string) (f : pyfunc) :
  marker prefix f ∉
    (list_to_set (ancestors_from "" (run_directory prefix)) ∪ {[run_directory prefix]}
       : gset string).
Proof.
  assert (Hlen : (String.length (run_directory prefix) <
                  String.length (marker prefix f))%nat).
  { unfold marker. rewrite !length_app. simpl. lia. }
  intros [Hin | Hin]%elem_of_union.
  - apply elem_of_list_to_set, ancestors_shorter in Hin. simpl in Hin. lia.
  - apply elem_of_singleton in Hin. rewrite Hin in Hlen. lia.
Qed.

Lemma bind_eq {A B : Type} (m : M A) (k : A → M B) (w : world) :
  bind m k w = k (fst (m w)) (snd (m w)).
Proof. unfold bind. destruct (m w). reflexivity. Qed.

Lemma path_exists_world (p : string) (w : world) : snd (path_exists p w) = w.
Proof. destruct w; reflexivity. Qed.

(** Making the directory of the markers touches neither a file nor the
    interpreter, and no marker comes to exist by it. *)
Lemma ensure_directory_frame (prefix : string) (f : pyfunc) (w : world) :
  let w' := snd (ensure_directory (run_directory prefix) w) in
  files (os (st w')) = files (os (st w)) ∧
  py (st w') = py (st w) ∧
  fst (path_exists (marker prefix f) w') = fst (path_exists (marker prefix f) w) ∧
  ∃ ev, trace w' = trace w ++ ev ∧ (ev = [] ∨ ev = [EvMkdir (run_directory prefix)]).
Proof.
  unfold ensure_directory, path_exists, mkdir_parents.
  rewrite !bind_eq. unfold get, ret. cbn [fst snd].
  destruct (bool_decide _ || bool_decide _); cbn [negb].
  - cbn [fst snd]. repeat split. exists []. rewrite app_nil_r. auto.
  - rewrite !bind_eq. unfold emit, modify.
    cbn [fst snd st trace os py files dirs with_os with_dirs].
    repeat split; [| eexists; split; [reflexivity | auto]].
    f_equal. apply bool_decide_ext.
    pose proof (marker_not_a_directory_made prefix f) as Hm.
    rewrite elem_of_union in Hm. rewrite !elem_of_union. tauto.
Qed.

Lemma calls_of_ensure_directory (id prefix : string) (w : world) :
  calls_of id (trace (snd (ensure_directory (run_directory prefix) w))) =
  calls_of id (trace w).
Proof.
  destruct (ensure_directory_frame prefix disable_uplay_overlay w)
    as (_ & _ & _ & ev & -> & [-> | ->]);
    rewrite calls_of_app; unfold calls_of; simpl; lia.
Qed.

Lemma appended_ensure_directory (prefix : string) (w : world) :
  appended (trace (snd (ensure_directory (run_directory prefix) w))) =
  appended (trace w).
Proof.
  destruct (ensure_directory_frame prefix disable_uplay_overlay w)
    as (_ & _ & _ & ev & -> & [-> | ->]);
    rewrite appended_app; simpl; apply app_nil_r.
Qed.

(** The wrapper, one case after the other. *)
Lemma wrapper_eq (retry : bool) (f : pyfunc)
    (args : list pyval) (kwargs : list (string * pyval)) (w : world) :
  let prefix := prefix_in (st w) in
  let w' := snd (ensure_directory (run_directory prefix) w) in
  let r := fn_body f args kwargs (st w') in
  let called := World (snd r) (trace w' ++ [EvCall (func_id f) args kwargs]) in
  wrapper retry f args kwargs w =
    if fst (path_exists (marker prefix f) w') then (Returned PyNone, w')
    else match fst r with
         | Raised exc =>
             if retry then (Raised exc, called)
             else (Raised exc, snd (open_append (marker prefix f) "" called))
         | Returned _ => (Returned PyNone, snd (open_append (marker prefix f) "" called))
         end.
Proof.
  intros prefix w' r called. unfold wrapper, protonprefix.
  rewrite !bind_eq. cbn [get ret fst snd st]. fold prefix. fold w'.
  rewrite path_exists_world.
  destruct (fst (path_exists (marker prefix f) w')); [reflexivity |].
  rewrite !bind_eq.
  unfold call, bind, emit. simpl. fold r.
  destruct r as [[v | exc] s']; simpl; [reflexivity |].
  destruct retry; reflexivity.
Qed.

Lemma marker_after_touch (p : string) (w : world) :
  fst (path_exists p (snd (open_append p "" w))) = true.
Proof.
  unfold path_exists, open_append. run_monad.
  apply orb_true_iff. left. apply bool_decide_eq_true, elem_of_dom.
  rewrite lookup_insert_eq. eauto.
Qed.

Lemma open_append_frame (p text : string) (w : world) :
  let w' := snd (open_append p text w) in
  py (st w') = py (st w) ∧ trace w' = trace w ++ [EvAppend p text] ∧
  files (os (st w')) = <[p := default "" (files (os (st w)) !! p) +:+ text]> (files (os (st w))).
Proof. repeat split. Qed.

(** C9: whatever the wrapped function returns, the wrapper returns
    [None]; the only other way out of the wrapper is the exception that
    the function raised in this very call.  [once] gives this wrapper
    both as [@once] and as [@once(retry=...)]. *)
Theorem once_wrapper_returns_none (retry : bool) (func : pyfunc)
    (args : list pyval) (kwargs : list (string * pyval)) (w : world) :
  let prefix := prefix_in (st w) in
  let w' := snd (ensure_directory (run_directory prefix) w) in
  let result := fst (wrapper retry func args kwargs w) in
  (∀ v, result = Returned v → v = PyNone) ∧
  (∀ v, fst (fn_body func args kwargs (st w')) = Returned v → result = Returned PyNone) ∧
  (fst (path_exists (marker prefix func) w) = true → result = Returned PyNone) ∧
  (∀ exc, result = Raised exc →
     fst (path_exists (marker prefix func) w) = false ∧
     fst (fn_body func args kwargs (st w')) = Raised exc) ∧
  once (Some func) retry = inr (wrapper retry func) ∧
  (∃ decorator, once None retry = inl decorator ∧ decorator func = wrapper retry func).
Proof.
  intros prefix w' result. subst result. rewrite wrapper_eq. fold prefix. fold w'.
  destruct (ensure_directory_frame prefix func w) as (_ & _ & Hm & _). fold w' in Hm.
  rewrite Hm.
  destruct (fst (path_exists (marker prefix func) w)); simpl.
  - repeat split; try congruence; try discriminate. eexists; split; reflexivity.
  - destruct (fn_body func args kwargs (st w')) as [[v | exc] s']; simpl.
    + repeat split; try congruence; try discriminate. eexists; split; reflexivity.
    + destruct retry; simpl;
        (repeat split; try congruence; try discriminate;
         [eexists; split; reflexivity]).
Qed.

(** C4: with the default policy, two calls of the wrapper in a prefix
    where the function has no marker yet run the function exactly once.
    The first call runs it on the state in which the directory of the
    markers exists, keeps the state that the function leaves and writes
    the marker whether the function returns or raises, and in the latter
    case raises the same exception again; its requests after making the
    directory are the call and the touch of the marker, in this order.
    The second call finds the marker, returns [None] and touches no
    file. *)
Theorem once_default_runs_once (func : pyfunc)
    (args1 args2 : list pyval) (kwargs1 kwargs2 : list (string * pyval)) (w0 : world) :
  let prefix := prefix_in (st w0) in
  let file := marker prefix func in
  let w0' := snd (ensure_directory (run_directory prefix) w0) in
  let body := fn_body func args1 kwargs1 (st w0') in
  let first := wrapper false func args1 kwargs1 w0 in
  let second := wrapper false func args2 kwargs2 (snd first) in
  fst (path_exists file w0) = false →
  prefix_in (st (snd first)) = prefix →
  calls_of (func_id func) (trace (snd second)) = S (calls_of (func_id func) (trace w0)) ∧
  fst first = match fst body with
              | Raised exc => Raised exc
              | Returned _ => Returned PyNone
              end ∧
  fst (path_exists file (snd first)) = true ∧
  appended (trace (snd first)) = appended (trace w0) ++ [(file, "")] ∧
  fst second = Returned PyNone ∧
  files (os (st (snd second))) = files (os (st (snd first))) ∧
  py (st (snd second)) = py (st (snd first)) ∧
  appended (trace (snd second)) = appended (trace (snd first)) ∧
  st (snd first) = touched file (snd body) ∧
  trace (snd first) =
    trace w0' ++ [EvCall (func_id func) args1 kwargs1; EvAppend file ""].
Proof.
  intros prefix file w0' body first second Hfresh Hsame.
  assert (Hfirst : first =
            (match fst body with Raised exc => Raised exc | Returned _ => Returned PyNone end,
             snd (open_append file ""
                    (World (snd body) (trace w0' ++ [EvCall (func_id func) args1 kwargs1]))))).
  { subst first. rewrite wrapper_eq. fold prefix. fold w0'. fold body. fold file.
    destruct (ensure_directory_frame prefix func w0) as (_ & _ & Hm & _).
    fold w0' in Hm. fold file in Hm. rewrite Hm, Hfresh.
    destruct (fst body); reflexivity. }
  assert (Hmark : fst (path_exists file (snd first)) = true).
  { rewrite Hfirst. cbn [snd]. apply marker_after_touch. }
  assert (Hsecond : second =
            (Returned PyNone, snd (ensure_directory (run_directory prefix) (snd first)))).
  { subst second. rewrite wrapper_eq. rewrite Hsame. fold file.
    destruct (ensure_directory_frame prefix func (snd first)) as (_ & _ & Hm & _).
    fold file in Hm. rewrite Hm, Hmark. reflexivity. }
  destruct (ensure_directory_frame prefix func (snd first)) as (Hf2 & Hp2 & _ & _).
  assert (Hc0 : calls_of (func_id func) (trace w0') = calls_of (func_id func) (trace w0))
    by apply calls_of_ensure_directory.
  assert (Ha0 : appended (trace w0') = appended (trace w0))
    by apply appended_ensure_directory.
  rewrite Hsecond. cbn [fst snd].
  rewrite calls_of_ensure_directory, appended_ensure_directory.
  rewrite Hfirst. cbn [fst snd].
  split.
  { unfold open_append, bind, emit, modify. cbn [fst snd trace st].
    rewrite !calls_of_app, Hc0, calls_of_call, calls_of_append. lia. }
  split; [reflexivity |].
  split; [apply marker_after_touch |].
  split.
  { unfold open_append, bind, emit, modify. cbn [fst snd trace st].
    rewrite !appended_app, Ha0. simpl. rewrite app_nil_r. reflexivity. }
  split; [reflexivity |].
  rewrite Hfirst in Hf2, Hp2. cbn [snd] in Hf2, Hp2.
  split; [exact Hf2 |]. split; [exact Hp2 |]. split; [reflexivity |].
  assert (Hempty : ∀ a : string, a +:+ "" = a).
  { intros a. induction a as [|c a IH]; [reflexivity |].
    change (String c a +:+ "") with (String c (a +:+ "")). rewrite IH. reflexivity. }
  unfold open_append, bind, emit, modify, touched. cbn [fst snd st trace].
  rewrite Hempty, <- app_assoc. split; reflexivity.
Qed.

(** C5: with [retry=True], a call in which the function raises lets the
    exception through and writes nothing: the machine is left as the
    function left it and no marker is appended.  A further call in the
    same prefix, the marker still missing, runs the function again. *)
Theorem once_retry_leaves_no_marker (func : pyfunc)
    (args1 args2 : list pyval) (kwargs1 kwargs2 : list (string * pyval))
    (w0 : world) (exc : pyexc) :
  let prefix := prefix_in (st w0) in
  let file := marker prefix func in
  let w0' := snd (ensure_directory (run_directory prefix) w0) in
  let body := fn_body func args1 kwargs1 (st w0') in
  let first := wrapper true func args1 kwargs1 w0 in
  let second := wrapper true func args2 kwargs2 (snd first) in
  fst (path_exists file w0) = false →
  fst body = Raised exc →
  fst first = Raised exc ∧
  st (snd first) = snd body ∧
  trace (snd first) = trace w0' ++ [EvCall (func_id func) args1 kwargs1] ∧
  appended (trace (snd first)) = appended (trace w0) ∧
  (prefix_in (st (snd first)) = prefix →
   fst (path_exists file (snd first)) = false →
   calls_of (func_id func) (trace (snd second)) =
     S (calls_of (func_id func) (trace (snd first))) ∧
   calls_of (func_id func) (trace (snd second)) =
     S (S (calls_of (func_id func) (trace w0)))).
Proof.
  intros prefix file w0' body first second Hfresh Hraise.
  assert (Hfirst : first =
            (Raised exc, World (snd body) (trace w0' ++ [EvCall (func_id func) args1 kwargs1]))).
  { subst first. rewrite wrapper_eq. fold prefix. fold w0'. fold body. fold file.
    destruct (ensure_directory_frame prefix func w0) as (_ & _ & Hm & _).
    fold w0' in Hm. fold file in Hm. rewrite Hm, Hfresh, Hraise. reflexivity. }
  assert (Hcalls1 : calls_of (func_id func) (trace (snd first)) =
                    S (calls_of (func_id func) (trace w0))).
  { rewrite Hfirst. cbn [fst snd trace st]. rewrite calls_of_app.
    unfold w0'. rewrite (calls_of_ensure_directory (func_id func) prefix w0).
    rewrite calls_of_call. lia. }
  split; [rewrite Hfirst; reflexivity |].
  split; [rewrite Hfirst; reflexivity |].
  split; [rewrite Hfirst; reflexivity |].
  split.
  { rewrite Hfirst. cbn [fst snd trace st]. rewrite appended_app.
    unfold w0'. rewrite (appended_ensure_directory prefix w0). simpl. apply app_nil_r. }
  intros Hsame Hstill.
  assert (Hgoal : calls_of (func_id func) (trace (snd second)) =
                  S (calls_of (func_id func) (trace (snd first)))).
  { subst second. rewrite wrapper_eq. rewrite Hsame. fold file.
    destruct (ensure_directory_frame prefix func (snd first)) as (_ & _ & Hm & _).
    fold file in Hm. rewrite Hm, Hstill.
    set (w1' := snd (ensure_directory (run_directory prefix) (snd first))).
    assert (Hc : calls_of (func_id func) (trace w1') =
                 calls_of (func_id func) (trace (snd first)))
      by apply calls_of_ensure_directory.
    destruct (fst (fn_body func args2 kwargs2 (st w1')));
      unfold open_append, bind, emit, modify; cbn [fst snd trace st];
      rewrite ?calls_of_app, Hc, calls_of_call, ?calls_of_append; lia. }
  split; [exact Hgoal | rewrite Hgoal, Hcalls1; reflexivity].
Qed.

(** ** Running winetricks *)

(** The sweep kills the hanging helpers that it gets to and raises when
    it meets a command line that does not decode. *)
Lemma kill_each_eq (ps : list (nat * string)) (w : world) :
  kill_each ps w =
  (if decodable ps then Returned tt else Raised decode_error,
   World (st w) (trace w ++ map EvKill (map fst (List.filter hanging (swept ps))))).
Proof.
  revert w. induction ps as [|p ps IH]; intros w.
  - cbn [kill_each decodable forallb swept List.filter map]. rewrite app_nil_r.
    destruct w; reflexivity.
  - change (decodable (p :: ps)) with (Utf8.valid (snd p) && decodable ps).
    change (swept (p :: ps)) with (if Utf8.valid (snd p) then p :: swept ps else []).
    cbn [kill_each]. unfold badexes. cbn [kill_if_bad]. rewrite bind_eq.
    destruct (Utf8.valid (snd p)); cbn [negb andb].
    + rewrite bind_eq. cbn [List.filter].
      change (hanging p) with (Text.contains "mscorsvw.exe" (snd p)).
      destruct (Text.contains "mscorsvw.exe" (snd p)); cbn [ret emit fst snd];
        rewrite IH; cbn [st trace map]; [rewrite <- app_assoc |]; reflexivity.
    + cbn [ret fst snd List.filter map]. rewrite app_nil_r. destruct w; reflexivity.
Qed.

Lemma is_custom_verb_world (verb : string) (w : world) :
  snd (is_custom_verb verb w) = w.
Proof.
  unfold is_custom_verb. destruct (Text.str_eqb verb "gui"); [reflexivity |].
  unfold is_file. run_monad.
  repeat (match goal with |- context [bool_decide ?P] => destruct (bool_decide P) end;
          simpl; try (destruct w; reflexivity)).
Qed.

Lemma is_custom_verb_ext (verb : string) (w w' : world) :
  st w = st w' → fst (is_custom_verb verb w) = fst (is_custom_verb verb w').
Proof.
  intros Hst. unfold is_custom_verb. destruct (Text.str_eqb verb "gui"); [reflexivity |].
  unfold is_file. rewrite !bind_eq. unfold get, ret. cbn [fst snd]. rewrite Hst.
  destruct (bool_decide _); [reflexivity |].
  rewrite !bind_eq. cbn [fst snd]. rewrite Hst.
  destruct (bool_decide _); reflexivity.
Qed.

Lemma winetricks_env_wineserver (prefix : string) (s : state) :
  winetricks_env prefix s !! "WINESERVER" = Some (wineserver_bin (py s)).
Proof.
  unfold winetricks_env.
  rewrite lookup_insert_ne by discriminate.
  rewrite lookup_insert_ne by discriminate.
  apply lookup_insert_eq.
Qed.

Lemma subprocess_call_eq (cmd : list string) (env : gmap string string) (w : world) :
  subprocess_call cmd env w =
  (fst (run_process cmd env (os (st w))),
   World (with_os (snd (run_process cmd env (os (st w)))) (st w))
         (trace w ++ [EvSpawn cmd env])).
Proof.
  unfold subprocess_call, bind, emit, get. cbn [fst snd st trace].
  destruct (run_process cmd env (os (st w))) as [rc h]. reflexivity.
Qed.

Lemma _killhanging_eq (w : world) :
  _killhanging w =
  (if decodable (procs (os (st w))) then Returned tt else Raised decode_error,
   World (st w)
         (trace w ++ map EvKill (map fst (List.filter hanging (swept (procs (os (st w)))))))).
Proof.
  unfold _killhanging. rewrite !bind_eq. unfold get. cbn [fst snd].
  apply kill_each_eq.
Qed.

(** What the launch does to the machine: [sys.argv] is rewritten, the
    wine server is waited for, winetricks runs, the hanging helpers are
    killed as far as the sweep gets; nothing is appended to any file by
    the module itself.  The exit status comes back unless the sweep
    raises. *)
Lemma launch_winetricks_eq (verb : string) (w : world) :
  let env := winetricks_env (prefix_in (st w)) (st w) in
  let cmd := winetricks_cmd verb (fst (is_custom_verb verb w)) (st w) in
  let waiting := run_process [wineserver_bin (py (st w)); "-w"] env (os (st w)) in
  let installing := run_process cmd env (snd waiting) in
  let h := snd installing in
  launch_winetricks verb w =
  (if decodable (procs h) then Returned (fst installing) else Raised decode_error,
   World (State h (with_argv (wait_for_exit (argv (py (st w)))) (py (st w))))
         (trace w ++
          EvSpawn [wineserver_bin (py (st w)); "-w"] env :: EvSpawn cmd env ::
          map EvKill (map fst (List.filter hanging (swept (procs h)))))).
Proof.
  intros env cmd waiting installing h.
  unfold launch_winetricks, protonprefix.
  rewrite !bind_eq. cbn [get ret fst snd st].
  rewrite is_custom_verb_world.
  fold env. fold cmd.
  rewrite (winetricks_env_wineserver _ _ : env !! "WINESERVER" = _). cbn [default].
  rewrite _killhanging_eq, !subprocess_call_eq.
  unfold modify. cbn [fst snd st trace os py with_os with_py with_argv].
  fold waiting. fold installing. fold h.
  rewrite <- !app_assoc.
  set (readable := decodable _). change (decodable (procs h)) with readable.
  destruct readable; reflexivity.
Qed.

Lemma appended_kills (pids : list nat) : appended (map EvKill pids) = [].
Proof. induction pids; simpl; auto. Qed.

Lemma spawned_kills (pids : list nat) : spawned (map EvKill pids) = [].
Proof. induction pids; simpl; auto. Qed.

Lemma spawned_spawn (cmd : list string) (env : gmap string string) (tr : list event) :
  spawned (EvSpawn cmd env :: tr) = cmd :: spawned tr.
Proof. reflexivity. Qed.

Lemma appended_spawn (cmd : list string) (env : gmap string string) (tr : list event) :
  appended (EvSpawn cmd env :: tr) = appended tr.
Proof. reflexivity. Qed.

Lemma check_internet_eq (w : world) :
  check_internet w = (net_up (os (st w)), World (st w) (trace w ++ [EvConnect])).
Proof. reflexivity. Qed.

Lemma _forceinstalled_eq (verb : string) (w : world) :
  let forced_log := prefix_in (st w) +:+ "winetricks.log.forced" in
  let text := verb +:+ String Text.LF "" in
  _forceinstalled verb w =
  (tt, World (with_os (with_files
                         (<[forced_log := default "" (files (os (st w)) !! forced_log) +:+ text]>
                            (files (os (st w))))
                         (os (st w))) (st w))
             (trace w ++ [EvAppend forced_log text])).
Proof. reflexivity. Qed.

(** [protontricks] on a verb that is not installed, the network up. *)
Lemma protontricks_online (verb : string) (w : world) :
  fst (checkinstalled verb w) = false →
  net_up (os (st w)) = true →
  protontricks verb w =
  run_winetricks verb (snd (check_internet (snd (checkinstalled verb w)))).
Proof.
  intros Hi Hn. unfold protontricks. rewrite bind_eq, Hi. cbn [negb].
  rewrite bind_eq, check_internet_eq. cbn [fst snd].
  rewrite checkinstalled_st, Hn. reflexivity.
Qed.

(** Lines 281-293 after the launch. *)
Lemma run_winetricks_eq (verb : string) (w : world) :
  let launched := fst (launch_winetricks verb w) in
  let w1 := snd (launch_winetricks verb w) in
  run_winetricks verb w =
  match launched with
  | Raised exc => (Raised exc, w1)
  | Returned retc =>
      if negb (retc =? 0) then (Returned false, w1)
      else
        (Returned true,
         snd ((if negb (fst (checkinstalled verb w1))
               then _forceinstalled verb else ret tt)
                (snd (checkinstalled verb w1))))
  end.
Proof.
  intros launched w1. unfold run_winetricks. rewrite bind_eq. fold launched. fold w1.
  destruct launched as [retc | exc]; [| reflexivity].
  destruct (negb (retc =? 0)); [reflexivity |].
  rewrite !bind_eq. reflexivity.
Qed.

(** X22: what [protontricks] does once winetricks has run to its end
    for a verb that was not installed.  When the kill sweep returns, which it
    does exactly when every command line read decodes, a non-zero exit
    status makes [protontricks] return [False] and append nothing; a zero
    status with the verb found installed makes it return [True] and
    append nothing; a zero status with the verb still not found makes it
    append the one line [verb] to the forced log and return [True].  When
    the sweep raises, the exception leaves [protontricks] whatever the
    exit status was, and nothing is appended.  Except for the forced log
    the machine stays as the installer left it. *)
Theorem protontricks_after_installer (verb : string) (w : world) :
  fst (checkinstalled verb w) = false →
  net_up (os (st w)) = true →
  let online := snd (check_internet (snd (checkinstalled verb w))) in
  let launched := fst (launch_winetricks verb online) in
  let w1 := snd (launch_winetricks verb online) in
  let forced_log := prefix_in (st w1) +:+ "winetricks.log.forced" in
  let text := verb +:+ String Text.LF "" in
  let result := protontricks verb w in
  spawned (trace w1) =
    spawned (trace w) ++
    [[wineserver_bin (py (st w)); "-w"];
     winetricks_cmd verb (fst (is_custom_verb verb w)) (st w)] ∧
  appended (trace w1) = appended (trace w) ∧
  (decodable (procs (os (st w1))) = true ↔ ∃ retc, launched = Returned retc) ∧
  (∀ retc, launched = Returned retc → retc ≠ 0 →
   fst result = Returned false ∧ st (snd result) = st w1 ∧
   appended (trace (snd result)) = appended (trace w)) ∧
  (launched = Returned 0 → fst (checkinstalled verb w1) = true →
   fst result = Returned true ∧ st (snd result) = st w1 ∧
   appended (trace (snd result)) = appended (trace w)) ∧
  (launched = Returned 0 → fst (checkinstalled verb w1) = false →
   fst result = Returned true ∧
   files (os (st (snd result))) =
     <[forced_log := default "" (files (os (st w1)) !! forced_log) +:+ text]>
       (files (os (st w1))) ∧
   appended (trace (snd result)) = appended (trace w) ++ [(forced_log, text)]) ∧
  (∀ exc, launched = Raised exc →
   exc = decode_error ∧ fst result = Raised exc ∧ snd result = w1).
Proof.
  intros Hi Hn online launched w1 forced_log text result.
  assert (Hres : result = run_winetricks verb online)
    by (apply protontricks_online; assumption).
  destruct (checkinstalled_world verb w) as [reads Hreads].
  assert (Hst : st online = st w).
  { unfold online. rewrite check_internet_eq, Hreads. reflexivity. }
  assert (Htr : trace online = trace w ++ map EvOpenRead reads ++ [EvConnect]).
  { unfold online. rewrite check_internet_eq, Hreads. cbn [fst snd st trace].
    rewrite <- app_assoc. reflexivity. }
  pose proof (launch_winetricks_eq verb online) as Hl. cbv zeta in Hl.
  assert (Hsp : spawned (trace w1) =
                spawned (trace w) ++
                [[wineserver_bin (py (st w)); "-w"];
                 winetricks_cmd verb (fst (is_custom_verb verb w)) (st w)]).
  { unfold w1. rewrite Hl. cbn [snd trace].
    rewrite (is_custom_verb_ext verb online w Hst), Hst, Htr.
    rewrite !spawned_app, spawned_reads, !spawned_spawn, spawned_kills.
    change (spawned [EvConnect]) with (@nil (list string)).
    rewrite !app_nil_r. reflexivity. }
  assert (Hap : appended (trace w1) = appended (trace w)).
  { unfold w1. rewrite Hl. cbn [snd trace]. rewrite Htr.
    rewrite !appended_app, appended_reads, !appended_spawn, appended_kills.
    change (appended [EvConnect]) with (@nil (string * string)).
    rewrite !app_nil_r. reflexivity. }
  assert (Hsweep : launched =
                   if decodable (procs (os (st w1)))
                   then Returned (fst (run_process
                          (winetricks_cmd verb (fst (is_custom_verb verb online)) (st online))
                          (winetricks_env (prefix_in (st online)) (st online))
                          (snd (run_process [wineserver_bin (py (st online)); "-w"]
                                  (winetricks_env (prefix_in (st online)) (st online))
                                  (os (st online))))))
                   else Raised decode_error).
  { unfold launched, w1. rewrite Hl. reflexivity. }
  split; [exact Hsp |]. split; [exact Hap |].
  split.
  { rewrite Hsweep. destruct (decodable (procs (os (st w1)))).
    - split; [intros _; eexists; reflexivity | reflexivity].
    - split; [discriminate | intros [retc Hr]; discriminate Hr]. }
  assert (Hrun : result =
                 match launched with
                 | Raised exc => (Raised exc, w1)
                 | Returned retc =>
                     if negb (retc =? 0) then (Returned false, w1)
                     else
                       (Returned true,
                        snd ((if negb (fst (checkinstalled verb w1))
                              then _forceinstalled verb else ret tt)
                               (snd (checkinstalled verb w1))))
                 end).
  { rewrite Hres. apply run_winetricks_eq. }
  destruct (checkinstalled_world verb w1) as [reads1 Hreads1].
  rewrite Hrun.
  split; [| split; [| split]].
  - intros retc -> Hrc. apply Z.eqb_neq in Hrc. rewrite Hrc. cbn [negb fst snd].
    auto.
  - intros -> Hinst. cbn [negb Z.eqb]. rewrite Hinst. cbn [negb ret fst snd].
    rewrite Hreads1. cbn [st trace].
    rewrite appended_app, appended_reads, app_nil_r. auto.
  - intros -> Hinst. cbn [negb Z.eqb]. rewrite Hinst. cbn [negb fst snd].
    rewrite _forceinstalled_eq, Hreads1. cbn [fst snd st trace os files with_os with_files].
    rewrite !appended_app, appended_reads, app_nil_r, Hap. auto.
  - intros exc Hexc. rewrite Hexc. cbn [fst snd].
    split; [| auto].
    rewrite Hsweep in Hexc. destruct (decodable (procs (os (st w1)))); congruence.
Qed.

(** C10, as amended: for the verb [gui], [checkinstalled] returns
    [False] without reading any log and [is_custom_verb] returns [False];
    [protontricks('gui')] therefore never stops at the installed check and
    always makes the network probe its first request.  When the probe
    fails it returns [False] there; when the probe succeeds it goes on to
    wait for the wine server and to launch winetricks with no verb
    argument. *)
Theorem gui_always_reaches_the_probe (w : world) :
  let env := winetricks_env (prefix_in (st w)) (st w) in
  checkinstalled "gui" w = (false, w) ∧
  is_custom_verb "gui" w = (None, w) ∧
  (∃ rest, trace (snd (protontricks "gui" w)) = trace w ++ EvConnect :: rest) ∧
  (net_up (os (st w)) = false →
   protontricks "gui" w = (Returned false, World (st w) (trace w ++ [EvConnect]))) ∧
  (net_up (os (st w)) = true →
   ∃ rest,
     trace (snd (protontricks "gui" w)) =
     trace w ++ EvConnect ::
       EvSpawn [wineserver_bin (py (st w)); "-w"] env ::
       EvSpawn [winetricks_bin (st w); "--unattended"] env :: rest).
Proof.
  intros env.
  assert (Hc : checkinstalled "gui" w = (false, w)) by reflexivity.
  assert (Hv : is_custom_verb "gui" w = (None, w)) by reflexivity.
  assert (Hoff : net_up (os (st w)) = false →
                 protontricks "gui" w =
                 (Returned false, World (st w) (trace w ++ [EvConnect]))).
  { intros Hn. unfold protontricks. rewrite bind_eq, Hc. cbn [fst snd negb].
    rewrite bind_eq, check_internet_eq. cbn [fst snd]. rewrite Hn. reflexivity. }
  assert (Hon : net_up (os (st w)) = true →
                ∃ rest,
                  trace (snd (protontricks "gui" w)) =
                  trace w ++ EvConnect ::
                    EvSpawn [wineserver_bin (py (st w)); "-w"] env ::
                    EvSpawn [winetricks_bin (st w); "--unattended"] env :: rest).
  { intros Hn. rewrite protontricks_online by (rewrite ?Hc; auto).
    rewrite Hc, check_internet_eq. cbn [fst snd].
    unfold run_winetricks. rewrite bind_eq.
    pose proof (launch_winetricks_eq "gui" (World (st w) (trace w ++ [EvConnect]))) as Hl.
    cbv zeta in Hl. rewrite Hl. cbn [fst snd st trace].
    change (fst (is_custom_verb "gui" _)) with (@None string).
    change (winetricks_cmd "gui" None (st w)) with [winetricks_bin (st w); "--unattended"].
    fold env.
    destruct (decodable _);
      [| cbn [ret snd trace]; rewrite <- app_assoc; eexists; reflexivity].
    match goal with
    | |- context [negb (?rc =? 0)] => destruct (negb (rc =? 0))
    end.
    - cbn [ret snd trace]. rewrite <- app_assoc. eexists. reflexivity.
    - rewrite !bind_eq.
      match goal with
      | |- context [checkinstalled "gui" ?w1] =>
          change (checkinstalled "gui" w1) with (false, w1)
      end.
      cbn [fst snd negb ret]. rewrite _forceinstalled_eq. cbn [snd trace].
      rewrite <- !app_assoc. eexists. reflexivity. }
  split; [exact Hc |]. split; [exact Hv |]. split; [| split; assumption].
  destruct (net_up (os (st w))) eqn:Hn.
  - destruct (Hon eq_refl) as [rest ->]. eexists. reflexivity.
  - rewrite (Hoff eq_refl). eexists. reflexivity.
Qed.

(** ** The matching rule of the installed check *)

Lemma app_cons (c : ascii) (a b : string) : String c a +:+ b = String c (a +:+ b).
Proof. reflexivity. Qed.

Lemma app_empty_l (a : string) : "" +:+ a = a.
Proof. reflexivity. Qed.

Lemma string_app_assoc (a b c : string) : (a +:+ b) +:+ c = a +:+ (b +:+ c).
Proof. induction a as [|x a IH]; [reflexivity |]. rewrite !app_cons, IH. reflexivity. Qed.

Lemma ascii_eqb_refl (c : ascii) : Text.ascii_eqb c c = true.
Proof. apply bool_decide_eq_true_2. reflexivity. Qed.

Lemma ascii_eqb_sym (a b : ascii) : Text.ascii_eqb a b = Text.ascii_eqb b a.
Proof. unfold Text.ascii_eqb. apply bool_decide_ext. split; congruence. Qed.

Lemma contains_char_cons (sep c : ascii) (s : string) :
  Text.contains (String sep "") (String c s) = false →
  Text.ascii_eqb c sep = false ∧ Text.contains (String sep "") s = false.
Proof.
  simpl. rewrite (ascii_eqb_sym sep c).
  destruct (Text.ascii_eqb c sep); simpl; [discriminate | auto].
Qed.

Lemma split_no_sep (sep : ascii) (s : string) :
  Text.contains (String sep "") s = false → Text.split sep s = [s].
Proof.
  induction s as [|c s IH]; intros Hc; [reflexivity |].
  apply contains_char_cons in Hc as [Hne Hc]. simpl. rewrite Hne, (IH Hc). reflexivity.
Qed.

Lemma split_at_sep (sep : ascii) (key rest : string) :
  Text.contains (String sep "") key = false →
  Text.split sep (key +:+ String sep rest) = key :: Text.split sep rest.
Proof.
  induction key as [|c key IH]; intros Hc.
  - rewrite app_empty_l. simpl. rewrite ascii_eqb_refl. reflexivity.
  - apply contains_char_cons in Hc as [Hne Hc]. rewrite app_cons. simpl.
    rewrite Hne, (IH Hc). reflexivity.
Qed.

Lemma literal_is_simple (p : string) : Re.literal p = true → Re.simple p = true.
Proof.
  induction p as [|c p IH]; [reflexivity |]. simpl.
  intros [Hc Hp]%andb_true_iff. rewrite Hc, (IH Hp). reflexivity.
Qed.

Lemma literal_app (p q : string) :
  Re.literal p = true → Re.literal q = true → Re.literal (p +:+ q) = true.
Proof.
  induction p as [|c p IH]; intros Hp Hq; [exact Hq |].
  rewrite app_cons. simpl in *. apply andb_true_iff in Hp as [Hc Hp].
  rewrite Hc, (IH Hp Hq). reflexivity.
Qed.

(** On a pattern without special characters the engine tests a prefix. *)
Lemma literal_match_here (p s : string) :
  Re.literal p = true → Re.match_here p s = Text.startswith p s.
Proof.
  revert s. induction p as [|c p IH]; intros s Hp; [reflexivity |].
  simpl in Hp. apply andb_true_iff in Hp as [Hc Hp].
  destruct s as [|b s]; [reflexivity |]. simpl. rewrite (IH s Hp).
  assert (Hdot : Text.ascii_eqb c Re.dot = false).
  { unfold Text.ascii_eqb. apply bool_decide_eq_false_2. intros ->. discriminate Hc. }
  rewrite Hdot. reflexivity.
Qed.

Lemma findall_literal (p s : string) :
  Re.literal p = true → Re.findall_anchored re_meta p s = Text.startswith p s.
Proof.
  intros Hp. unfold Re.findall_anchored.
  rewrite (literal_is_simple p Hp). apply literal_match_here, Hp.
Qed.

(** The loop keeps the verdict of the last line that starts with the
    key. *)
Lemma scan_setting_last (wt_verb wt_verb_param : string) (lines : list string) :
  Re.literal wt_verb = true →
  scan_setting wt_verb wt_verb_param lines =
  match last (List.filter (Text.startswith wt_verb) (map Text.strip lines)) with
  | Some l => Text.str_eqb l (wt_verb +:+ wt_verb_param)
  | None => false
  end.
Proof.
  intros Hlit. unfold scan_setting.
  induction lines as [|x lines IH] using rev_ind; [reflexivity |].
  rewrite fold_left_app, map_app, List.filter_app. simpl.
  rewrite (findall_literal _ _ Hlit).
  destruct (Text.startswith wt_verb (Text.strip x)).
  - rewrite last_snoc. reflexivity.
  - rewrite app_nil_r. exact IH.
Qed.

(** The rule for a setting [key=value] with one [=] and a key free of
    special characters: the verdict is that of the latest line of the log
    that starts with [key=], which must be the verb itself. *)
Lemma _checkinstalled_setting (key value logfile : string) (w : world) :
  Re.literal key = true →
  Text.contains "=" key = false →
  Text.contains "=" value = false →
  fst (_checkinstalled (key +:+ "=" +:+ value) logfile w) = true ↔
  ∃ text,
    files (os (st w)) !! (prefix_in (st w) +:+ logfile) = Some text ∧
    last (List.filter (Text.startswith (key +:+ "="))
            (map Text.strip (Text.readlines text))) = Some (key +:+ "=" +:+ value).
Proof.
  intros Hlit Hkey Hval.
  assert (Hsplit : Text.split "=" (key +:+ "=" +:+ value) = [key; value]).
  { change ("=" +:+ value) with (String "=" value).
    rewrite (split_at_sep "=" key value Hkey), (split_no_sep "=" value Hval). reflexivity. }
  unfold _checkinstalled, protontricks, protonprefix, open_read.
  rewrite !bind_eq. cbn [get ret fst snd st]. rewrite Hsplit. cbn [length Nat.ltb Nat.leb nth].
  rewrite !bind_eq. unfold emit, get. cbn [fst snd st trace].
  destruct (files (os (st w)) !! (prefix_in (st w) +:+ logfile)) as [text|]; cbn [fst ret].
  - rewrite scan_setting_last by (apply literal_app; [exact Hlit | reflexivity]).
    rewrite string_app_assoc.
    destruct (last _) as [l|] eqn:Hlast.
    + unfold Text.str_eqb. rewrite bool_decide_eq_true. split.
      * intros ->. exists text. split; [reflexivity | exact Hlast].
      * intros (text' & [= <-] & Hl). rewrite Hlast in Hl. injection Hl. auto.
    + split; [discriminate |].
      intros (text' & [= <-] & Hl). rewrite Hlast in Hl. discriminate.
  - split; [discriminate | intros (text' & [=] & _)].
Qed.

(** The rule for a bare verb: it must be one of the stripped lines. *)
Lemma _checkinstalled_bare (verb logfile : string) (w : world) :
  Text.contains "=" verb = false →
  fst (_checkinstalled verb logfile w) = true ↔
  ∃ text,
    files (os (st w)) !! (prefix_in (st w) +:+ logfile) = Some text ∧
    verb ∈ map Text.strip (Text.readlines text).
Proof.
  intros Hverb.
  unfold _checkinstalled, protontricks, protonprefix, open_read.
  rewrite !bind_eq. cbn [get ret fst snd st].
  rewrite (split_no_sep "=" verb Hverb). cbn [length Nat.ltb Nat.leb].
  rewrite !bind_eq. unfold emit, get. cbn [fst snd st trace].
  destruct (files (os (st w)) !! (prefix_in (st w) +:+ logfile)) as [text|]; cbn [fst ret].
  - rewrite existsb_exists. split.
    + intros (l & Hin & Heq). exists text. split; [reflexivity |].
      apply bool_decide_eq_true in Heq. subst l.
      apply list_elem_of_In. apply in_rev. exact Hin.
    + intros (text' & [= <-] & Hin). exists verb. split.
      * apply in_rev. rewrite rev_involutive. apply list_elem_of_In. exact Hin.
      * apply bool_decide_eq_true. reflexivity.
  - split; [discriminate | intros (text' & [=] & _)].
Qed.

(** A verb that is present in the text of a log is found there by the
    installed check. *)
Lemma present_is_found (verb logfile text : string) (w : world) :
  files (os (st w)) !! (prefix_in (st w) +:+ logfile) = Some text →
  present_in verb text →
  fst (_checkinstalled verb logfile w) = true.
Proof.
  intros Hfile [[Hbare Hin] | (key & value & -> & Hlit & Hkey & Hval & Hlast)].
  - apply _checkinstalled_bare; [exact Hbare |]. exists text. auto.
  - apply _checkinstalled_setting; try assumption. exists text. auto.
Qed.

(** C3, as amended: for every verb other than [gui] that is present in
    the forced log, a bare verb as one of its lines and a setting as the
    latest line for its key, [checkinstalled] returns [True] whatever the
    regular log holds, and also when there is none. *)
Theorem forced_log_wins (verb forced : string) (w : world) (regular : option string) :
  verb ≠ "gui" →
  files (os (st w)) !! (prefix_in (st w) +:+ "winetricks.log.forced") = Some forced →
  present_in verb forced →
  fst (checkinstalled verb
         (write_file (prefix_in (st w) +:+ "winetricks.log") regular w)) = true.
Proof.
  intros Hg Hfile Hpresent. apply checkinstalled_true_iff. split; [exact Hg | left].
  apply present_is_found with (text := forced); [| exact Hpresent].
  etrans; [| exact Hfile].
  change (prefix_in (st (write_file _ regular w))) with (prefix_in (st w)).
  apply lookup_write_file_ne.
  intros Heq. apply (inj (String.app _)) in Heq. discriminate.
Qed.

End Properties.

(** ** The statements on concrete machines *)

(** The codec on well-formed and ill-formed bytes: ASCII, two, three and
    four bytes; a lone Latin-1 byte, a lone continuation, an overlong
    form, a surrogate, a code point above U+10FFFF and a cut sequence. *)
Example utf8_samples :
  map Utf8.valid
    ["mscorsvw.exe"; String "195" (String "169" ""); String "226" (String "130" (String "172" ""));
     String "240" (String "159" (String "152" (String "128" "")))] = [true; true; true; true] ∧
  map Utf8.valid
    [String "233" ""; String "128" ""; String "192" (String "128" "");
     String "237" (String "160" (String "128" ""));
     String "244" (String "144" (String "128" (String "128" "")));
     String "226" (String "130" "")] = [false; false; false; false; false; false].
Proof. vm_compute. split; reflexivity. Qed.

(** C2: a verb that holds two settings is recorded by [_forceinstalled]
    as one line of the forced log, and the installed check then reads
    that very line and still answers [False]: the value compared is the
    text between the first and the second [=] only.  A verb with one
    setting is found after the same two steps. *)
Theorem checkinstalled_misses_two_settings :
  let forced := snd (_forceinstalled two_settings w_fresh) in
  files (os (st forced)) !! (demo_prefix +:+ "winetricks.log.forced") =
    Some (line two_settings) ∧
  Text.split "="%char two_settings = ["sound"; "alsa fontsmooth"; "rgb"] ∧
  fst (@_checkinstalled rt_silent two_settings "winetricks.log.forced" forced) = false ∧
  fst (@checkinstalled rt_silent two_settings forced) = false ∧
  fst (@_checkinstalled rt_silent "sound=alsa" "winetricks.log.forced"
         (snd (_forceinstalled "sound=alsa" w_fresh))) = true.
Proof. vm_compute. repeat split; reflexivity. Qed.

(** With a winetricks that records each of the two settings on its own
    line, as the tool does, the verb is forced at the first launch and
    installed and forced again at the next one. *)
Example two_settings_installed_again :
  let first := @protontricks rt_recording two_settings w_fresh in
  let second := @protontricks rt_recording two_settings (World (st (snd first)) []) in
  fst first = Returned true ∧
  fst second = Returned true ∧
  spawned (trace (snd second)) =
    [["/steam/proton/files/bin/wineserver"; "-w"];
     ["/steam/proton/protonfixes/winetricks"; "--unattended"; "sound=alsa"; "fontsmooth=rgb"]] ∧
  files (os (st (snd second))) !! (demo_prefix +:+ "winetricks.log.forced") =
    Some (line two_settings +:+ line two_settings).
Proof. vm_compute. repeat split; reflexivity. Qed.

(** The key is handed to [re.findall] as it is: the line [axb=c]
    matches the pattern [a.b=] and, being the later one, decides against
    the verb [a.b=c], which is in the log. *)
Example key_read_as_a_pattern :
  Re.findall_anchored (@re_meta rt_silent) "a.b=" "axb=c" = true ∧
  Text.startswith "a.b=" "axb=c" = false ∧
  fst (@_checkinstalled rt_silent "a.b=c" "winetricks.log" w_dotted) = false.
Proof. vm_compute. repeat split; reflexivity. Qed.

(** C1 as stated fails: the verb is installed and the value returned is
    not [True]. *)
Lemma protontricks_installed_not_success :
  fst (@checkinstalled rt_recording "d3dx11_43" w_installed) = true ∧
  fst (@protontricks rt_recording "d3dx11_43" w_installed) ≠ Returned true.
Proof. vm_compute. split; [reflexivity | discriminate]. Qed.

(** C1, as amended, on that machine. *)
Lemma protontricks_installed_skips_witness :
  fst (@checkinstalled rt_recording "d3dx11_43" w_installed) = true ∧
  fst (@protontricks rt_recording "d3dx11_43" w_installed) = Returned false ∧
  st (snd (@protontricks rt_recording "d3dx11_43" w_installed)) = st w_installed ∧
  spawned (trace (snd (@protontricks rt_recording "d3dx11_43" w_installed))) = [].
Proof.
  split; [vm_compute; reflexivity |].
  destruct (@protontricks_installed_skips rt_recording "d3dx11_43" w_installed)
    as (A & B & C & _); [vm_compute; reflexivity |].
  split; [exact A |]. split; [exact B | exact C].
Defined.

(** C3 as stated fails: [gui] is a line of the forced log, the installed
    check finds it there, and [checkinstalled] answers [False]. *)
Lemma forced_gui_not_installed :
  fst (@_checkinstalled rt_silent "gui" "winetricks.log.forced" w_gui_forced) = true ∧
  fst (@checkinstalled rt_silent "gui" w_gui_forced) ≠ true.
Proof. vm_compute. split; [reflexivity | discriminate]. Qed.

(** C3, as amended, with a forced log that holds two settings for one
    key and a regular log that holds another verb: the later setting is
    present and installed. *)
Lemma forced_log_wins_witness :
  "sound=alsa" ≠ "gui" ∧
  files (os (st w_forced_sounds)) !! (demo_prefix +:+ "winetricks.log.forced") =
    Some (line "sound=pulse" +:+ line "sound=alsa") ∧
  present_in "sound=alsa" (line "sound=pulse" +:+ line "sound=alsa") ∧
  fst (@checkinstalled rt_silent "sound=alsa"
         (write_file (demo_prefix +:+ "winetricks.log") (Some (line "vcrun2019"))
            w_forced_sounds)) = true.
Proof.
  assert (Hpresent : present_in "sound=alsa" (line "sound=pulse" +:+ line "sound=alsa")).
  { right. exists "sound", "alsa". repeat split; reflexivity. }
  split; [discriminate |]. split; [vm_compute; reflexivity |].
  split; [exact Hpresent |].
  apply (@forced_log_wins rt_silent "sound=alsa" (line "sound=pulse" +:+ line "sound=alsa")
           w_forced_sounds (Some (line "vcrun2019"))).
  - discriminate.
  - vm_compute. reflexivity.
  - exact Hpresent.
Defined.

(** C6 with the network down. *)
Lemma protontricks_offline_witness :
  fst (@checkinstalled rt_recording "d3dx11_43" w_offline) = false ∧
  net_up (os (st w_offline)) = false ∧
  fst (@protontricks rt_recording "d3dx11_43" w_offline) = Returned false ∧
  spawned (trace (snd (@protontricks rt_recording "d3dx11_43" w_offline))) = [].
Proof.
  split; [vm_compute; reflexivity |]. split; [reflexivity |].
  destruct (@protontricks_offline rt_recording "d3dx11_43" w_offline)
    as (A & _ & C & _); [vm_compute; reflexivity | reflexivity |].
  split; [exact A | exact C].
Defined.

(** C8 as stated fails: [winedll_override] is a helper that changes an
    environment variable, and after [winedll_override('streamci', 'n')],
    the call of the fix for Chantelise (70420), the variable is set in the
    session's copy and not in [os.environ]. *)
Lemma winedll_override_out_of_sync :
  let w' := snd (@winedll_override proton_append "streamci" "n" w_fresh) in
  environ (py (st w_fresh)) !! "WINEDLLOVERRIDES" =
    session_env (py (st w_fresh)) !! "WINEDLLOVERRIDES" ∧
  session_env (py (st w')) !! "WINEDLLOVERRIDES" = Some "streamci=n" ∧
  environ (py (st w')) = environ (py (st w_fresh)) ∧
  environ (py (st w')) !! "WINEDLLOVERRIDES" ≠
    session_env (py (st w')) !! "WINEDLLOVERRIDES".
Proof. vm_compute. repeat split; try reflexivity. discriminate. Qed.

(** C10 as stated fails: with the network down [protontricks('gui')]
    launches nothing. *)
Lemma gui_offline_launches_nothing :
  net_up (os (st w_offline)) = false ∧
  fst (@protontricks rt_silent "gui" w_offline) = Returned false ∧
  spawned (trace (snd (@protontricks rt_silent "gui" w_offline))) = [].
Proof. vm_compute. repeat split; reflexivity. Qed.

(** C7: on a machine where one command line is not UTF-8, here a game
    started from a Latin-1 path, the installer exits with 0 and the verb
    is not found installed, yet [protontricks] neither returns [True] nor
    appends a line to the forced log: the kill sweep raises
    [UnicodeDecodeError], which nothing catches.  The hanging helper that
    comes after the offending process is not killed either. *)
Theorem protontricks_raises_after_installer :
  let result := @protontricks rt_silent "d3dx11_43" w_latin1 in
  decodable (procs (os (st w_latin1))) = false ∧
  fst (@checkinstalled rt_silent "d3dx11_43" w_latin1) = false ∧
  net_up (os (st w_latin1)) = true ∧
  spawned (trace (snd result)) =
    [["/steam/proton/files/bin/wineserver"; "-w"];
     ["/steam/proton/protonfixes/winetricks"; "--unattended"; "d3dx11_43"]] ∧
  @run_process rt_silent
    ["/steam/proton/protonfixes/winetricks"; "--unattended"; "d3dx11_43"]
    (winetricks_env demo_prefix (st w_latin1)) (os (st w_latin1)) = (0, os (st w_latin1)) ∧
  fst (@checkinstalled rt_silent "d3dx11_43" (snd result)) = false ∧
  fst result = Raised (PyExc "UnicodeDecodeError" "utf-8") ∧
  fst result ≠ Returned true ∧
  appended (trace (snd result)) = [] ∧
  files (os (st (snd result))) !! (demo_prefix +:+ "winetricks.log.forced") = None ∧
  killed (trace (snd result)) = [].
Proof. vm_compute. repeat split; try reflexivity; discriminate. Qed.

(** X22 on a machine where every command line decodes, with a
    winetricks that exits with 0 and records nothing. *)
Lemma protontricks_after_installer_witness :
  fst (@checkinstalled rt_silent "d3dx11_43" w_fresh) = false ∧
  net_up (os (st w_fresh)) = true ∧
  fst (@protontricks rt_silent "d3dx11_43" w_fresh) = Returned true ∧
  appended (trace (snd (@protontricks rt_silent "d3dx11_43" w_fresh))) =
    [(demo_prefix +:+ "winetricks.log.forced", line "d3dx11_43")].
Proof.
  split; [vm_compute; reflexivity |]. split; [reflexivity |].
  pose proof (@protontricks_after_installer rt_silent "d3dx11_43" w_fresh) as Hx.
  cbv zeta in Hx.
  destruct Hx as (_ & _ & _ & _ & _ & H3 & _); [vm_compute; reflexivity | reflexivity |].
  destruct H3 as (A & _ & C); [vm_compute; reflexivity | vm_compute; reflexivity |].
  split; [exact A |]. etrans; [exact C |]. vm_compute. reflexivity.
Defined.

(** The example of the specification: [d3dx11_43] in no log, network
    up, winetricks exits with 0 and has recorded the verb: success, and
    nothing goes to the forced log. *)
Example d3dx11_43_recorded :
  let r := @protontricks rt_recording "d3dx11_43" w_fresh in
  fst r = Returned true ∧
  appended (trace (snd r)) = [] ∧
  files (os (st (snd r))) !! (demo_prefix +:+ "winetricks.log") = Some (line "d3dx11_43") ∧
  files (os (st (snd r))) !! (demo_prefix +:+ "winetricks.log.forced") = None.
Proof. vm_compute. repeat split; reflexivity. Qed.

(** The same with a winetricks that records nothing: the forced log
    gains the line [d3dx11_43]. *)
Example d3dx11_43_forced :
  let r := @protontricks rt_silent "d3dx11_43" w_fresh in
  fst r = Returned true ∧
  files (os (st (snd r))) !! (demo_prefix +:+ "winetricks.log.forced") =
    Some (line "d3dx11_43").
Proof. vm_compute. repeat split; reflexivity. Qed.

(** And with a winetricks that fails: failure, no forced log. *)
Example d3dx11_43_failed :
  let r := @protontricks rt_failing "d3dx11_43" w_fresh in
  fst r = Returned false ∧
  spawned (trace (snd r)) =
    [["/steam/proton/files/bin/wineserver"; "-w"];
     ["/steam/proton/protonfixes/winetricks"; "--unattended"; "d3dx11_43"]] ∧
  files (os (st (snd r))) !! (demo_prefix +:+ "winetricks.log.forced") = None.
Proof. vm_compute. repeat split; reflexivity. Qed.

(** C4 with [disable_uplay_overlay], which succeeds here. *)
Lemma once_default_runs_once_witness :
  let file := marker demo_prefix disable_uplay_overlay in
  let first := @wrapper false disable_uplay_overlay [] [] w_uplay in
  let second := @wrapper false disable_uplay_overlay [] [] (snd first) in
  fst (path_exists file w_uplay) = false ∧
  prefix_in (st (snd first)) = demo_prefix ∧
  calls_of (func_id disable_uplay_overlay) (trace (snd second)) = 1%nat ∧
  fst first = Returned PyNone ∧
  fst second = Returned PyNone.
Proof.
  intros file first second.
  split; [vm_compute; reflexivity |]. split; [vm_compute; reflexivity |].
  pose proof (@once_default_runs_once disable_uplay_overlay [] [] [] [] w_uplay) as H.
  cbv zeta in H.
  destruct H as (A & B & _ & _ & C & _); [vm_compute; reflexivity | vm_compute; reflexivity |].
  split; [exact A |]. split; [| exact C].
  etrans; [exact B |]. vm_compute. reflexivity.
Defined.

(** With the directory above the settings missing, [mkdir] raises inside
    the function: under the default policy the marker is written all the
    same, the exception comes out, and the second call does nothing. *)
Example once_default_failure :
  let first := @wrapper false disable_uplay_overlay [] [] w_fresh in
  let second := @wrapper false disable_uplay_overlay [] [] (snd first) in
  (∃ msg, fst first = Raised (PyExc "FileNotFoundError" msg)) ∧
  fst (path_exists (marker demo_prefix disable_uplay_overlay) (snd first)) = true ∧
  fst second = Returned PyNone ∧
  calls_of (func_id disable_uplay_overlay) (trace (snd second)) = 1%nat.
Proof. vm_compute. repeat split; try reflexivity. eexists. reflexivity. Qed.

(** C5 with the same function under [retry=True], where it raises. *)
Lemma once_retry_leaves_no_marker_witness :
  let file := marker demo_prefix disable_uplay_overlay in
  let exc :=
    PyExc "FileNotFoundError"
      "/compat/223750/pfx/drive_c/users/steamuser/Local Settings/Application Data/Ubisoft Game Launcher" in
  let first := @wrapper true disable_uplay_overlay [] [] w_fresh in
  let second := @wrapper true disable_uplay_overlay [] [] (snd first) in
  fst (path_exists file w_fresh) = false ∧
  fst first = Raised exc ∧
  appended (trace (snd first)) = [] ∧
  fst (path_exists file (snd first)) = false ∧
  calls_of (func_id disable_uplay_overlay) (trace (snd second)) = 2%nat.
Proof.
  intros file exc first second.
  split; [vm_compute; reflexivity |].
  pose proof (@once_retry_leaves_no_marker disable_uplay_overlay [] [] [] [] w_fresh exc) as H.
  cbv zeta in H.
  destruct H as (A & _ & _ & B & C); [vm_compute; reflexivity | vm_compute; reflexivity |].
  split; [exact A |]. split; [exact B |].
  split; [vm_compute; reflexivity |].
  destruct C as (_ & C); [vm_compute; reflexivity | vm_compute; reflexivity |].
  exact C.
Defined.

(** [disable_uplay_overlay] is declared to return a [bool]; behind
    [@once] its [True] does not reach the caller. *)
Example disable_uplay_overlay_returns_none :
  fst (disable_uplay_overlay_body [] [] (st w_uplay)) = Returned (PyBool true) ∧
  fst (@wrapper false disable_uplay_overlay [] [] w_uplay) = Returned PyNone.
Proof. vm_compute. split; reflexivity. Qed.

(** * Further properties *)

Section TextFacts.

Lemma ascii_eqb_eq (a b : ascii) : Text.ascii_eqb a b = true ↔ a = b.
Proof. unfold Text.ascii_eqb. apply bool_decide_eq_true. Qed.

Lemma ascii_eqb_neq (a b : ascii) : Text.ascii_eqb a b = false ↔ a ≠ b.
Proof. unfold Text.ascii_eqb. apply bool_decide_eq_false. Qed.

Lemma app_empty_r (a : string) : a +:+ "" = a.
Proof. induction a as [|c a IH]; [reflexivity |]. rewrite app_cons, IH. reflexivity. Qed.

Lemma lstrip_length (s : string) : (String.length (Text.lstrip s) ≤ String.length s)%nat.
Proof. induction s as [|c s IH]; simpl; [lia |]. destruct (Text.isspace c); simpl; lia. Qed.

Lemma rstrip_length (s : string) : (String.length (Text.rstrip s) ≤ String.length s)%nat.
Proof.
  induction s as [|c s IH]; simpl; [lia |].
  destruct (Text.isspace c && Text.str_eqb (Text.rstrip s) ""); simpl; lia.
Qed.

Lemma lstrip_fixed (s : string) :
  String.length (Text.lstrip s) = String.length s → Text.lstrip s = s.
Proof.
  destruct s as [|c s]; [reflexivity |]. simpl.
  destruct (Text.isspace c); [| reflexivity].
  pose proof (lstrip_length s). intros Hl. simpl in Hl. lia.
Qed.

Lemma strip_fixed (v : string) :
  Text.strip v = v → Text.lstrip v = v ∧ Text.rstrip v = v.
Proof.
  unfold Text.strip. intros Hs.
  assert (Hl : Text.lstrip v = v).
  { apply lstrip_fixed. pose proof (lstrip_length v).
    pose proof (rstrip_length (Text.lstrip v)) as Hr. rewrite Hs in Hr. lia. }
  rewrite Hl in Hs. auto.
Qed.

Lemma rstrip_app_space (a : string) (c : ascii) :
  Text.isspace c = true → Text.rstrip (a +:+ String c "") = Text.rstrip a.
Proof.
  intros Hc. induction a as [|x a IH].
  - rewrite app_empty_l. simpl. rewrite Hc. reflexivity.
  - rewrite app_cons. simpl. rewrite IH. reflexivity.
Qed.

Lemma lstrip_app (v b : string) :
  v ≠ "" → Text.lstrip v = v → Text.lstrip (v +:+ b) = v +:+ b.
Proof.
  destruct v as [|c v]; [congruence |]. intros _. rewrite app_cons. simpl.
  destruct (Text.isspace c); [| reflexivity].
  pose proof (lstrip_length v). intros Hl.
  apply (f_equal String.length) in Hl. simpl in Hl. lia.
Qed.

(** A line written by the module strips back to the verb. *)
Lemma strip_line (v : string) :
  Text.strip v = v → Text.strip (v +:+ String Text.LF "") = v.
Proof.
  intros Hs. destruct (strip_fixed v Hs) as [Hl Hr].
  destruct v as [|c v]; [reflexivity |].
  unfold Text.strip. rewrite lstrip_app by (congruence || assumption).
  rewrite rstrip_app_space by reflexivity. exact Hr.
Qed.

Lemma contains_char_app (c : ascii) (a b : string) :
  Text.contains (String c "") (a +:+ b) =
  Text.contains (String c "") a || Text.contains (String c "") b.
Proof.
  induction a as [|x a IH]; [reflexivity |].
  rewrite app_cons. simpl. rewrite IH.
  destruct (Text.ascii_eqb c x); reflexivity.
Qed.

Lemma universal_newlines_no_cr (v : string) :
  Text.contains (String Text.CR "") v = false → Text.universal_newlines v = v.
Proof.
  induction v as [|c v IH]; [reflexivity |]. intros Hc.
  apply contains_char_cons in Hc as [Hne Hc]. simpl. rewrite Hne, (IH Hc). reflexivity.
Qed.

Lemma newline_ended_tail (c : ascii) (s : string) :
  newline_ended (String c s) = true → newline_ended s = true.
Proof. destruct s; [reflexivity | simpl; auto]. Qed.

Lemma newline_ended_cons (c : ascii) (s : string) :
  s ≠ "" → newline_ended (String c s) = newline_ended s.
Proof. destruct s; [congruence | reflexivity]. Qed.

Lemma universal_newlines_other (c : ascii) (s : string) :
  Text.ascii_eqb c Text.CR = false →
  Text.universal_newlines (String c s) = String c (Text.universal_newlines s).
Proof. intros H. simpl. rewrite H. reflexivity. Qed.

Lemma universal_newlines_crlf (c c' : ascii) (s : string) :
  Text.ascii_eqb c Text.CR = true → Text.ascii_eqb c' Text.LF = true →
  Text.universal_newlines (String c (String c' s)) =
  String Text.LF (Text.universal_newlines s).
Proof. intros H H'. cbn [Text.universal_newlines]. rewrite H, H'. reflexivity. Qed.

Lemma universal_newlines_cr (c c' : ascii) (s : string) :
  Text.ascii_eqb c Text.CR = true → Text.ascii_eqb c' Text.LF = false →
  Text.universal_newlines (String c (String c' s)) =
  String Text.LF (Text.universal_newlines (String c' s)).
Proof.
  intros H H'.
  change (Text.universal_newlines (String c (String c' s))) with
    (if Text.ascii_eqb c Text.CR
     then if Text.ascii_eqb c' Text.LF
          then String Text.LF (Text.universal_newlines s)
          else String Text.LF (Text.universal_newlines (String c' s))
     else String c (Text.universal_newlines (String c' s))).
  rewrite H, H'. reflexivity.
Qed.

Lemma universal_newlines_nonempty (c : ascii) (s : string) :
  Text.universal_newlines (String c s) ≠ "".
Proof.
  simpl. destruct (Text.ascii_eqb c Text.CR); [| discriminate].
  destruct s as [|c' s]; [discriminate |].
  destruct (Text.ascii_eqb c' Text.LF); discriminate.
Qed.

(** Reading a text that ends its last line and then more text gives the
    lines of the one followed by the lines of the other. *)
Lemma universal_newlines_app_bounded (n : nat) (a b : string) :
  (String.length a ≤ n)%nat → newline_ended a = true →
  Text.universal_newlines (a +:+ b) =
    Text.universal_newlines a +:+ Text.universal_newlines b ∧
  newline_ended (Text.universal_newlines a) = true.
Proof.
  revert a. induction n as [|n IH]; intros a Hn Ha.
  - destruct a; [split; reflexivity | simpl in Hn; lia].
  - destruct a as [|c a]; [split; reflexivity |].
    simpl in Hn. rewrite app_cons.
    destruct (Text.ascii_eqb c Text.CR) eqn:Hcr.
    + destruct a as [|c' a].
      { simpl in Ha. apply ascii_eqb_eq in Hcr. subst c. discriminate Ha. }
      rewrite app_cons.
      destruct (Text.ascii_eqb c' Text.LF) eqn:Hlf.
      * rewrite !universal_newlines_crlf by assumption.
        destruct (IH a) as [E1 E2]; [simpl in Hn; lia | |].
        { apply newline_ended_tail with c'. apply newline_ended_tail with c. exact Ha. }
        rewrite E1, app_cons. split; [reflexivity |].
        destruct (Text.universal_newlines a) eqn:Hu; [reflexivity |].
        rewrite newline_ended_cons by congruence. exact E2.
      * rewrite !universal_newlines_cr by assumption.
        destruct (IH (String c' a)) as [E1 E2]; [lia | |].
        { apply newline_ended_tail with c. exact Ha. }
        rewrite <- app_cons, E1, app_cons. split; [reflexivity |].
        rewrite newline_ended_cons by apply universal_newlines_nonempty. exact E2.
    + rewrite !universal_newlines_other by assumption.
      destruct a as [|c' a].
      { simpl in Ha. rewrite app_empty_l. split; [reflexivity | exact Ha]. }
      destruct (IH (String c' a)) as [E1 E2]; [lia | |].
      { apply newline_ended_tail with c. exact Ha. }
      rewrite E1, app_cons. split; [reflexivity |].
      rewrite newline_ended_cons by apply universal_newlines_nonempty. exact E2.
Qed.

Lemma keepends_nonempty (s : string) : s ≠ "" → Text.keepends s ≠ [].
Proof.
  destruct s as [|c s]; [congruence |]. intros _. simpl.
  destruct (Text.ascii_eqb c Text.LF); [discriminate |].
  destruct (Text.keepends s); discriminate.
Qed.

Lemma keepends_app (a b : string) :
  newline_ended a = true →
  Text.keepends (a +:+ b) = Text.keepends a ++ Text.keepends b.
Proof.
  induction a as [|c a IH]; intros Ha; [reflexivity |].
  rewrite app_cons. simpl.
  destruct (Text.ascii_eqb c Text.LF) eqn:Hlf.
  - rewrite IH by (apply newline_ended_tail with c; exact Ha). reflexivity.
  - destruct a as [|c' a]; [simpl in Ha; congruence |].
    rewrite IH by (apply newline_ended_tail with c; exact Ha).
    pose proof (keepends_nonempty (String c' a)) as Hne.
    destruct (Text.keepends (String c' a)); [exfalso; apply Hne; congruence |].
    reflexivity.
Qed.

Lemma readlines_app (text rest : string) :
  newline_ended text = true →
  Text.readlines (text +:+ rest) = Text.readlines text ++ Text.readlines rest.
Proof.
  intros Ht. unfold Text.readlines.
  destruct (universal_newlines_app_bounded (String.length text) text rest) as [E1 E2];
    [lia | exact Ht |].
  rewrite E1. apply keepends_app, E2.
Qed.

Lemma keepends_line (v : string) :
  Text.contains (String Text.LF "") v = false →
  Text.keepends (v +:+ String Text.LF "") = [v +:+ String Text.LF ""].
Proof.
  induction v as [|c v IH]; intros Hc; [reflexivity |].
  apply contains_char_cons in Hc as [Hne Hc]. rewrite app_cons. simpl.
  rewrite Hne, (IH Hc). reflexivity.
Qed.

Lemma readlines_line (v : string) :
  Text.contains (String Text.LF "") v = false →
  Text.contains (String Text.CR "") v = false →
  Text.readlines (v +:+ String Text.LF "") = [v +:+ String Text.LF ""].
Proof.
  intros Hlf Hcr. unfold Text.readlines.
  rewrite universal_newlines_no_cr.
  - apply keepends_line, Hlf.
  - rewrite contains_char_app, Hcr. reflexivity.
Qed.

(** The lines read after a line has been appended to a text that ends
    its last line. *)
Lemma readlines_append_line (text v : string) :
  newline_ended text = true →
  Text.contains (String Text.LF "") v = false →
  Text.contains (String Text.CR "") v = false →
  Text.readlines (text +:+ v +:+ String Text.LF "") =
  Text.readlines text ++ [v +:+ String Text.LF ""].
Proof.
  intros Ht Hlf Hcr. rewrite readlines_app by exact Ht.
  rewrite readlines_line by assumption. reflexivity.
Qed.

Lemma newline_ended_append_line (text v : string) :
  newline_ended (text +:+ v +:+ String Text.LF "") = true.
Proof.
  rewrite <- string_app_assoc. generalize (text +:+ v). intros a.
  induction a as [|c a IH]; [reflexivity |].
  rewrite app_cons. rewrite newline_ended_cons; [exact IH |].
  destruct a; discriminate.
Qed.

End TextFacts.

Section InstalledCheck.
Context `{!Runtime}.

Lemma startswith_app (p s : string) : Text.startswith p (p +:+ s) = true.
Proof.
  induction p as [|c p IH]; [reflexivity |].
  rewrite app_cons. simpl. rewrite ascii_eqb_refl. exact IH.
Qed.

Lemma checkinstalled_ext (verb : string) (w w' : world) :
  st w = st w' → fst (checkinstalled verb w) = fst (checkinstalled verb w').
Proof.
  intros Hst.
  assert (Hone : ∀ logfile,
            fst (_checkinstalled verb logfile w) = fst (_checkinstalled verb logfile w')).
  { intros logfile. apply _checkinstalled_ext; unfold protonprefix, bind, get, ret;
      cbn [fst]; rewrite Hst; reflexivity. }
  destruct (fst (checkinstalled verb w)) eqn:E.
  - symmetry. apply checkinstalled_true_iff. apply checkinstalled_true_iff in E.
    destruct E as [Hg [E | E]]; (split; [exact Hg |]); [left | right];
      rewrite <- Hone; exact E.
  - destruct (fst (checkinstalled verb w')) eqn:E'; [| reflexivity].
    apply checkinstalled_true_iff in E'. destruct E' as [Hg [E' | E']];
      rewrite <- Hone in E';
      assert (fst (checkinstalled verb w) = true)
        by (apply checkinstalled_true_iff; auto);
      congruence.
Qed.

(** The installed check on a log whose last line is the verb. *)
Lemma _checkinstalled_last_line (verb logfile text : string) (w : world) :
  one_line verb → plain_verb verb → newline_ended text = true →
  files (os (st w)) !! (prefix_in (st w) +:+ logfile) =
    Some (text +:+ verb +:+ String Text.LF "") →
  fst (_checkinstalled verb logfile w) = true.
Proof.
  intros (Hstrip & Hlf & Hcr) Hplain Htext Hfile.
  assert (Hlines : map Text.strip (Text.readlines (text +:+ verb +:+ String Text.LF "")) =
                   map Text.strip (Text.readlines text) ++ [verb]).
  { rewrite readlines_append_line by assumption.
    rewrite map_app. cbn [map]. rewrite strip_line by exact Hstrip. reflexivity. }
  destruct Hplain as [Hbare | (key & value & -> & Hlit & Hkey & Hval)].
  - apply _checkinstalled_bare; [exact Hbare |].
    eexists. split; [exact Hfile |]. rewrite Hlines.
    apply elem_of_app. right. apply list_elem_of_singleton. reflexivity.
  - apply _checkinstalled_setting; try assumption.
    eexists. split; [exact Hfile |]. rewrite Hlines.
    rewrite List.filter_app. cbn [List.filter].
    rewrite <- string_app_assoc, startswith_app. apply last_snoc.
Qed.

Lemma forced_then_found (verb : string) (w w' : world) :
  verb ≠ "gui" → one_line verb → plain_verb verb →
  newline_ended (forced_log_text (st w)) = true →
  st w' = st (snd (_forceinstalled verb w)) →
  fst (checkinstalled verb w') = true.
Proof.
  intros Hgui Hline Hplain Hended Hst.
  rewrite (checkinstalled_ext verb w' (snd (_forceinstalled verb w)) Hst).
  pose proof (_forceinstalled_eq verb w) as Hf. cbv zeta in Hf. rewrite Hf. cbn [snd].
  apply checkinstalled_true_iff. split; [exact Hgui | left].
  apply _checkinstalled_last_line with (text := forced_log_text (st w)); try assumption.
  cbn [st os files with_os with_files py]. apply lookup_insert_eq.
Qed.

(** X1: a verb recorded by [_forceinstalled] is installed from then on:
    for a bare verb or a single setting that stands on one line, is not
    [gui] and is appended to a forced log that is missing, empty or ends
    with a newline, [checkinstalled] returns [True] after
    [_forceinstalled], and the forced log again ends with a newline. *)
Theorem forced_verb_is_installed (verb : string) (w : world) :
  verb ≠ "gui" → one_line verb → plain_verb verb →
  newline_ended (forced_log_text (st w)) = true →
  fst (checkinstalled verb (snd (_forceinstalled verb w))) = true ∧
  newline_ended (forced_log_text (st (snd (_forceinstalled verb w)))) = true.
Proof.
  intros Hgui Hline Hplain Hended.
  split; [apply (forced_then_found verb w); auto |].
  pose proof (_forceinstalled_eq verb w) as Hf. cbv zeta in Hf. rewrite Hf. cbn [snd].
  unfold forced_log_text at 1. unfold prefix_in at 1.
  cbn [st os files with_os with_files py].
  fold (prefix_in (st w)). rewrite lookup_insert_eq. cbn [default].
  apply newline_ended_append_line.
Qed.

(** X2: only the latest line for a key counts.  When the last line of a
    log is the setting [key=new], the check for [key=value] answers
    [True] exactly when [value] is [new], whatever lines for the key come
    before. *)
Theorem latest_setting_decides (key value new logfile text : string) (w : world) :
  Re.literal key = true →
  Text.contains "=" key = false →
  Text.contains "=" value = false →
  Text.contains "=" new = false →
  one_line (key +:+ "=" +:+ new) →
  newline_ended text = true →
  files (os (st w)) !! (prefix_in (st w) +:+ logfile) =
    Some (text +:+ (key +:+ "=" +:+ new) +:+ String Text.LF "") →
  fst (_checkinstalled (key +:+ "=" +:+ value) logfile w) = true ↔ value = new.
Proof.
  intros Hlit Hkey Hval Hnew (Hstrip & Hlf & Hcr) Htext Hfile.
  rewrite _checkinstalled_setting by assumption.
  assert (Hlast : last (List.filter (Text.startswith (key +:+ "="))
                          (map Text.strip
                             (Text.readlines
                                (text +:+ (key +:+ "=" +:+ new) +:+ String Text.LF "")))) =
                  Some (key +:+ "=" +:+ new)).
  { rewrite readlines_append_line by assumption.
    rewrite map_app, List.filter_app. cbn [map List.filter].
    rewrite strip_line by exact Hstrip.
    rewrite <- (string_app_assoc key "=" new), startswith_app. apply last_snoc. }
  split.
  - intros (text' & Hf' & Hl'). rewrite Hfile in Hf'. injection Hf' as <-.
    rewrite Hlast in Hl'. injection Hl' as Heq.
    apply (inj (String.app key)) in Heq. apply (inj (String.app "=")) in Heq. auto.
  - intros ->. eexists. split; [exact Hfile | exact Hlast].
Qed.

(** X3: a bare verb stays installed when more text is appended to a log
    that ends with a newline: what is installed later never hides it. *)
Theorem bare_verb_stays_installed (verb logfile text more : string) (w w' : world) :
  Text.contains "=" verb = false →
  newline_ended text = true →
  files (os (st w)) !! (prefix_in (st w) +:+ logfile) = Some text →
  files (os (st w')) !! (prefix_in (st w') +:+ logfile) = Some (text +:+ more) →
  fst (_checkinstalled verb logfile w) = true →
  fst (_checkinstalled verb logfile w') = true.
Proof.
  intros Hbare Htext Hf Hf' Hin.
  apply _checkinstalled_bare in Hin; [| exact Hbare].
  destruct Hin as (t & Ht & Hv). rewrite Hf in Ht. injection Ht as <-.
  apply _checkinstalled_bare; [exact Hbare |].
  eexists. split; [exact Hf' |].
  rewrite readlines_app by exact Htext. rewrite map_app.
  apply elem_of_app. left. exact Hv.
Qed.

Lemma protontricks_skip_eq (verb : string) (w : world) :
  fst (checkinstalled verb w) = true →
  protontricks verb w = (Returned false, snd (checkinstalled verb w)).
Proof. intros Hi. unfold protontricks. rewrite bind_eq, Hi. reflexivity. Qed.

Lemma protontricks_offline_eq (verb : string) (w : world) :
  fst (checkinstalled verb w) = false →
  net_up (os (st w)) = false →
  protontricks verb w =
  (Returned false, snd (check_internet (snd (checkinstalled verb w)))).
Proof.
  intros Hi Hn. unfold protontricks. rewrite bind_eq, Hi. cbn [negb].
  rewrite bind_eq, check_internet_eq. cbn [fst snd].
  rewrite checkinstalled_st, Hn. reflexivity.
Qed.

(** X4: a successful [protontricks] is remembered.  For a bare verb or
    a single setting on one line, when the forced log that winetricks
    leaves is missing, empty or ends with a newline and [protontricks]
    returned [True], the verb is installed afterwards, so the next
    [protontricks] for it returns [False] and launches nothing. *)
Theorem protontricks_success_is_remembered (verb : string) (w : world) :
  let online := snd (check_internet (snd (checkinstalled verb w))) in
  let w1 := snd (launch_winetricks verb online) in
  let w2 := snd (protontricks verb w) in
  verb ≠ "gui" → one_line verb → plain_verb verb →
  newline_ended (forced_log_text (st w1)) = true →
  fst (protontricks verb w) = Returned true →
  fst (checkinstalled verb w2) = true ∧
  fst (protontricks verb w2) = Returned false ∧
  st (snd (protontricks verb w2)) = st w2 ∧
  spawned (trace (snd (protontricks verb w2))) = spawned (trace w2).
Proof.
  intros online w1 w2 Hgui Hline Hplain Hended Hres.
  assert (Hnot : fst (checkinstalled verb w) = false).
  { destruct (fst (checkinstalled verb w)) eqn:E; [| reflexivity].
    rewrite (protontricks_skip_eq verb w E) in Hres. discriminate. }
  assert (Hnet : net_up (os (st w)) = true).
  { destruct (net_up (os (st w))) eqn:E; [reflexivity |].
    rewrite (protontricks_offline_eq verb w Hnot E) in Hres. discriminate. }
  assert (Hinst : fst (checkinstalled verb w2) = true).
  { unfold w2. rewrite (protontricks_online verb w Hnot Hnet) in Hres |- *.
    fold online in Hres |- *.
    pose proof (run_winetricks_eq verb online) as Hrun. cbv zeta in Hrun.
    fold w1 in Hrun. rewrite Hrun in Hres |- *.
    destruct (fst (launch_winetricks verb online)) as [retc | exc]; [| discriminate Hres].
    destruct (negb (retc =? 0)); [discriminate Hres |].
    cbn [snd].
    destruct (fst (checkinstalled verb w1)) eqn:E; cbn [negb].
    - cbn [ret snd]. rewrite <- E. apply checkinstalled_ext.
      apply checkinstalled_st.
    - apply (forced_then_found verb (snd (checkinstalled verb w1))); auto.
      rewrite checkinstalled_st. exact Hended. }
  split; [exact Hinst |].
  rewrite (protontricks_skip_eq verb w2 Hinst). cbn [fst snd].
  destruct (checkinstalled_world verb w2) as [reads ->]. cbn [st trace].
  rewrite spawned_app, spawned_reads, app_nil_r. auto.
Qed.

End InstalledCheck.

Section Launch.
Context `{!Runtime}.

Lemma decodable_forall (ps : list (nat * string)) :
  decodable ps = true ↔ ∀ p, p ∈ ps → Utf8.valid (snd p) = true.
Proof.
  unfold decodable. rewrite forallb_forall. split.
  - intros Hall p Hin. apply Hall. apply list_elem_of_In. exact Hin.
  - intros Hall p Hin. apply Hall. apply list_elem_of_In. exact Hin.
Qed.

Lemma swept_all (ps : list (nat * string)) :
  decodable ps = true → swept ps = ps.
Proof.
  induction ps as [|p ps IH]; [reflexivity |].
  change (decodable (p :: ps)) with (Utf8.valid (snd p) && decodable ps).
  intros Hall. apply andb_true_iff in Hall as [Hp Hps].
  cbn [swept]. rewrite Hp, (IH Hps). reflexivity.
Qed.

Lemma swept_stops (before after : list (nat * string)) (p : nat * string) :
  decodable before = true → Utf8.valid (snd p) = false →
  swept (before ++ p :: after) = before.
Proof.
  induction before as [|q before IH]; intros Hall Hp.
  - cbn [app swept]. rewrite Hp. reflexivity.
  - change (decodable (q :: before)) with (Utf8.valid (snd q) && decodable before) in Hall.
    apply andb_true_iff in Hall as [Hq Hall].
    cbn [app swept]. rewrite Hq, (IH Hall Hp). reflexivity.
Qed.

(** X5: [_killhanging] changes nothing on the machine itself.  It
    returns exactly when every command line that it reads decodes as
    UTF-8 and raises [UnicodeDecodeError] otherwise.  Its requests are the
    SIGKILLs, in the order read, for the processes whose command line
    holds [mscorsvw.exe] among those read before the first command line
    that does not decode: all such processes when every command line
    decodes, and none that comes after an offending one. *)
Theorem killhanging_sweeps (w : world) :
  let ps := procs (os (st w)) in
  let result := _killhanging w in
  st (snd result) = st w ∧
  trace (snd result) = trace w ++ map EvKill (map fst (List.filter hanging (swept ps))) ∧
  (fst result = Returned tt ↔ ∀ p, p ∈ ps → Utf8.valid (snd p) = true) ∧
  (fst result = Returned tt ∨ fst result = Raised (PyExc "UnicodeDecodeError" "utf-8")) ∧
  ((∀ p, p ∈ ps → Utf8.valid (snd p) = true) → swept ps = ps) ∧
  (∀ before p after,
     ps = before ++ p :: after →
     (∀ q, q ∈ before → Utf8.valid (snd q) = true) →
     Utf8.valid (snd p) = false →
     swept ps = before).
Proof.
  intros ps result. unfold result. rewrite _killhanging_eq. fold ps. cbn [fst snd st trace].
  split; [reflexivity |]. split; [reflexivity |].
  split.
  { rewrite <- decodable_forall. destruct (decodable ps); split; congruence. }
  split; [destruct (decodable ps); auto |].
  split.
  - intros Hall. apply swept_all, decodable_forall, Hall.
  - intros before p after -> Hall Hp. apply swept_stops; [| exact Hp].
    apply decodable_forall, Hall.
Qed.

Lemma replace_absent (old new s : string) :
  Text.contains old s = false → Text.replace old new s = s.
Proof.
  unfold Text.replace. induction s as [|c s IH]; [reflexivity |].
  intros Hc. cbn [Text.contains] in Hc. apply orb_false_iff in Hc as [Hs Hc].
  cbn [Text.replace_from]. rewrite Hs, (IH Hc). reflexivity.
Qed.

Lemma contains_cons (sub : string) (c : ascii) (s : string) :
  Text.contains sub s = true → Text.contains sub (String c s) = true.
Proof. intros Hs. cbn [Text.contains]. rewrite Hs. apply orb_true_r. Qed.

Lemma contains_app_l (sub s : string) : Text.contains sub (sub +:+ s) = true.
Proof.
  destruct sub as [|c sub]; [destruct s; reflexivity |].
  rewrite app_cons. cbn [Text.contains].
  rewrite <- app_cons, startswith_app. reflexivity.
Qed.

Lemma replace_present (old new s : string) :
  Text.contains old s = true → old ≠ "" →
  Text.contains new (Text.replace old new s) = true.
Proof.
  unfold Text.replace. intros Hc Hold. induction s as [|c s IH].
  - destruct old; [congruence | discriminate Hc].
  - cbn [Text.replace_from].
    destruct (Text.startswith old (String c s)) eqn:Hs.
    + apply contains_app_l.
    + cbn [Text.contains] in Hc. rewrite Hs in Hc. cbn [orb] in Hc.
      apply contains_cons, IH, Hc.
Qed.

(** X6: the rewrite of [sys.argv] before winetricks runs (lines
    270-273) is idempotent: done a second time it changes nothing.
    After it every argument holds [waitforexitandrun] or has no [run] in
    it at all, and the number of arguments is the same. *)
Theorem wait_for_exit_idempotent (args : list string) :
  wait_for_exit (wait_for_exit args) = wait_for_exit args ∧
  length (wait_for_exit args) = length args ∧
  ∀ arg, arg ∈ wait_for_exit args →
         Text.contains "waitforexitandrun" arg = true ∨ Text.contains "run" arg = false.
Proof.
  assert (Hone : ∀ arg,
            let arg' := if negb (Text.contains "waitforexitandrun" arg)
                        then Text.replace "run" "waitforexitandrun" arg else arg in
            (Text.contains "waitforexitandrun" arg' = true ∨ Text.contains "run" arg' = false) ∧
            (if negb (Text.contains "waitforexitandrun" arg')
             then Text.replace "run" "waitforexitandrun" arg' else arg') = arg').
  { intros arg arg'. subst arg'.
    destruct (Text.contains "waitforexitandrun" arg) eqn:Hw; cbn [negb].
    - rewrite Hw. auto.
    - destruct (Text.contains "run" arg) eqn:Hr.
      + rewrite (replace_present "run" "waitforexitandrun" arg Hr) by discriminate. auto.
      + rewrite (replace_absent "run" "waitforexitandrun" arg Hr), Hw, Hr. cbn [negb].
        rewrite (replace_absent "run" "waitforexitandrun" arg Hr). auto. }
  unfold wait_for_exit. split; [| split].
  - rewrite map_map. apply map_ext. intros arg. apply (Hone arg).
  - apply length_map.
  - intros arg Hin. apply list_elem_of_In, in_map_iff in Hin as (a & <- & _).
    apply (Hone a).
Qed.

Lemma join_cons (sep x : string) (l : list string) :
  l ≠ [] → Str.join sep (x :: l) = x +:+ sep +:+ Str.join sep l.
Proof. destruct l; [congruence | reflexivity]. Qed.

Lemma split_nonempty (sep : ascii) (s : string) : Text.split sep s ≠ [].
Proof.
  destruct s as [|c s]; [discriminate |]. simpl.
  destruct (Text.ascii_eqb c sep); [discriminate |].
  destruct (Text.split sep s); discriminate.
Qed.

(** Splitting a text at a character and joining the parts with it gives
    the text back; no part holds the character. *)
Lemma join_split (sep : ascii) (s : string) :
  Str.join (String sep "") (Text.split sep s) = s ∧
  ∀ part, part ∈ Text.split sep s → Text.contains (String sep "") part = false.
Proof.
  induction s as [|c s [IHj IHp]].
  - split; [reflexivity |]. intros part Hin.
    apply list_elem_of_singleton in Hin. subst part. reflexivity.
  - cbn [Text.split]. destruct (Text.ascii_eqb c sep) eqn:Hc.
    + apply ascii_eqb_eq in Hc. subst c. split.
      * rewrite join_cons by apply split_nonempty. rewrite IHj. reflexivity.
      * intros part [-> | Hin]%elem_of_cons; [reflexivity | auto].
    + pose proof (split_nonempty sep s) as Hne.
      destruct (Text.split sep s) as [|w ws]; [congruence |]. split.
      * destruct ws as [|w' ws].
        { cbn [Str.join] in *. rewrite IHj. reflexivity. }
        rewrite join_cons in IHj by discriminate. rewrite join_cons by discriminate.
        rewrite app_cons, IHj. reflexivity.
      * intros part [-> | Hin]%elem_of_cons.
        { cbn [Text.contains Text.startswith]. rewrite (ascii_eqb_sym sep c), Hc.
          cbn [andb orb]. apply IHp. apply elem_of_cons. auto. }
        apply IHp. apply elem_of_cons. auto.
Qed.

(** X7: without a custom verb file, the arguments that follow
    [--unattended] on the winetricks command line are the verb cut at its
    spaces: joined by single spaces they give the verb back and none of
    them holds a space; only for [gui] there is no such argument. *)
Theorem winetricks_cmd_arguments (verb : string) (s : state) :
  ∃ arguments,
    winetricks_cmd verb None s = [winetricks_bin s; "--unattended"] ++ arguments ∧
    (verb = "gui" → arguments = []) ∧
    (verb ≠ "gui" →
     Str.join " " arguments = verb ∧
     arguments ≠ [] ∧
     ∀ argument, argument ∈ arguments → Text.contains " " argument = false).
Proof.
  unfold winetricks_cmd, Text.str_eqb. case_bool_decide as Hg.
  - exists []. split; [reflexivity |]. split; [reflexivity | congruence].
  - exists (Text.split " " verb). split; [reflexivity |].
    split; [congruence |]. intros _.
    destruct (join_split " " verb) as [Hj Hp].
    split; [exact Hj |]. split; [apply split_nonempty | exact Hp].
Qed.

Lemma is_custom_verb_eq (verb : string) (w : world) :
  verb ≠ "gui" →
  is_custom_verb verb w =
  (if bool_decide (local_verb_file verb (st w) ∈ dom (files (os (st w))))
   then Some (local_verb_file verb (st w))
   else if bool_decide (bundled_verb_file verb (st w) ∈ dom (files (os (st w))))
        then Some (bundled_verb_file verb (st w))
        else None,
   w).
Proof.
  intros Hg. unfold is_custom_verb, Text.str_eqb.
  rewrite bool_decide_eq_false_2 by exact Hg.
  unfold is_file. rewrite !bind_eq. unfold get, ret. cbn [fst snd].
  assert (Hlocal : (home (py (st w)) +:+ "/.config/protonfixes/localfixes/" +:+ "verbs") +:+
                   "/" +:+ verb +:+ ".verb" = local_verb_file verb (st w)).
  { unfold local_verb_file. rewrite string_app_assoc. reflexivity. }
  assert (Hbundled : (module_dir (py (st w)) +:+ "/" +:+ "verbs") +:+
                     "/" +:+ verb +:+ ".verb" = bundled_verb_file verb (st w)).
  { unfold bundled_verb_file. rewrite string_app_assoc. reflexivity. }
  rewrite !Hlocal.
  destruct (bool_decide (local_verb_file verb (st w) ∈ dom (files (os (st w)))));
    [reflexivity |].
  rewrite !bind_eq. cbn [fst snd]. rewrite !Hbundled.
  destruct (bool_decide (bundled_verb_file verb (st w) ∈ dom (files (os (st w)))));
    reflexivity.
Qed.

(** X8: which verb winetricks is run with.  After the wait for the wine
    server, winetricks is launched with the user's verb file when there
    is one below [~/.config/protonfixes/localfixes/verbs], whatever is
    bundled; else with the bundled verb file beside [util.py] when there
    is one; else with the verb itself, cut at its spaces. *)
Theorem custom_verb_file_is_used (verb : string) (w : world) :
  let s := st w in
  let present p := p ∈ dom (files (os s)) in
  let cmd := winetricks_cmd verb (fst (is_custom_verb verb w)) s in
  verb ≠ "gui" →
  spawned (trace (snd (launch_winetricks verb w))) =
    spawned (trace w) ++ [[wineserver_bin (py s); "-w"]; cmd] ∧
  (present (local_verb_file verb s) →
   cmd = [winetricks_bin s; "--unattended"; local_verb_file verb s]) ∧
  (¬ present (local_verb_file verb s) → present (bundled_verb_file verb s) →
   cmd = [winetricks_bin s; "--unattended"; bundled_verb_file verb s]) ∧
  (¬ present (local_verb_file verb s) → ¬ present (bundled_verb_file verb s) →
   cmd = [winetricks_bin s; "--unattended"] ++ Text.split " " verb).
Proof.
  intros s present cmd Hg. subst present. cbv beta.
  split.
  { pose proof (launch_winetricks_eq verb w) as Hl. cbv zeta in Hl. rewrite Hl.
    cbn [snd trace]. rewrite spawned_app, !spawned_spawn, spawned_kills. reflexivity. }
  unfold cmd. rewrite (is_custom_verb_eq verb w Hg). cbn [fst]. fold s.
  assert (Hplain : winetricks_cmd verb None s =
                   [winetricks_bin s; "--unattended"] ++ Text.split " " verb).
  { unfold winetricks_cmd, Text.str_eqb. rewrite bool_decide_eq_false_2 by exact Hg.
    reflexivity. }
  split; [| split].
  - intros Hl. rewrite bool_decide_eq_true_2 by exact Hl. reflexivity.
  - intros Hl Hb. rewrite bool_decide_eq_false_2 by exact Hl.
    rewrite bool_decide_eq_true_2 by exact Hb. reflexivity.
  - intros Hl Hb. rewrite bool_decide_eq_false_2 by exact Hl.
    rewrite bool_decide_eq_false_2 by exact Hb. exact Hplain.
Qed.

End Launch.

Section Environment.
Context `{!Runtime}.

Lemma set_environment_eq (envvar value : string) (w : world) :
  set_environment envvar value w =
  (tt, World (State (os (st w))
                (with_session_env (<[envvar := value]> (session_env (py (st w))))
                   (with_environ (<[envvar := value]> (environ (py (st w)))) (py (st w)))))
             (trace w)).
Proof. reflexivity. Qed.

Lemma del_environment_eq (envvar : string) (w : world) :
  del_environment envvar w =
  (tt, World (State (os (st w))
                (with_session_env (delete envvar (session_env (py (st w))))
                   (with_environ (delete envvar (environ (py (st w)))) (py (st w)))))
             (trace w)).
Proof.
  unfold del_environment. rewrite !bind_eq. unfold get. cbn [fst snd].
  destruct w as [[h i] tr]. cbn [st py os trace].
  destruct (bool_decide (envvar ∈ dom (environ i))) eqn:E1;
    unfold modify, ret; cbn [fst snd st py os trace with_py with_environ environ session_env];
    destruct (bool_decide (envvar ∈ dom (session_env i))) eqn:E2;
    cbn [fst snd st py os trace with_py with_session_env with_environ environ session_env
         argv wine_bin wineserver_bin module_dir home];
    repeat match goal with
    | E : bool_decide _ = false |- _ =>
        apply bool_decide_eq_false in E; apply not_elem_of_dom in E;
        rewrite (delete_id _ _ E)
    end;
    destruct i; reflexivity.
Qed.

(** X9: how the two environment helpers compose.  A variable set and
    then deleted leaves both mappings as a plain delete does; a variable
    deleted and then set, or set twice, leaves them as the last set
    does; helpers for different variables can be run in either order. *)
Theorem environment_helpers_compose (k k' v v' : string) (w : world) :
  let set_ k v w := snd (set_environment k v w) in
  let del_ k w := snd (del_environment k w) in
  del_ k (set_ k v w) = del_ k w ∧
  set_ k v (del_ k w) = set_ k v w ∧
  set_ k v' (set_ k v w) = set_ k v' w ∧
  del_ k (del_ k w) = del_ k w ∧
  (k ≠ k' →
   set_ k v (set_ k' v' w) = set_ k' v' (set_ k v w) ∧
   del_ k (set_ k' v' w) = set_ k' v' (del_ k w) ∧
   del_ k (del_ k' w) = del_ k' (del_ k w)).
Proof.
  intros set_ del_. subst set_ del_. cbv beta.
  rewrite ?del_environment_eq, ?set_environment_eq. cbn [snd].
  rewrite ?del_environment_eq, ?set_environment_eq.
  cbn [snd st os py trace with_session_env with_environ environ session_env
       argv wine_bin wineserver_bin module_dir home].
  rewrite !delete_insert_eq, !insert_delete_eq, !insert_insert_eq, !delete_delete_eq.
  repeat (split; [reflexivity |]).
  intros Hne.
  rewrite !(insert_insert_ne _ k k') by exact Hne.
  rewrite !(delete_insert_ne _ k k') by (intros Heq; apply Hne; congruence).
  rewrite !(delete_delete _ k k').
  repeat split; reflexivity.
Qed.

End Environment.

Section Topology.
Context `{!Runtime}.

Lemma four_inserts (m : gmap string string) :
  let m' := <["PROTON_DEMUX" := "0"]> (<["PROTON_VIDEO_CONVERT" := "0"]>
              (<["PROTON_AUDIO_CONVERT_BIN" := "0"]> (<["PROTON_AUDIO_CONVERT" := "0"]> m))) in
  (∀ k, k ∈ media_converter_variables → m' !! k = Some "0") ∧
  (∀ k, k ∉ media_converter_variables → m' !! k = m !! k) ∧
  <["PROTON_DEMUX" := "0"]> (<["PROTON_VIDEO_CONVERT" := "0"]>
    (<["PROTON_AUDIO_CONVERT_BIN" := "0"]> (<["PROTON_AUDIO_CONVERT" := "0"]> m'))) = m'.
Proof.
  intros m'.
  assert (Ha : m' !! "PROTON_AUDIO_CONVERT" = Some "0").
  { unfold m'. rewrite !lookup_insert_ne by discriminate. apply lookup_insert_eq. }
  assert (Hb : m' !! "PROTON_AUDIO_CONVERT_BIN" = Some "0").
  { unfold m'. rewrite !lookup_insert_ne by discriminate. apply lookup_insert_eq. }
  assert (Hv : m' !! "PROTON_VIDEO_CONVERT" = Some "0").
  { unfold m'. rewrite !lookup_insert_ne by discriminate. apply lookup_insert_eq. }
  assert (Hd : m' !! "PROTON_DEMUX" = Some "0").
  { unfold m'. apply lookup_insert_eq. }
  split; [| split].
  - intros k Hk. unfold media_converter_variables in Hk.
    repeat (apply elem_of_cons in Hk as [-> | Hk]); try assumption. inversion Hk.
  - intros k Hk. unfold media_converter_variables in Hk.
    rewrite !not_elem_of_cons in Hk. destruct Hk as (H1 & H2 & H3 & H4 & _).
    unfold m'. rewrite !lookup_insert_ne by congruence. reflexivity.
  - rewrite (insert_id m' _ _ Ha), (insert_id m' _ _ Hb), (insert_id m' _ _ Hv).
    apply insert_id, Hd.
Qed.

(** X10: [disable_protonmediaconverter] gives each of its four
    variables the value [0] in [os.environ] and in the session's copy,
    leaves every other variable and the rest of the machine alone, keeps
    equal mappings equal, and changes nothing when run again. *)
Theorem disable_protonmediaconverter_sets_four (w : world) :
  let w' := snd (disable_protonmediaconverter w) in
  (∀ k, k ∈ media_converter_variables →
        environ (py (st w')) !! k = Some "0" ∧ session_env (py (st w')) !! k = Some "0") ∧
  (∀ k, k ∉ media_converter_variables →
        environ (py (st w')) !! k = environ (py (st w)) !! k ∧
        session_env (py (st w')) !! k = session_env (py (st w)) !! k) ∧
  os (st w') = os (st w) ∧ argv (py (st w')) = argv (py (st w)) ∧ trace w' = trace w ∧
  (environ (py (st w)) = session_env (py (st w)) →
   environ (py (st w')) = session_env (py (st w'))) ∧
  snd (disable_protonmediaconverter w') = w'.
Proof.
  intros w'.
  assert (Hrun : ∀ w0, snd (disable_protonmediaconverter w0) =
            World (State (os (st w0))
                     (Interp
                        (<["PROTON_DEMUX" := "0"]> (<["PROTON_VIDEO_CONVERT" := "0"]>
                           (<["PROTON_AUDIO_CONVERT_BIN" := "0"]>
                              (<["PROTON_AUDIO_CONVERT" := "0"]> (environ (py (st w0)))))))
                        (<["PROTON_DEMUX" := "0"]> (<["PROTON_VIDEO_CONVERT" := "0"]>
                           (<["PROTON_AUDIO_CONVERT_BIN" := "0"]>
                              (<["PROTON_AUDIO_CONVERT" := "0"]> (session_env (py (st w0)))))))
                        (argv (py (st w0))) (wine_bin (py (st w0)))
                        (wineserver_bin (py (st w0))) (module_dir (py (st w0)))
                        (home (py (st w0)))))
                  (trace w0)).
  { intros w0. unfold disable_protonmediaconverter.
    rewrite !bind_eq, !set_environment_eq. reflexivity. }
  unfold w'. rewrite (Hrun (snd (disable_protonmediaconverter w))), (Hrun w).
  cbn [st os py trace environ session_env argv wine_bin wineserver_bin module_dir home].
  destruct (four_inserts (environ (py (st w)))) as (He1 & He2 & He3).
  destruct (four_inserts (session_env (py (st w)))) as (Hs1 & Hs2 & Hs3).
  cbv zeta in He1, He2, He3, Hs1, Hs2, Hs3.
  split; [intros k Hk; split; [apply He1 | apply Hs1]; exact Hk |].
  split; [intros k Hk; split; [apply He2 | apply Hs2]; exact Hk |].
  repeat (split; [reflexivity |]).
  split; [intros ->; reflexivity |].
  rewrite He3, Hs3. reflexivity.
Qed.

Lemma digits_no_separator (c : ascii) (d : Decimal.uint) :
  c = ":"%char ∨ c = ","%char →
  Text.contains (String c "") (NilEmpty.string_of_uint d) = false.
Proof. intros [-> | ->]; induction d; simpl; auto. Qed.

Lemma of_int_no_separator (c : ascii) (z : Z) :
  c = ":"%char ∨ c = ","%char → Text.contains (String c "") (Str.of_int z) = false.
Proof.
  intros Hc. unfold Str.of_int, NilZero.string_of_int, NilZero.string_of_uint.
  destruct (Z.to_int z) as [d | d]; destruct d;
    try (destruct Hc as [-> | ->]; reflexivity);
    try apply (digits_no_separator c _ Hc);
    destruct Hc as [-> | ->]; simpl;
    first [apply (digits_no_separator ":" _ (or_introl eq_refl))
          | apply (digits_no_separator "," _ (or_intror eq_refl))].
Qed.

Lemma join_no_char (c sep : ascii) (l : list string) :
  Text.ascii_eqb c sep = false →
  (∀ x, x ∈ l → Text.contains (String c "") x = false) →
  Text.contains (String c "") (Str.join (String sep "") l) = false.
Proof.
  intros Hsep. induction l as [|x l IH]; intros Hl; [reflexivity |].
  destruct l as [|y l]; [apply Hl; apply elem_of_cons; auto |].
  rewrite join_cons by discriminate. rewrite !contains_char_app.
  rewrite (Hl x) by (apply elem_of_cons; auto).
  rewrite IH by (intros z Hz; apply Hl; apply elem_of_cons; auto).
  cbn [Text.contains Text.startswith]. rewrite Hsep. reflexivity.
Qed.

Lemma split_join (sep : ascii) (l : list string) :
  l ≠ [] →
  (∀ x, x ∈ l → Text.contains (String sep "") x = false) →
  Text.split sep (Str.join (String sep "") l) = l.
Proof.
  induction l as [|x l IH]; [congruence |]. intros _ Hl.
  destruct l as [|y l].
  - cbn [Str.join]. apply split_no_sep. apply Hl. apply elem_of_cons. auto.
  - rewrite join_cons by discriminate.
    change (String sep "" +:+ Str.join (String sep "") (y :: l))
      with (String sep (Str.join (String sep "") (y :: l))).
    rewrite split_at_sep by (apply Hl; apply elem_of_cons; auto).
    rewrite IH; [reflexivity | discriminate |].
    intros z Hz. apply Hl. apply elem_of_cons. auto.
Qed.

Lemma range_strs_no_separator (c : ascii) (n : Z) (x : string) :
  c = ":"%char ∨ c = ","%char → x ∈ Str.range_strs n →
  Text.contains (String c "") x = false.
Proof.
  intros Hc Hx. unfold Str.range_strs in Hx.
  apply list_elem_of_In, in_map_iff in Hx as (i & <- & _).
  apply of_int_no_separator, Hc.
Qed.

(** The ids of a topology text are the numbers below the core count. *)
Lemma topology_ids_range (n : Z) :
  0 < n → topology_ids (cpu_topology n) = Str.range_strs n.
Proof.
  intros Hn. unfold topology_ids, cpu_topology.
  change (":" +:+ ?r) with (String ":"%char r).
  rewrite split_at_sep by (apply of_int_no_separator; auto).
  rewrite split_no_sep.
  - apply split_join.
    + unfold Str.range_strs. destruct (Z.to_nat n) eqn:E; [lia | discriminate].
    + intros x Hx. apply (range_strs_no_separator "," n x); auto.
  - apply join_no_char; [reflexivity |].
    intros x Hx. apply (range_strs_no_separator ":" n x); auto.
Qed.

Lemma set_cpu_topology_eq (core_count : Z) (ignore_user_setting : bool) (w : world) :
  set_cpu_topology core_count ignore_user_setting w =
  if Str.truthy (environ (py (st w)) !! "WINE_CPU_TOPOLOGY") && negb ignore_user_setting
  then (false, w)
  else if core_count <=? 0 then (false, w)
  else (true, snd (set_environment "WINE_CPU_TOPOLOGY" (cpu_topology core_count) w)).
Proof.
  unfold set_cpu_topology. rewrite bind_eq. unfold get at 1. cbn [fst snd].
  destruct (Str.truthy _ && negb ignore_user_setting); [destruct w; reflexivity |].
  replace ((core_count =? 0) || (core_count <=? 0)) with (core_count <=? 0)
    by (destruct (core_count =? 0) eqn:E; [apply Z.eqb_eq in E; subst |]; reflexivity).
  destruct (core_count <=? 0); [destruct w; reflexivity |].
  rewrite bind_eq. reflexivity.
Qed.

(** X11: [set_cpu_topology] returns [True] exactly when the core count
    is positive and no non-empty [WINE_CPU_TOPOLOGY] of the user stands
    in the way (or it is told to ignore it).  It then writes the same
    text to [os.environ] and to the session's copy, and the ids of that
    text are the decimal numbers from 0 up to the count, one for each
    core; when it returns [False] it has changed nothing. *)
Theorem set_cpu_topology_result (core_count : Z) (ignore_user_setting : bool) (w : world) :
  let user_topo := environ (py (st w)) !! "WINE_CPU_TOPOLOGY" in
  let result := set_cpu_topology core_count ignore_user_setting w in
  (fst result = true ↔
   0 < core_count ∧ (Str.truthy user_topo = false ∨ ignore_user_setting = true)) ∧
  (fst result = false → snd result = w) ∧
  (fst result = true →
   environ (py (st (snd result))) !! "WINE_CPU_TOPOLOGY" = Some (cpu_topology core_count) ∧
   session_env (py (st (snd result))) !! "WINE_CPU_TOPOLOGY" = Some (cpu_topology core_count) ∧
   topology_ids (cpu_topology core_count) = Str.range_strs core_count ∧
   length (Str.range_strs core_count) = Z.to_nat core_count).
Proof.
  intros user_topo result. subst result. rewrite set_cpu_topology_eq. fold user_topo.
  destruct (Str.truthy user_topo) eqn:Hu; destruct ignore_user_setting; cbn [andb negb fst snd];
    try (split; [split; [discriminate | intros [_ [? | ?]]; discriminate] |];
         split; [reflexivity | discriminate]);
    destruct (core_count <=? 0) eqn:Hc; cbn [fst snd];
    try (apply Z.leb_le in Hc; split; [split; [discriminate | intros [? _]; lia] |];
         split; [reflexivity | discriminate]);
    apply Z.leb_gt in Hc;
    (split; [split; [intros _; split; [lia | auto] | reflexivity] |]);
    (split; [discriminate |]); intros _;
    rewrite set_environment_eq;
    cbn [snd st py environ session_env with_session_env with_environ];
    rewrite !lookup_insert_eq;
    (repeat split; [apply topology_ids_range; lia |]);
    unfold Str.range_strs; rewrite length_map, length_seq; reflexivity.
Qed.

Lemma get_cpu_count_nonneg (os_cpu_count : option Z) : 0 ≤ get_cpu_count os_cpu_count.
Proof.
  unfold get_cpu_count. destruct os_cpu_count as [c|]; [| lia].
  destruct (c =? 0) eqn:E0; cbn [orb]; [lia |].
  destruct (c <=? 0) eqn:E1; [lia |]. apply Z.leb_gt in E1. lia.
Qed.

(** X12: in [set_cpu_topology_nosmt] the argument [core_limit] has no
    effect: whatever limit is passed, the outcome and the machine are
    the same.  When SMT is reported active and [threads_per_core] is not
    zero, the core count handed to [set_cpu_topology] is the logical
    count divided by [threads_per_core], rounded down; when
    [threads_per_core] is zero the division raises; when SMT is not
    reported active nothing is set. *)
Theorem set_cpu_topology_nosmt_ignores_limit (os_cpu_count : option Z)
    (limit limit' : Z) (ignore_user_setting : bool) (threads_per_core : Z) (w : world) :
  let run l := set_cpu_topology_nosmt os_cpu_count l ignore_user_setting threads_per_core w in
  let smt := fst (is_smt_enabled w) in
  let probed := snd (is_smt_enabled w) in
  run limit = run limit' ∧
  (smt = false → run limit = (Returned false, probed)) ∧
  (smt = true → threads_per_core = 0 → ∃ exc, run limit = (Raised exc, probed)) ∧
  (smt = true → threads_per_core ≠ 0 →
   run limit =
   (Returned (fst (set_cpu_topology (get_cpu_count os_cpu_count / threads_per_core)
                     ignore_user_setting probed)),
    snd (set_cpu_topology (get_cpu_count os_cpu_count / threads_per_core)
           ignore_user_setting probed))).
Proof.
  intros run smt probed.
  assert (Hmax : ∀ c l, Z.max c (Z.min c l) = c) by (intros; lia).
  subst run. cbv beta. unfold set_cpu_topology_nosmt.
  rewrite !bind_eq. fold smt. fold probed.
  destruct smt; cbn [negb].
  - destruct (threads_per_core =? 0) eqn:Ht.
    + apply Z.eqb_eq in Ht.
      repeat split; try discriminate; try congruence. intros _ _. eexists. reflexivity.
    + apply Z.eqb_neq in Ht. rewrite !bind_eq, !Hmax.
      repeat split; try discriminate; congruence.
  - repeat split; try discriminate; congruence.
Qed.

(** X13: [set_cpu_topology_limit] sets a topology only for a limit that
    is positive and below the count of logical cores; with a limit at or
    above the count, or with a count that the system does not tell, it
    returns [False] and changes nothing. *)
Theorem set_cpu_topology_limit_result (os_cpu_count : option Z)
    (core_limit : Z) (ignore_user_setting : bool) (w : world) :
  let result := set_cpu_topology_limit os_cpu_count core_limit ignore_user_setting w in
  (fst result = true ↔
   0 < core_limit < get_cpu_count os_cpu_count ∧
   (Str.truthy (environ (py (st w)) !! "WINE_CPU_TOPOLOGY") = false ∨
    ignore_user_setting = true)) ∧
  (fst result = false → snd result = w) ∧
  (os_cpu_count = None → result = (false, w)) ∧
  (fst result = true →
   environ (py (st (snd result))) !! "WINE_CPU_TOPOLOGY" = Some (cpu_topology core_limit) ∧
   session_env (py (st (snd result))) !! "WINE_CPU_TOPOLOGY" = Some (cpu_topology core_limit)).
Proof.
  intros result. subst result. unfold set_cpu_topology_limit.
  pose proof (get_cpu_count_nonneg os_cpu_count) as Hnn.
  destruct (core_limit >=? get_cpu_count os_cpu_count) eqn:Hl.
  - apply Z.geb_le in Hl. cbn [ret fst snd].
    split; [split; [discriminate | intros [? _]; lia] |].
    split; [reflexivity |]. split; [reflexivity | discriminate].
  - rewrite Z.geb_leb in Hl. apply Z.leb_gt in Hl.
    rewrite set_cpu_topology_eq.
    destruct (Str.truthy _) eqn:Hu; destruct ignore_user_setting; cbn [andb negb fst snd];
      try (split; [split; [discriminate | intros [_ [? | ?]]; discriminate] |];
           split; [reflexivity |]; split; [reflexivity | discriminate]);
      destruct (core_limit <=? 0) eqn:Hc; cbn [fst snd];
      try (apply Z.leb_le in Hc; split; [split; [discriminate | intros [? _]; lia] |];
           split; [reflexivity |]; split; [reflexivity | discriminate]);
      apply Z.leb_gt in Hc;
      (split; [split; [intros _; split; [lia | auto] | reflexivity] |]);
      (split; [discriminate |]);
      (split; [intros ->; cbn [get_cpu_count] in Hl; lia |]);
      intros _; rewrite set_environment_eq;
      cbn [snd st py environ session_env with_session_env with_environ];
      rewrite !lookup_insert_eq; split; reflexivity.
Qed.

End Topology.

Section Guard.
Context `{!Runtime}.

Lemma dotted_name_inj (a a' n n' : string) :
  Text.contains "." n = false → Text.contains "." n' = false →
  a +:+ String "."%char n = a' +:+ String "."%char n' → a = a' ∧ n = n'.
Proof.
  intros Hn Hn'. revert a'. induction a as [|c a IH]; intros [|c' a'] Heq.
  - rewrite !app_empty_l in Heq. injection Heq as Heq. auto.
  - rewrite app_empty_l, app_cons in Heq. injection Heq as Hc Heq. subst n.
    rewrite contains_char_app in Hn. apply orb_false_iff in Hn as [_ Hn]. discriminate Hn.
  - rewrite app_empty_l, app_cons in Heq. injection Heq as Hc Heq. subst n'.
    rewrite contains_char_app in Hn'. apply orb_false_iff in Hn' as [_ Hn']. discriminate Hn'.
  - rewrite !app_cons in Heq. injection Heq as Hc Heq. subst c'.
    destruct (IH a' Heq) as [Ha Hnn]. subst. auto.
Qed.

(** X14: markers are namespaced.  Two wrapped functions whose names hold
    no dot, as Python names do not, share a marker file in a prefix only
    if they have the same module and the same name. *)
Theorem markers_do_not_collide (prefix : string) (f g : pyfunc) :
  Text.contains "." (fn_name f) = false →
  Text.contains "." (fn_name g) = false →
  marker prefix f = marker prefix g →
  fn_module f = fn_module g ∧ fn_name f = fn_name g.
Proof.
  intros Hf Hg Heq. unfold marker, func_id in Heq.
  apply (inj (String.app _)) in Heq. apply (inj (String.app _)) in Heq.
  apply dotted_name_inj; [exact Hf | exact Hg | exact Heq].
Qed.

Lemma prefix_in_py (s s' : state) : py s = py s' → prefix_in s = prefix_in s'.
Proof. unfold prefix_in. intros ->. reflexivity. Qed.

Lemma wrapper_marked (retry : bool) (func : pyfunc)
    (args : list pyval) (kwargs : list (string * pyval)) (w : world) :
  fst (path_exists (marker (prefix_in (st w)) func) w) = true →
  wrapper retry func args kwargs w =
  (Returned PyNone, snd (ensure_directory (run_directory (prefix_in (st w))) w)).
Proof.
  intros Hm. rewrite wrapper_eq.
  destruct (ensure_directory_frame (prefix_in (st w)) func w) as (_ & _ & Hm' & _).
  rewrite Hm', Hm. reflexivity.
Qed.

(** X15: once the marker of a function is there, the wrapper is a
    no-op under either policy: it returns [None], does not call the
    function, leaves every file and the interpreter as they are, and the
    marker and the prefix are still the same afterwards, so the same
    holds for every later call. *)
Theorem once_marked_is_noop (retry : bool) (func : pyfunc)
    (args : list pyval) (kwargs : list (string * pyval)) (w : world) :
  let file := marker (prefix_in (st w)) func in
  let result := wrapper retry func args kwargs w in
  file ∈ dom (files (os (st w))) →
  fst result = Returned PyNone ∧
  calls_of (func_id func) (trace (snd result)) = calls_of (func_id func) (trace w) ∧
  appended (trace (snd result)) = appended (trace w) ∧
  files (os (st (snd result))) = files (os (st w)) ∧
  py (st (snd result)) = py (st w) ∧
  prefix_in (st (snd result)) = prefix_in (st w) ∧
  file ∈ dom (files (os (st (snd result)))).
Proof.
  intros file result Hin.
  assert (Hm : fst (path_exists file w) = true).
  { unfold path_exists. rewrite bind_eq. unfold get, ret. cbn [fst snd].
    rewrite bool_decide_eq_true_2 by exact Hin. reflexivity. }
  unfold result. rewrite (wrapper_marked retry func args kwargs w Hm). cbn [fst snd].
  destruct (ensure_directory_frame (prefix_in (st w)) func w) as (Hf & Hp & _ & _).
  rewrite calls_of_ensure_directory, appended_ensure_directory, Hf.
  repeat (split; [reflexivity || exact Hp |]).
  split; [apply prefix_in_py, Hp | exact Hin].
Qed.

(** X16: with [retry=True] a call in which the function returns writes
    the marker, exactly as under the default policy: the wrapper returns
    [None], the function has run once, and the marker file exists
    afterwards. *)
Theorem once_retry_success_writes_marker (func : pyfunc)
    (args : list pyval) (kwargs : list (string * pyval)) (w : world) (v : pyval) :
  let prefix := prefix_in (st w) in
  let file := marker prefix func in
  let w' := snd (ensure_directory (run_directory prefix) w) in
  let result := wrapper true func args kwargs w in
  fst (path_exists file w) = false →
  fst (fn_body func args kwargs (st w')) = Returned v →
  fst result = Returned PyNone ∧
  result = wrapper false func args kwargs w ∧
  calls_of (func_id func) (trace (snd result)) = S (calls_of (func_id func) (trace w)) ∧
  appended (trace (snd result)) = appended (trace w) ++ [(file, "")] ∧
  file ∈ dom (files (os (st (snd result)))).
Proof.
  intros prefix file w' result Hfresh Hret.
  unfold result. rewrite !wrapper_eq. fold prefix. fold w'. fold file.
  destruct (ensure_directory_frame prefix func w) as (_ & _ & Hm & _).
  fold w' in Hm. fold file in Hm. rewrite Hm, Hfresh, Hret.
  unfold open_append, bind, emit, modify. cbn [fst snd st trace os files with_os with_files].
  rewrite !calls_of_app, !appended_app, calls_of_call, calls_of_append.
  unfold w'. rewrite calls_of_ensure_directory, appended_ensure_directory.
  change (appended [EvCall (func_id func) args kwargs]) with (@nil (string * string)).
  change (appended [EvAppend file ""]) with [(file, "")].
  rewrite app_nil_r.
  repeat split; [lia |].
  apply elem_of_dom. rewrite lookup_insert_eq. eauto.
Qed.

End Guard.

Section GameFixes.
Context `{!Runtime}.

Lemma get_game_install_path_eq (w : world) :
  get_game_install_path w =
  (match environ (py (st w)) !! "PWD" with
   | None => Raised (PyExc "KeyError" "PWD")
   | Some pwd =>
       Returned (default pwd (environ (py (st w)) !! "STEAM_COMPAT_INSTALL_PATH"))
   end, w).
Proof.
  unfold get_game_install_path. rewrite bind_eq. unfold get. cbn [fst snd].
  destruct (environ (py (st w)) !! "PWD") as [pwd|]; [| destruct w; reflexivity].
  case_bool_decide as Hin.
  - apply elem_of_dom in Hin as [x Hx]. rewrite Hx. destruct w; reflexivity.
  - apply not_elem_of_dom in Hin. rewrite Hin. destruct w; reflexivity.
Qed.

(** X17: [get_game_install_path] needs [PWD] even when it does not use
    it: without [PWD] in [os.environ] it raises [KeyError], also when
    [STEAM_COMPAT_INSTALL_PATH] is set; with [PWD] it returns
    [STEAM_COMPAT_INSTALL_PATH] when that is set and [PWD] otherwise.
    It never changes the machine. *)
Theorem get_game_install_path_result (w : world) :
  let env := environ (py (st w)) in
  let result := get_game_install_path w in
  snd result = w ∧
  (env !! "PWD" = None → ∃ exc, fst result = Raised exc) ∧
  (∀ pwd path, env !! "PWD" = Some pwd → env !! "STEAM_COMPAT_INSTALL_PATH" = Some path →
               fst result = Returned path) ∧
  (∀ pwd, env !! "PWD" = Some pwd → env !! "STEAM_COMPAT_INSTALL_PATH" = None →
          fst result = Returned pwd).
Proof.
  intros env result. subst result. rewrite get_game_install_path_eq. fold env. cbn [fst snd].
  split; [reflexivity |]. split; [| split].
  - intros ->. eexists. reflexivity.
  - intros pwd path -> ->. reflexivity.
  - intros pwd -> ->. reflexivity.
Qed.

(** X18: the fix for Elden Ring (1245620) never touches a [DLC.bdt]
    that is there: when [Game/DLC.bdt] below the install path exists, as
    a file or as a directory, the machine is left as it is.  When it does
    not exist and [Game] is a directory, the file is created empty and
    nothing else changes; without the directory [Game] the exception of
    [open] escapes and the machine is left as it is.  A fix that returned
    changes nothing when it runs again. *)
Theorem main_1245620_keeps_existing (w : world) (install_path : string) :
  let game := install_path +:+ "/Game" in
  let dlc := install_path +:+ "/Game/DLC.bdt" in
  let result := main_1245620 w in
  fst (get_game_install_path w) = Returned install_path →
  (fst (path_exists dlc w) = true → result = (Returned tt, w)) ∧
  (fst (path_exists dlc w) = false → game ∈ dirs (os (st w)) →
   fst result = Returned tt ∧
   files (os (st (snd result))) = <[dlc := ""]> (files (os (st w))) ∧
   dirs (os (st (snd result))) = dirs (os (st w)) ∧
   py (st (snd result)) = py (st w) ∧
   trace (snd result) = trace w) ∧
  (fst (path_exists dlc w) = false → game ∉ dirs (os (st w)) →
   (∃ exc, fst result = Raised exc) ∧ snd result = w) ∧
  (fst result = Returned tt → main_1245620 (snd result) = (Returned tt, snd result)).
Proof.
  intros game dlc result Hpath.
  assert (Hrun : ∀ w0, fst (get_game_install_path w0) = Returned install_path →
            main_1245620 w0 =
            if fst (path_exists dlc w0) then (Returned tt, w0)
            else open_write_close game dlc w0).
  { intros w0 Hp. unfold main_1245620.
    rewrite bind_eq, (surjective_pairing (get_game_install_path w0)).
    rewrite get_game_install_path_eq in Hp |- *. cbn [fst snd] in Hp |- *. rewrite Hp.
    rewrite bind_eq, path_exists_world. fold dlc.
    destruct (fst (path_exists dlc w0)); cbn [negb]; [reflexivity |].
    rewrite bind_eq, get_game_install_path_eq. cbn [fst snd]. rewrite Hp.
    reflexivity. }
  assert (Hopen : fst (path_exists dlc w) = false →
            open_write_close game dlc w =
            if bool_decide (game ∈ dirs (os (st w)))
            then (Returned tt,
                  World (with_os (with_files (<[dlc := ""]> (files (os (st w)))) (os (st w)))
                                 (st w)) (trace w))
            else (fst (open_write_close game dlc w), w)).
  { intros He. unfold path_exists in He. rewrite bind_eq in He. unfold get, ret in He.
    cbn [fst snd] in He. apply orb_false_iff in He as [_ Hd].
    unfold open_write_close. rewrite bind_eq. unfold get. cbn [fst snd]. rewrite Hd.
    destruct (bool_decide (game ∈ dirs (os (st w)))); [reflexivity |].
    destruct (bool_decide (game ∈ dom (files (os (st w))))); destruct w; reflexivity. }
  unfold result. rewrite (Hrun w Hpath).
  destruct (fst (path_exists dlc w)) eqn:He.
  - split; [reflexivity |]. split; [discriminate |]. split; [discriminate |].
    intros _. cbn [snd]. rewrite (Hrun w Hpath), He. reflexivity.
  - rewrite (Hopen eq_refl). split; [discriminate |].
    case_bool_decide as Hg.
    + cbn [fst snd st os files dirs py trace with_os with_files].
      split; [intros _ _; repeat split |]. split; [intros _ Hn; contradiction |].
      intros _. rewrite Hrun.
      * set (w1 := World _ _).
        assert (Hnow : fst (path_exists dlc w1) = true).
        { unfold path_exists. rewrite bind_eq. unfold get, ret, w1.
          cbn [fst snd st os files with_os with_files].
          rewrite bool_decide_eq_true_2; [reflexivity |].
          apply elem_of_dom. rewrite lookup_insert_eq. eauto. }
        rewrite Hnow. reflexivity.
      * rewrite get_game_install_path_eq in Hpath |- *. exact Hpath.
    + cbn [fst snd]. split; [intros _ Hy; contradiction |].
      split.
      * intros _ _. split; [| reflexivity].
        unfold open_write_close. rewrite bind_eq. unfold get, ret. cbn [fst snd].
        repeat match goal with
               | |- context [bool_decide ?P] => destruct (bool_decide P) eqn:?
               end; try (eexists; reflexivity).
        exfalso. apply Hg. eapply bool_decide_eq_true_1. eassumption.
      * intros Hret. exfalso. revert Hret.
        unfold open_write_close. rewrite bind_eq. unfold get, ret. cbn [fst snd].
        repeat match goal with
               | |- context [bool_decide ?P] => destruct (bool_decide P) eqn:?
               end; try discriminate.
        intros _. apply Hg. eapply bool_decide_eq_true_1. eassumption.
Qed.

Lemma protontricks_no_launch (verb : string) (w : world) :
  net_up (os (st w)) = false ∨ fst (checkinstalled verb w) = true →
  fst (protontricks verb w) = Returned false ∧
  st (snd (protontricks verb w)) = st w ∧
  spawned (trace (snd (protontricks verb w))) = spawned (trace w) ∧
  appended (trace (snd (protontricks verb w))) = appended (trace w).
Proof.
  intros Hcase.
  destruct (checkinstalled_world verb w) as [reads Hreads].
  destruct (fst (checkinstalled verb w)) eqn:Hi.
  - rewrite (protontricks_skip_eq verb w Hi), Hreads. cbn [fst snd st trace].
    rewrite spawned_app, appended_app, spawned_reads, appended_reads, !app_nil_r. auto.
  - destruct Hcase as [Hn | Hc]; [| discriminate].
    rewrite (protontricks_offline_eq verb w Hi Hn), check_internet_eq, Hreads.
    cbn [fst snd st trace].
    rewrite !spawned_app, !appended_app, spawned_reads, appended_reads, !app_nil_r. auto.
Qed.

(** X19: the fix for Sanoba Witch (2458530), which asks for [quartz],
    [wmp11] and [qasf], launches no program, appends to no file and
    leaves the machine as it is when the network is down, and also when
    the three verbs are installed already. *)
Theorem main_2458530_does_nothing (w : world) :
  net_up (os (st w)) = false ∨
  (fst (checkinstalled "quartz" w) = true ∧ fst (checkinstalled "wmp11" w) = true ∧
   fst (checkinstalled "qasf" w) = true) →
  st (snd (main_2458530 w)) = st w ∧
  spawned (trace (snd (main_2458530 w))) = spawned (trace w) ∧
  appended (trace (snd (main_2458530 w))) = appended (trace w).
Proof.
  intros Hcase.
  set (w1 := snd (protontricks "quartz" w)).
  set (w2 := snd (protontricks "wmp11" w1)).
  assert (H1 : fst (protontricks "quartz" w) = Returned false ∧
               st w1 = st w ∧ spawned (trace w1) = spawned (trace w) ∧
               appended (trace w1) = appended (trace w)).
  { apply protontricks_no_launch. tauto. }
  destruct H1 as (Hr1 & Hs1 & Hp1 & Ha1).
  assert (Hcase1 : net_up (os (st w1)) = false ∨ fst (checkinstalled "wmp11" w1) = true).
  { rewrite Hs1. rewrite (checkinstalled_ext "wmp11" w1 w Hs1). tauto. }
  destruct (protontricks_no_launch "wmp11" w1 Hcase1) as (Hr2 & Hs2 & Hp2 & Ha2).
  fold w2 in Hs2, Hp2, Ha2.
  assert (Hst2 : st w2 = st w) by congruence.
  assert (Hcase2 : net_up (os (st w2)) = false ∨ fst (checkinstalled "qasf" w2) = true).
  { rewrite Hst2. rewrite (checkinstalled_ext "qasf" w2 w Hst2). tauto. }
  destruct (protontricks_no_launch "qasf" w2 Hcase2) as (Hr3 & Hs3 & Hp3 & Ha3).
  assert (Hmain : main_2458530 w = (Returned tt, snd (protontricks "qasf" w2))).
  { unfold main_2458530. rewrite bind_eq, Hr1. fold w1.
    rewrite bind_eq, Hr2. fold w2. rewrite bind_eq, Hr3. reflexivity. }
  rewrite Hmain. cbn [snd]. repeat split; congruence.
Qed.

(** X20: the fix for Rainbow Six Siege (359550) writes the Ubisoft
    settings at most once in a prefix.  In a prefix without the marker of
    [disable_uplay_overlay], the first launch runs the function once and
    writes the marker, also when the function raises; at the second
    launch in the same prefix the function is not run, no file changes,
    the fix returns and [vk_x11_override_min_image_count] is [2] in both
    environments. *)
Theorem main_359550_runs_overlay_once (w0 : world) :
  let prefix := prefix_in (st w0) in
  let file := marker prefix disable_uplay_overlay in
  let first := main_359550 w0 in
  let second := main_359550 (snd first) in
  fst (path_exists file w0) = false →
  calls_of (func_id disable_uplay_overlay) (trace (snd first)) =
    S (calls_of (func_id disable_uplay_overlay) (trace w0)) ∧
  file ∈ dom (files (os (st (snd first)))) ∧
  fst second = Returned tt ∧
  calls_of (func_id disable_uplay_overlay) (trace (snd second)) =
    calls_of (func_id disable_uplay_overlay) (trace (snd first)) ∧
  files (os (st (snd second))) = files (os (st (snd first))) ∧
  environ (py (st (snd second))) !! "vk_x11_override_min_image_count" = Some "2" ∧
  session_env (py (st (snd second))) !! "vk_x11_override_min_image_count" = Some "2".
Proof.
  intros prefix file first second Hfresh.
  set (w0' := snd (ensure_directory (run_directory prefix) w0)).
  set (body := disable_uplay_overlay_body [] [] (st w0')).
  set (touched := snd (open_append file ""
                         (World (snd body)
                            (trace w0' ++ [EvCall (func_id disable_uplay_overlay) [] []])))).
  assert (Hpre_body : prefix_in (snd body) = prefix).
  { assert (Hpy : py (snd body) = py (st w0')).
    { unfold body, disable_uplay_overlay_body, mkdir_exist_ok.
      repeat match goal with
             | |- context [bool_decide ?P] => destruct (bool_decide P)
             | |- context [last ?l] => destruct (last l)
             end; reflexivity. }
    destruct (ensure_directory_frame prefix disable_uplay_overlay w0) as (_ & Hp & _ & _).
    fold w0' in Hp. unfold prefix. apply prefix_in_py. congruence. }
  assert (Hwrap : wrapper false disable_uplay_overlay [] [] w0 =
                  (match fst body with
                   | Raised exc => Raised exc
                   | Returned _ => Returned PyNone
                   end, touched)).
  { rewrite wrapper_eq. fold prefix. fold w0'. fold file.
    destruct (ensure_directory_frame prefix disable_uplay_overlay w0) as (_ & _ & Hm & _).
    fold w0' in Hm. fold file in Hm. rewrite Hm, Hfresh.
    change (fn_body disable_uplay_overlay [] [] (st w0')) with body.
    destruct (fst body); reflexivity. }
  assert (Htouched : file ∈ dom (files (os (st touched))) ∧
                     prefix_in (st touched) = prefix ∧
                     calls_of (func_id disable_uplay_overlay) (trace touched) =
                       S (calls_of (func_id disable_uplay_overlay) (trace w0))).
  { unfold touched, open_append, bind, emit, modify.
    cbn [fst snd st trace os py files with_os with_files].
    split; [apply elem_of_dom; rewrite lookup_insert_eq; eauto |].
    split; [exact Hpre_body |].
    rewrite !calls_of_app, calls_of_call, calls_of_append.
    unfold w0'. rewrite calls_of_ensure_directory. lia. }
  destruct Htouched as (Hin & Hpre & Hcalls).
  assert (Hfirst : files (os (st (snd first))) = files (os (st touched)) ∧
                   prefix_in (st (snd first)) = prefix ∧
                   trace (snd first) = trace touched).
  { unfold first, main_359550. rewrite bind_eq, Hwrap. cbn [fst snd].
    destruct (fst body); [| auto].
    rewrite bind_eq, set_environment_eq. cbn [ret fst snd st os trace].
    split; [reflexivity |]. split; [| reflexivity].
    rewrite <- Hpre. unfold prefix_in.
    cbn [py environ with_session_env with_environ].
    rewrite lookup_insert_ne by discriminate. reflexivity. }
  destruct Hfirst as (Hf1 & Hp1 & Ht1).
  assert (Hin1 : marker (prefix_in (st (snd first))) disable_uplay_overlay ∈
                 dom (files (os (st (snd first))))).
  { rewrite Hp1, Hf1. exact Hin. }
  assert (Hm1 : fst (path_exists (marker (prefix_in (st (snd first))) disable_uplay_overlay)
                        (snd first)) = true).
  { unfold path_exists. rewrite bind_eq. unfold get, ret. cbn [fst snd].
    rewrite bool_decide_eq_true_2 by exact Hin1. reflexivity. }
  assert (Hsecond : second =
            (Returned tt,
             snd (set_environment "vk_x11_override_min_image_count" "2"
                    (snd (ensure_directory (run_directory (prefix_in (st (snd first))))
                            (snd first)))))).
  { unfold second, main_359550.
    rewrite bind_eq, (wrapper_marked false disable_uplay_overlay [] [] (snd first) Hm1).
    cbn [fst snd]. rewrite bind_eq. reflexivity. }
  destruct (ensure_directory_frame (prefix_in (st (snd first))) disable_uplay_overlay
              (snd first)) as (Hf2 & _ & _ & _).
  split; [rewrite Ht1; exact Hcalls |].
  split; [rewrite Hf1; exact Hin |].
  rewrite Hsecond, set_environment_eq.
  cbn [fst snd st os py trace environ session_env with_session_env with_environ].
  rewrite calls_of_ensure_directory, !lookup_insert_eq.
  repeat split; try reflexivity. exact Hf2.
Qed.

End GameFixes.

Section Arguments.
Context `{!Runtime}.

Lemma checkinstalled_same_logs (verb : string) (w w' : world) :
  prefix_in (st w) = prefix_in (st w') →
  files (os (st w)) = files (os (st w')) →
  fst (checkinstalled verb w) = fst (checkinstalled verb w').
Proof.
  intros Hp Hf.
  assert (Hone : ∀ logfile,
            fst (_checkinstalled verb logfile w) = fst (_checkinstalled verb logfile w')).
  { intros logfile. apply _checkinstalled_ext; unfold protonprefix, bind, get, ret;
      cbn [fst]; [exact Hp | rewrite Hf; reflexivity]. }
  destruct (fst (checkinstalled verb w)) eqn:E.
  - symmetry. apply checkinstalled_true_iff. apply checkinstalled_true_iff in E.
    destruct E as [Hg [E | E]]; (split; [exact Hg |]); [left | right];
      rewrite <- Hone; exact E.
  - destruct (fst (checkinstalled verb w')) eqn:E'; [| reflexivity].
    apply checkinstalled_true_iff in E'. destruct E' as [Hg [E' | E']];
      rewrite <- Hone in E';
      assert (Ht : fst (checkinstalled verb w) = true)
        by (apply checkinstalled_true_iff; auto);
      congruence.
Qed.

Lemma run_winetricks_py (verb : string) (w : world) :
  py (st (snd (run_winetricks verb w))) =
  with_argv (wait_for_exit (argv (py (st w)))) (py (st w)).
Proof.
  pose proof (run_winetricks_eq verb w) as Hrun. cbv zeta in Hrun. rewrite Hrun.
  pose proof (launch_winetricks_eq verb w) as Hl. cbv zeta in Hl.
  assert (Hpy : py (st (snd (launch_winetricks verb w))) =
                with_argv (wait_for_exit (argv (py (st w)))) (py (st w)))
    by (rewrite Hl; reflexivity).
  destruct (fst (launch_winetricks verb w)) as [retc | exc]; [| exact Hpy].
  destruct (negb (retc =? 0)); [exact Hpy |].
  cbn [snd]. rewrite <- Hpy.
  pose proof (checkinstalled_st verb (snd (launch_winetricks verb w))) as Hst.
  destruct (fst (checkinstalled verb (snd (launch_winetricks verb w)))); cbn [negb ret snd].
  - rewrite Hst. reflexivity.
  - rewrite _forceinstalled_eq. cbn [snd st py with_os]. rewrite Hst. reflexivity.
Qed.

Lemma protontricks_argv (verb : string) (w : world) :
  argv (py (st (snd (protontricks verb w)))) =
  if negb (fst (checkinstalled verb w)) && net_up (os (st w))
  then wait_for_exit (argv (py (st w)))
  else argv (py (st w)).
Proof.
  destruct (fst (checkinstalled verb w)) eqn:Hi; cbn [negb andb].
  - rewrite (protontricks_skip_eq verb w Hi). cbn [snd].
    rewrite checkinstalled_st. reflexivity.
  - destruct (net_up (os (st w))) eqn:Hn.
    + rewrite (protontricks_online verb w Hi Hn), run_winetricks_py, check_internet_eq.
      cbn [snd st py argv with_argv]. rewrite checkinstalled_st. reflexivity.
    + rewrite (protontricks_offline_eq verb w Hi Hn), check_internet_eq.
      cbn [snd st]. rewrite checkinstalled_st. reflexivity.
Qed.

(** X21: an argument given to [append_argument] goes through the
    rewrite of [sys.argv] when [protontricks] launches winetricks
    afterwards.  An argument without [run] in it, such as the
    [-useembedded] of the fix for Endless Legend (289130), stays the last
    argument as it was given, and the command line is the same as when
    the argument is appended after [protontricks]; an argument that holds
    [run] but not [waitforexitandrun] does not arrive as it was given. *)
Theorem appended_argument_and_launch (verb argument : string) (w : world) :
  let appended_first := snd (protontricks verb (snd (append_argument argument w))) in
  let appended_last := snd (append_argument argument (snd (protontricks verb w))) in
  fst (checkinstalled verb w) = false →
  net_up (os (st w)) = true →
  argv (py (st appended_first)) = wait_for_exit (argv (py (st w)) ++ [argument]) ∧
  argv (py (st appended_last)) = wait_for_exit (argv (py (st w))) ++ [argument] ∧
  (Text.contains "run" argument = false →
   argv (py (st appended_first)) = argv (py (st appended_last)) ∧
   last (argv (py (st appended_first))) = Some argument) ∧
  (Text.contains "run" argument = true →
   Text.contains "waitforexitandrun" argument = false →
   last (argv (py (st appended_first))) ≠ Some argument).
Proof.
  intros appended_first appended_last Hi Hn.
  assert (Hfirst : argv (py (st appended_first)) =
                   wait_for_exit (argv (py (st w)) ++ [argument])).
  { unfold appended_first. rewrite protontricks_argv.
    assert (Hi' : fst (checkinstalled verb (snd (append_argument argument w))) = false).
    { rewrite <- Hi. apply checkinstalled_same_logs; reflexivity. }
    rewrite Hi'. unfold append_argument, modify. cbn [snd st os py argv with_py with_argv].
    rewrite Hn. reflexivity. }
  assert (Hlast : argv (py (st appended_last)) =
                  wait_for_exit (argv (py (st w))) ++ [argument]).
  { unfold appended_last, append_argument, modify. cbn [snd st py argv with_py with_argv].
    rewrite protontricks_argv, Hi, Hn. reflexivity. }
  split; [exact Hfirst |]. split; [exact Hlast |].
  rewrite Hfirst, Hlast. unfold wait_for_exit. rewrite map_app. cbn [map].
  split.
  - intros Hrun. rewrite (replace_absent "run" "waitforexitandrun" argument Hrun).
    destruct (negb _); rewrite last_snoc; auto.
  - intros Hrun Hwait. rewrite Hwait. cbn [negb]. rewrite last_snoc.
    intros Heq. injection Heq as Heq.
    assert (Hp : Text.contains "waitforexitandrun"
                   (Text.replace "run" "waitforexitandrun" argument) = true)
      by (apply replace_present; [exact Hrun | discriminate]).
    rewrite Heq in Hp. congruence.
Qed.

End Arguments.

(** ** The further properties on concrete machines *)

(** X1 with a setting, forced into a prefix whose regular log holds
    another verb. *)
Lemma forced_verb_is_installed_witness :
  newline_ended (forced_log_text (st w_installed)) = true ∧
  fst (@checkinstalled rt_silent "sound=alsa"
         (snd (_forceinstalled "sound=alsa" w_installed))) = true.
Proof.
  split; [vm_compute; reflexivity |].
  apply (@forced_verb_is_installed rt_silent "sound=alsa" w_installed).
  - discriminate.
  - repeat split; reflexivity.
  - right. exists "sound", "alsa". repeat split; reflexivity.
  - vm_compute. reflexivity.
Defined.

(** X2 with [sound=pulse] followed by [sound=alsa]. *)
Lemma latest_setting_decides_witness :
  fst (@_checkinstalled rt_silent "sound=alsa" "winetricks.log" w_two_sounds) = true ∧
  fst (@_checkinstalled rt_silent "sound=pulse" "winetricks.log" w_two_sounds) ≠ true.
Proof.
  split.
  - apply (@latest_setting_decides rt_silent "sound" "alsa" "alsa" "winetricks.log"
             (line "sound=pulse") w_two_sounds);
      try reflexivity; repeat split; reflexivity.
  - intros Hfound.
    apply (@latest_setting_decides rt_silent "sound" "pulse" "alsa" "winetricks.log"
             (line "sound=pulse") w_two_sounds) in Hfound;
      try reflexivity; [discriminate | repeat split; reflexivity].
Defined.

(** X3 with a second verb recorded after the first. *)
Lemma bare_verb_stays_installed_witness :
  fst (@_checkinstalled rt_silent "d3dx11_43" "winetricks.log" w_installed) = true ∧
  fst (@_checkinstalled rt_silent "d3dx11_43" "winetricks.log"
         (write_file (demo_prefix +:+ "winetricks.log")
            (Some (line "d3dx11_43" +:+ line "vcrun2019")) w_installed)) = true.
Proof.
  split; [vm_compute; reflexivity |].
  apply (@bare_verb_stays_installed rt_silent "d3dx11_43" "winetricks.log"
           (line "d3dx11_43") (line "vcrun2019") w_installed).
  - reflexivity.
  - reflexivity.
  - vm_compute. reflexivity.
  - vm_compute. reflexivity.
  - vm_compute. reflexivity.
Defined.

(** X4 with a winetricks that exits with 0 and records nothing. *)
Lemma protontricks_success_is_remembered_witness :
  fst (@protontricks rt_silent "d3dx11_43" w_fresh) = Returned true ∧
  fst (@protontricks rt_silent "d3dx11_43"
         (snd (@protontricks rt_silent "d3dx11_43" w_fresh))) = Returned false.
Proof.
  split; [vm_compute; reflexivity |].
  pose proof (@protontricks_success_is_remembered rt_silent "d3dx11_43" w_fresh) as Hx.
  cbv zeta in Hx.
  destruct Hx as (_ & A & _).
  - discriminate.
  - repeat split; reflexivity.
  - left. reflexivity.
  - vm_compute. reflexivity.
  - vm_compute. reflexivity.
  - exact A.
Defined.

(** X5 on a machine with two hanging helpers, and on one where a
    command line that is not UTF-8 comes before a hanging helper. *)
Example killhanging_two_helpers :
  _killhanging w_busy =
    (Returned tt, World (st w_busy) [EvKill 20; EvKill 22]) ∧
  _killhanging w_latin1 =
    (Raised (PyExc "UnicodeDecodeError" "utf-8"), w_latin1).
Proof. vm_compute. split; reflexivity. Qed.

(** X8 with a bundled verb file and no file of the user. *)
Lemma custom_verb_file_is_used_witness :
  "gothic" ≠ "gui" ∧
  spawned (trace (snd (@launch_winetricks rt_silent "gothic" w_bundled_verb))) =
    [["/steam/proton/files/bin/wineserver"; "-w"];
     ["/steam/proton/protonfixes/winetricks"; "--unattended";
      "/steam/proton/protonfixes/verbs/gothic.verb"]].
Proof.
  split; [discriminate |].
  pose proof (@custom_verb_file_is_used rt_silent "gothic" w_bundled_verb) as Hx.
  cbv zeta in Hx. destruct Hx as (A & _); [discriminate |].
  etrans; [exact A |]. vm_compute. reflexivity.
Defined.

(** X14 with two functions of the same module and name. *)
Lemma markers_do_not_collide_witness :
  marker demo_prefix disable_uplay_overlay = marker demo_prefix overlay_stub ∧
  fn_module disable_uplay_overlay = fn_module overlay_stub ∧
  fn_name disable_uplay_overlay = fn_name overlay_stub.
Proof.
  split; [reflexivity |].
  apply (markers_do_not_collide demo_prefix disable_uplay_overlay overlay_stub).
  - reflexivity.
  - reflexivity.
  - reflexivity.
Defined.

(** X15 under the retry policy, in the prefix that a first call has
    marked. *)
Lemma once_marked_is_noop_witness :
  let marked := snd (@wrapper false disable_uplay_overlay [] [] w_uplay) in
  let again := @wrapper true disable_uplay_overlay [] [] marked in
  fst again = Returned PyNone ∧
  calls_of (func_id disable_uplay_overlay) (trace (snd again)) = 1%nat.
Proof.
  intros marked again.
  pose proof (@once_marked_is_noop true disable_uplay_overlay [] [] marked) as Hx.
  cbv zeta in Hx. destruct Hx as (A & B & _).
  - apply elem_of_dom. vm_compute. eexists. reflexivity.
  - split; [exact A |]. etrans; [exact B |]. vm_compute. reflexivity.
Defined.

(** X16 with [disable_uplay_overlay], which returns [True] here. *)
Lemma once_retry_success_writes_marker_witness :
  let file := marker demo_prefix disable_uplay_overlay in
  let result := @wrapper true disable_uplay_overlay [] [] w_uplay in
  fst (path_exists file w_uplay) = false ∧
  fst result = Returned PyNone ∧
  result = @wrapper false disable_uplay_overlay [] [] w_uplay.
Proof.
  intros file result.
  split; [vm_compute; reflexivity |].
  pose proof (@once_retry_success_writes_marker disable_uplay_overlay [] [] w_uplay
                (PyBool true)) as Hx.
  cbv zeta in Hx. destruct Hx as (A & B & _).
  - vm_compute. reflexivity.
  - vm_compute. reflexivity.
  - split; [exact A | exact B].
Defined.

(** X18 in a game directory without [DLC.bdt]. *)
Lemma main_1245620_keeps_existing_witness :
  fst (get_game_install_path w_smt) = Returned "/games/eldenring" ∧
  fst (main_1245620 w_smt) = Returned tt ∧
  files (os (st (snd (main_1245620 w_smt)))) !! "/games/eldenring/Game/DLC.bdt" = Some "" ∧
  main_1245620 (snd (main_1245620 w_smt)) = (Returned tt, snd (main_1245620 w_smt)).
Proof.
  split; [vm_compute; reflexivity |].
  pose proof (main_1245620_keeps_existing w_smt "/games/eldenring") as Hx.
  cbv zeta in Hx. destruct Hx as (_ & A & _ & C); [vm_compute; reflexivity |].
  destruct A as (A1 & A2 & _).
  - vm_compute. reflexivity.
  - vm_compute. reflexivity.
  - split; [exact A1 |]. split; [| exact (C A1)].
    rewrite A2. apply lookup_insert_eq.
Defined.

(** X19 with the network down. *)
Lemma main_2458530_does_nothing_witness :
  net_up (os (st w_offline)) = false ∧
  st (snd (@main_2458530 rt_recording w_offline)) = st w_offline ∧
  spawned (trace (snd (@main_2458530 rt_recording w_offline))) = [].
Proof.
  split; [reflexivity |].
  destruct (@main_2458530_does_nothing rt_recording w_offline) as (A & B & _).
  - left. reflexivity.
  - split; [exact A | exact B].
Defined.

(** X20 in a prefix where the settings can be written. *)
Lemma main_359550_runs_overlay_once_witness :
  let first := main_359550 w_uplay in
  let second := main_359550 (snd first) in
  fst (path_exists (marker demo_prefix disable_uplay_overlay) w_uplay) = false ∧
  calls_of (func_id disable_uplay_overlay) (trace (snd second)) = 1%nat ∧
  fst second = Returned tt.
Proof.
  intros first second.
  split; [vm_compute; reflexivity |].
  pose proof (main_359550_runs_overlay_once w_uplay) as Hx.
  cbv zeta in Hx. destruct Hx as (A & _ & B & C & _); [vm_compute; reflexivity |].
  split; [| exact B].
  etrans; [exact C |]. etrans; [exact A |]. reflexivity.
Defined.

(** X21 with the argument of the fix for Endless Legend. *)
Lemma appended_argument_and_launch_witness :
  fst (@checkinstalled rt_silent "d3dx11_43" w_fresh) = false ∧
  net_up (os (st w_fresh)) = true ∧
  argv (py (st (snd (@protontricks rt_silent "d3dx11_43"
                       (snd (append_argument "-useembedded" w_fresh)))))) =
    ["/steam/proton/proton"; "waitforexitandrun"; "/games/dcs/bin/DCS.exe"; "-useembedded"].
Proof.
  split; [vm_compute; reflexivity |]. split; [reflexivity |].
  pose proof (@appended_argument_and_launch rt_silent "d3dx11_43" "-useembedded" w_fresh) as Hx.
  cbv zeta in Hx. destruct Hx as (A & _); [vm_compute; reflexivity | reflexivity |].
  etrans; [exact A |]. vm_compute. reflexivity.
Defined.

(** An argument with [run] in it is rewritten by the launch. *)
Example appended_argument_rewritten :
  last (argv (py (st (snd (@protontricks rt_silent "d3dx11_43"
                             (snd (append_argument "-norunlauncher" w_fresh))))))) =
    Some "-nowaitforexitandrunlauncher".
Proof. vm_compute. reflexivity. Qed.

(** X11 and X12 on a machine with SMT and 16 logical cores: eight
    cores are set, whatever limit is passed. *)
Example nosmt_halves_the_cores :
  let result := set_cpu_topology_nosmt (Some 16) 4 false 2 w_smt in
  fst result = Returned true ∧
  environ (py (st (snd result))) !! "WINE_CPU_TOPOLOGY" = Some "8:0,1,2,3,4,5,6,7".
Proof. vm_compute. split; reflexivity. Qed.

(** X13 on the same machine: a limit of 4 is applied, a limit of 16 is
    not. *)
Example limit_below_the_count :
  let limited := set_cpu_topology_limit (Some 16) 4 false w_smt in
  fst limited = true ∧
  environ (py (st (snd limited))) !! "WINE_CPU_TOPOLOGY" = Some "4:0,1,2,3" ∧
  set_cpu_topology_limit (Some 16) 16 false w_smt = (false, w_smt).
Proof. vm_compute. repeat split; reflexivity. Qed.

Section DllOverrides.
Context `{!Proton}.

(** Whatever Proton's [append_to_env_str] does with the mapping that it
    is given, [winedll_override] leaves [os.environ] as it is. *)
Lemma winedll_override_session_only (dll dtype : string) (w : world) :
  let w' := snd (winedll_override dll dtype w) in
  environ (py (st w')) = environ (py (st w)) ∧
  session_env (py (st w')) =
    append_to_env_str (session_env (py (st w))) "WINEDLLOVERRIDES" (dll +:+ "=" +:+ dtype) ";" ∧
  os (st w') = os (st w) ∧ argv (py (st w')) = argv (py (st w)) ∧ trace w' = trace w.
Proof. repeat split. Qed.

End DllOverrides.
